(** * Reservation and electricity reports: a shallow embedding

    The repository holds three scripts: [TaskC/task_c.py] (reservation
    report), [TaskD/task_d.py] (one weekly electricity table) and
    [TaskE/task_e.py] (all weekly tables written to [summary.txt]).

    Modelling conventions.
    - A Python [str] is a Rocq [string]; the character classes used by
      [str.strip], [int], [float], [str.isdigit] and the regular expressions
      of [strptime] are those of the ASCII range.
    - A Python [int] is a [Z]; a Python [float] is an IEEE-754 binary64 value,
      given by the Standard Library's executable specification [spec_float]
      at precision 53 and maximal exponent 1024.
    - A raised exception is the [Err] branch of [result]; loops thread their
      state and stop at the first [Err].
    - A text file is the list of lines its iterator yields; a CSV file is the
      list of records [csv.reader] yields for it; a directory is a finite map
      from file names to contents.
    - Library functions follow the documentation of Python 3 and the
      sources of CPython: [int] and [float] on strings, the directive table
      of [_strptime], the proleptic Gregorian calendar of [datetime],
      [csv.DictReader], [str.format] with [.2f] (correct rounding, ties to
      even). [sum] adds from left to right, as documented. Path names
      compare as strings (POSIX). [datetime.fromisoformat], whose grammar
      changes between versions of Python, is a parameter. [strftime] writes
      a year as glibc does, without leading zeros. The limit that [int] sets
      on the number of digits of a numeral, 4300 unless configured, is left
      out. *)

From Stdlib Require Import ZArith NArith String Ascii List Bool Lia.
From Stdlib Require Import SpecFloat DecimalString DecimalN DecimalFacts.
From stdpp Require Import gmap strings list sorting.

Open Scope string_scope.
Open Scope Z_scope.

(** ** Exceptions *)

(** The [ValueError]s the scripts can raise, by message. *)
Inductive value_error : Type :=
  | InvalidIntLiteral (raw : string)
      (* invalid literal for int() with base 10: 'raw' *)
  | CouldNotConvertFloat (raw : string)
      (* could not convert string to float: 'raw' *)
  | TimeDataMismatch (raw fmt : string)
      (* time data 'raw' does not match format 'fmt' *)
  | UnconvertedData (rest : string)
      (* unconverted data remains: rest *)
  | OutOfRange (msg : string)
      (* year 0 is out of range; day is out of range for month; ... *)
  | BadDirective (d : string)
      (* 'd' is a bad directive in format ... *)
  | InvalidIsoformat (raw : string).
      (* Invalid isoformat string: 'raw' *)

Inductive exn : Type :=
  | ValueError (e : value_error)
  | IndexError
  | KeyError (key : string)
  | TypeError
  | OverflowError.

Inductive result (A : Type) : Type :=
  | Ok (a : A)
  | Err (e : exn).
Arguments Ok {A} a.
Arguments Err {A} e.

Definition bind {A B} (r : result A) (f : A -> result B) : result B :=
  match r with
  | Ok a => f a
  | Err e => Err e
  end.

Notation "'let*' x ':=' r 'in' k" := (bind r (fun x => k))
  (at level 10, x pattern, r at level 100, k at level 200).

(** [for x in l: acc = body(acc, x)], leaving at the first exception. *)
Fixpoint for_each {A S} (body : S -> A -> result S) (l : list A) (acc : S)
  : result S :=
  match l with
  | [] => Ok acc
  | x :: l' => let* acc' := body acc x in for_each body l' acc'
  end.

(** A list comprehension [[f(x) for x in l]]. *)
Fixpoint comprehension {A B} (f : A -> result B) (l : list A)
  : result (list B) :=
  match l with
  | [] => Ok []
  | x :: l' =>
      let* y := f x in
      let* ys := comprehension f l' in
      Ok (y :: ys)
  end.

Definition is_ok {A} (r : result A) : bool :=
  match r with Ok _ => true | Err _ => false end.

(** ** Python strings *)
Module PyStr.

Definition code (c : ascii) : N := N_of_ascii c.

(** [str.isspace] on the ASCII range: TAB, LF, VT, FF, CR, FS, GS, RS, US
    and the space. *)
Definition is_space (c : ascii) : bool :=
  ((9 <=? code c) && (code c <=? 13) || (28 <=? code c) && (code c <=? 32))%N.

Definition is_digit (c : ascii) : bool :=
  ((48 <=? code c) && (code c <=? 57))%N.

Fixpoint lstrip (s : string) : string :=
  match s with
  | String c s' => if is_space c then lstrip s' else s
  | EmptyString => EmptyString
  end.

Fixpoint rstrip (s : string) : string :=
  match s with
  | String c s' =>
      match rstrip s' with
      | EmptyString => if is_space c then EmptyString else String c EmptyString
      | t => String c t
      end
  | EmptyString => EmptyString
  end.

(** [s.strip()] *)
Definition strip (s : string) : string := rstrip (lstrip s).

(** [s.split(sep)] for a one-character separator; never empty. *)
Fixpoint split (sep : ascii) (s : string) : list string :=
  match s with
  | EmptyString => [EmptyString]
  | String c s' =>
      if Ascii.eqb c sep then EmptyString :: split sep s'
      else match split sep s' with
           | w :: ws => String c w :: ws
           | [] => [String c EmptyString]
           end
  end.

(** [sep.join(l)] *)
Fixpoint join (sep : string) (l : list string) : string :=
  match l with
  | [] => EmptyString
  | [x] => x
  | x :: l' => x +:+ sep +:+ join sep l'
  end.

(** [s.replace(a, b)] for one-character [a] and [b]. *)
Fixpoint replace (a b : ascii) (s : string) : string :=
  match s with
  | EmptyString => EmptyString
  | String c s' => String (if Ascii.eqb c a then b else c) (replace a b s')
  end.

Fixpoint repeat_char (c : ascii) (n : nat) : string :=
  match n with
  | O => EmptyString
  | S n' => String c (repeat_char c n')
  end.

(** [f"{s:<n}"]: pad with spaces on the right up to [n] characters. *)
Definition ljust (n : nat) (s : string) : string :=
  s +:+ repeat_char " " (n - String.length s).

(** Zero padding on the left, as the [%d], [%m], [%H] ... fields of
    [strftime] and the [02d] format do. *)
Definition zfill (n : nat) (s : string) : string :=
  repeat_char "0" (n - String.length s) +:+ s.

Fixpoint filter_chars (p : ascii -> bool) (s : string) : string :=
  match s with
  | EmptyString => EmptyString
  | String c s' => if p c then String c (filter_chars p s') else filter_chars p s'
  end.

Fixpoint all_chars (p : ascii -> bool) (s : string) : bool :=
  match s with
  | EmptyString => true
  | String c s' => p c && all_chars p s'
  end.

(** [s.isdigit()]: at least one character, all of them digits. *)
Definition isdigit (s : string) : bool :=
  match s with
  | EmptyString => false
  | _ => all_chars is_digit s
  end.

Definition lower_char (c : ascii) : ascii :=
  if ((65 <=? code c) && (code c <=? 90))%N then ascii_of_N (code c + 32) else c.

Fixpoint lower (s : string) : string :=
  match s with
  | EmptyString => EmptyString
  | String c s' => String (lower_char c) (lower s')
  end.

Definition startswith (p s : string) : bool := String.prefix p s.

Fixpoint rev_acc (s acc : string) : string :=
  match s with
  | EmptyString => acc
  | String c s' => rev_acc s' (String c acc)
  end.

Definition endswith (p s : string) : bool :=
  String.prefix (rev_acc p EmptyString) (rev_acc s EmptyString).

End PyStr.

(** ** Python numbers *)
Module PyNum.
Import PyStr.

(** *** int *)

(** Underscores of a numeric literal: each one stands between two digits.
    The result is the literal without them. *)
Fixpoint drop_underscores (prev : option ascii) (s : string) : option string :=
  match s with
  | EmptyString =>
      match prev with
      | Some "_"%char => None
      | _ => Some EmptyString
      end
  | String "_" s' =>
      match prev with
      | Some p => if is_digit p then drop_underscores (Some "_"%char) s' else None
      | None => None
      end
  | String c s' =>
      match prev with
      | Some "_"%char =>
          if is_digit c then option_map (String c) (drop_underscores (Some c) s')
          else None
      | _ => option_map (String c) (drop_underscores (Some c) s')
      end
  end.

(** The white space that [int] and [float] skip at both ends of a text of
    ASCII: that of C's [isspace], which has not the separators FS to US that
    [str.strip] removes. *)
Definition is_c_space (c : ascii) : bool :=
  ((9 <=? code c) && (code c <=? 13) || (code c =? 32))%N.

Fixpoint lstrip_c (s : string) : string :=
  match s with
  | String c s' => if is_c_space c then lstrip_c s' else s
  | EmptyString => EmptyString
  end.

Fixpoint rstrip_c (s : string) : string :=
  match s with
  | String c s' =>
      match rstrip_c s' with
      | EmptyString => if is_c_space c then EmptyString else String c EmptyString
      | t => String c t
      end
  | EmptyString => EmptyString
  end.

Definition strip_c (s : string) : string := rstrip_c (lstrip_c s).

Definition split_sign (s : string) : bool * string :=
  match s with
  | String "-" s' => (true, s')
  | String "+" s' => (false, s')
  | _ => (false, s)
  end.

(** Value of a string of decimal digits. *)
Definition digits_value (s : string) : N :=
  match NilEmpty.uint_of_string s with
  | Some d => N.of_uint d
  | None => 0%N
  end.

(** [int(s)] *)
Definition int (s : string) : result Z :=
  let (neg, body) := split_sign (strip_c s) in
  match drop_underscores None body with
  | Some ds =>
      if isdigit ds
      then Ok (if neg then - Z.of_N (digits_value ds) else Z.of_N (digits_value ds))
      else Err (ValueError (InvalidIntLiteral s))
  | None => Err (ValueError (InvalidIntLiteral s))
  end.

(** [str(n)] for an [int]. *)
Definition str (n : Z) : string :=
  match n with
  | Zneg p => "-" +:+ NilEmpty.string_of_uint (Pos.to_uint p)
  | _ => NilEmpty.string_of_uint (N.to_uint (Z.to_N n))
  end.

(** *** float *)

Definition float : Type := spec_float.
Definition prec : Z := 53.
Definition emax : Z := 1024.

Definition fadd : float -> float -> float := SFadd prec emax.
Definition fmul : float -> float -> float := SFmul prec emax.
(** True division; the scripts only divide by the constant [1000.0]. *)
Definition fdiv : float -> float -> float := SFdiv prec emax.

Definition fzero : float := S754_zero false.

(** The nearest binary64 value of an integer, ties to even. *)
Definition of_Z (z : Z) : float := binary_normalize prec emax z 0 false.

(** Conversion of an [int] operand of a float operation; an [int] beyond
    the range of binary64 raises [OverflowError]. *)
Definition of_int (z : Z) : result float :=
  match of_Z z with
  | S754_infinity _ => Err OverflowError
  | f => Ok f
  end.

Definition f1000 : float := Eval vm_compute in of_Z 1000.

(** The nearest binary64 value of [m * 10^e]. *)
Definition of_decimal (neg : bool) (m : N) (e : Z) : float :=
  match m with
  | N0 => S754_zero neg
  | Npos p =>
      if 0 <=? e
      then binary_round prec emax neg (p * Z.to_pos (10 ^ e)) 0
      else SFdiv prec emax (S754_finite neg p 0)
                           (S754_finite false (Z.to_pos (10 ^ (- e))) 0)
  end.

Fixpoint span (p : ascii -> bool) (s : string) : string * string :=
  match s with
  | String c s' =>
      if p c then let (a, b) := span p s' in (String c a, b)
      else (EmptyString, s)
  | EmptyString => (EmptyString, EmptyString)
  end.

(** A decimal literal: digits, an optional point and digits, an optional
    exponent; at least one digit before the exponent. *)
Definition parse_decimal (t : string) : option (N * Z) :=
  let (ip, r1) := span is_digit t in
  let (fp, r2) :=
    match r1 with
    | String "." r => span is_digit r
    | _ => (EmptyString, r1)
    end in
  match ip +:+ fp with
  | EmptyString => None
  | ds =>
      let shift := Z.of_nat (String.length fp) in
      match r2 with
      | EmptyString => Some (digits_value ds, - shift)
      | String c r3 =>
          if Ascii.eqb (lower_char c) "e"
          then let (eneg, ed) := split_sign r3 in
               if isdigit ed
               then let ev := Z.of_N (digits_value ed) in
                    Some (digits_value ds, (if eneg then - ev else ev) - shift)
               else None
          else None
      end
  end.

(** [float(s)] *)
Definition float_of_string (s : string) : result float :=
  match drop_underscores None (strip_c s) with
  | None => Err (ValueError (CouldNotConvertFloat s))
  | Some t =>
      let (neg, body) := split_sign t in
      let name := lower body in
      if String.eqb name "inf" || String.eqb name "infinity"
      then Ok (S754_infinity neg)
      else if String.eqb name "nan" then Ok S754_nan
      else match parse_decimal body with
           | Some (m, e) => Ok (of_decimal neg m e)
           | None => Err (ValueError (CouldNotConvertFloat s))
           end
  end.

(** [n / d] rounded to the nearest integer, ties to even ([0 < d]). *)
Definition round_half_even (n d : Z) : Z :=
  let q := n / d in
  match (2 * (n mod d)) ?= d with
  | Lt => q
  | Gt => q + 1
  | Eq => if Z.even q then q else q + 1
  end.

(** The magnitude of a finite value in hundredths, correctly rounded. *)
Definition hundredths (m : positive) (e : Z) : Z :=
  if 0 <=? e then Zpos m * 100 * 2 ^ e
  else round_half_even (Zpos m * 100) (2 ^ (- e)).

Definition sign_text (s : bool) : string := if s then "-" else "".

(** [f"{x:.2f}"] *)
Definition format_2f (x : float) : string :=
  match x with
  | S754_nan => "nan"
  | S754_infinity s => sign_text s +:+ "inf"
  | S754_zero s => sign_text s +:+ "0.00"
  | S754_finite s m e =>
      let c := hundredths m e in
      sign_text s +:+ str (c / 100) +:+ "." +:+ zfill 2 (str (c mod 100))
  end.

End PyNum.

(** ** Dates and times: the parts of Python's [datetime] the scripts use *)
Module Datetime.
Import PyStr.

Record date : Type := { year : Z; month : Z; day : Z }.
Record time : Type := { hour : Z; minute : Z; second : Z }.
Record datetime : Type := { dt_date : date; dt_time : time }.

#[global] Instance date_eq_dec : EqDecision date.
Proof. solve_decision. Defined.

#[global] Instance date_countable : Countable date.
Proof.
  refine (inj_countable' (fun d => (year d, month d, day d))
            (fun t => {| year := t.1.1; month := t.1.2; day := t.2 |}) _).
  by intros [].
Defined.

(** *** The calendar *)

Definition is_leap (y : Z) : bool :=
  (y mod 4 =? 0) && (negb (y mod 100 =? 0) || (y mod 400 =? 0)).

Definition days_in_month (y m : Z) : Z :=
  if m =? 2 then (if is_leap y then 29 else 28)
  else if (m =? 4) || (m =? 6) || (m =? 9) || (m =? 11) then 30
  else 31.

Definition days_before_year (y : Z) : Z :=
  let p := y - 1 in p * 365 + p / 4 - p / 100 + p / 400.

Definition days_before_month (y m : Z) : Z :=
  nth (Z.to_nat m) [0; 0; 31; 59; 90; 120; 151; 181; 212; 243; 273; 304; 334] 0
  + (if (2 <? m) && is_leap y then 1 else 0).

(** [d.toordinal()]: 0001-01-01 is day 1. *)
Definition toordinal (d : date) : Z :=
  days_before_year (year d) + days_before_month (year d) (month d) + day d.

(** [d.weekday()]: Monday is 0, Sunday is 6. *)
Definition weekday (d : date) : Z := (toordinal d + 6) mod 7.

(** The order of [date] objects: by year, then month, then day. *)
Definition date_le (a b : date) : Prop :=
  year a < year b
  \/ (year a = year b
      /\ (month a < month b \/ (month a = month b /\ day a <= day b))).

Definition date_lt (a b : date) : Prop :=
  year a < year b
  \/ (year a = year b
      /\ (month a < month b \/ (month a = month b /\ day a < day b))).

#[global] Instance date_le_dec (a b : date) : Decision (date_le a b).
Proof. unfold date_le. apply _. Defined.

(** *** [strptime]

    [strptime] turns the format into a regular expression: one group of
    ordered alternatives per directive, a run of white space for each
    blank, the other characters as they stand. The expression is matched
    at the start of the text by backtracking; what it leaves unread is an
    error. *)

Inductive cclass : Type :=
  | CDigit                       (* \d *)
  | CRange (lo hi : ascii)       (* [lo-hi] *)
  | CChar (c : ascii).

Definition cmatch (k : cclass) (c : ascii) : bool :=
  match k with
  | CDigit => is_digit c
  | CRange lo hi => ((code lo <=? code c) && (code c <=? code hi))%N
  | CChar c' => Ascii.eqb c' c
  end.

Definition alt : Type := list cclass.

Inductive item : Type :=
  | Group (name : ascii) (alts : list alt)
  | Lit (c : ascii)
  | Spaces.

Definition directive (d : ascii) : option (list alt) :=
  match d with
  | "Y"%char => Some [[CDigit; CDigit; CDigit; CDigit]]
  | "m"%char => Some [[CChar "1"; CRange "0" "2"]; [CChar "0"; CRange "1" "9"];
                      [CRange "1" "9"]]
  | "d"%char => Some [[CChar "3"; CRange "0" "1"]; [CRange "1" "2"; CDigit];
                      [CChar "0"; CRange "1" "9"]; [CRange "1" "9"];
                      [CChar " "; CRange "1" "9"]]
  | "H"%char => Some [[CChar "2"; CRange "0" "3"]; [CRange "0" "1"; CDigit];
                      [CDigit]]
  | "M"%char => Some [[CRange "0" "5"; CDigit]; [CDigit]]
  | "S"%char => Some [[CChar "6"; CRange "0" "1"]; [CRange "0" "5"; CDigit];
                      [CDigit]]
  | _ => None
  end.

(** The expression of a format; [Err] on a directive the scripts never use. *)
Fixpoint compile (fmt : string) : result (list item) :=
  match fmt with
  | EmptyString => Ok []
  | String "%" (String d fmt') =>
      match directive d with
      | Some alts => let* p := compile fmt' in Ok (Group d alts :: p)
      | None => Err (ValueError (BadDirective (String d EmptyString)))
      end
  | String c fmt' =>
      let* p := compile fmt' in
      Ok (if is_space c
          then match p with Spaces :: _ => p | _ => Spaces :: p end
          else Lit c :: p)
  end.

Fixpoint match_alt (a : alt) (s : string) : option (string * string) :=
  match a, s with
  | [], _ => Some (EmptyString, s)
  | k :: a', String c s' =>
      if cmatch k c
      then match match_alt a' s' with
           | Some (t, r) => Some (String c t, r)
           | None => None
           end
      else None
  | _ :: _, EmptyString => None
  end.

Section Backtracking.
Context {R : Type}.

(** The first alternative, in order, after which the rest [k] matches. *)
Fixpoint try_alts (k : string -> string -> option R) (alts : list alt)
    (s : string) : option R :=
  match alts with
  | [] => None
  | a :: alts' =>
      match match_alt a s with
      | Some (t, r) =>
          match k t r with
          | Some x => Some x
          | None => try_alts k alts' s
          end
      | None => try_alts k alts' s
      end
  end.

(** [\s*], longest run first. *)
Fixpoint spaces_star (k : string -> option R) (s : string) : option R :=
  match s with
  | String c s' =>
      if is_space c
      then match spaces_star k s' with
           | Some x => Some x
           | None => k s
           end
      else k s
  | EmptyString => k s
  end.

(** [\s+] *)
Definition spaces_plus (k : string -> option R) (s : string) : option R :=
  match s with
  | String c s' => if is_space c then spaces_star k s' else None
  | EmptyString => None
  end.
End Backtracking.

(** The groups' texts, by directive, and what is left of the text. *)
Fixpoint match_items (p : list item) (s : string)
  : option (list (ascii * string) * string) :=
  match p with
  | [] => Some ([], s)
  | Lit c :: p' =>
      match s with
      | String c' s' => if Ascii.eqb c c' then match_items p' s' else None
      | EmptyString => None
      end
  | Spaces :: p' => spaces_plus (match_items p') s
  | Group n alts :: p' =>
      try_alts (fun t r =>
                  match match_items p' r with
                  | Some (caps, rest) => Some ((n, t) :: caps, rest)
                  | None => None
                  end) alts s
  end.

(** The fields [_strptime] collects, with their defaults. *)
Record fields : Type :=
  { f_year : Z; f_month : Z; f_day : Z;
    f_hour : Z; f_minute : Z; f_second : Z }.

Definition default_fields : fields :=
  {| f_year := 1900; f_month := 1; f_day := 1;
     f_hour := 0; f_minute := 0; f_second := 0 |}.

Definition set_field (f : fields) (cap : ascii * string) : result fields :=
  let* v := PyNum.int (snd cap) in
  Ok match fst cap with
     | "Y"%char => {| f_year := v; f_month := f_month f; f_day := f_day f;
                      f_hour := f_hour f; f_minute := f_minute f; f_second := f_second f |}
     | "m"%char => {| f_year := f_year f; f_month := v; f_day := f_day f;
                      f_hour := f_hour f; f_minute := f_minute f; f_second := f_second f |}
     | "d"%char => {| f_year := f_year f; f_month := f_month f; f_day := v;
                      f_hour := f_hour f; f_minute := f_minute f; f_second := f_second f |}
     | "H"%char => {| f_year := f_year f; f_month := f_month f; f_day := f_day f;
                      f_hour := v; f_minute := f_minute f; f_second := f_second f |}
     | "M"%char => {| f_year := f_year f; f_month := f_month f; f_day := f_day f;
                      f_hour := f_hour f; f_minute := v; f_second := f_second f |}
     | "S"%char => {| f_year := f_year f; f_month := f_month f; f_day := f_day f;
                      f_hour := f_hour f; f_minute := f_minute f; f_second := v |}
     | _ => f
     end.

(** The checks of the [date] and [datetime] constructors that values read
    by the expressions above can fail. *)
Definition check_fields (f : fields) : result datetime :=
  if f_year f <? 1 then Err (ValueError (OutOfRange "year 0 is out of range"))
  else if days_in_month (f_year f) (f_month f) <? f_day f
  then Err (ValueError (OutOfRange "day is out of range for month"))
  else if 59 <? f_second f
  then Err (ValueError (OutOfRange "second must be in 0..59"))
  else Ok {| dt_date := {| year := f_year f; month := f_month f; day := f_day f |};
             dt_time := {| hour := f_hour f; minute := f_minute f;
                           second := f_second f |} |}.

(** [datetime.strptime(s, fmt)] *)
Definition strptime (s fmt : string) : result datetime :=
  let* p := compile fmt in
  match match_items p s with
  | None => Err (ValueError (TimeDataMismatch s fmt))
  | Some (caps, EmptyString) =>
      let* f := for_each set_field caps default_fields in
      check_fields f
  | Some (_, rest) => Err (ValueError (UnconvertedData rest))
  end.

(** *** [strftime]

    The C library writes the fields. Months, days, hours, minutes and
    seconds have two digits. The year of [%Y] is written in decimal as it
    is: glibc adds no leading zero to a year below 1000, where other
    libraries write four digits; from the year 1000 on all write the same
    four digits. *)

Definition format_directive (d : ascii) (dt : datetime) : string :=
  match d with
  | "Y"%char => PyNum.str (year (dt_date dt))
  | "m"%char => zfill 2 (PyNum.str (month (dt_date dt)))
  | "d"%char => zfill 2 (PyNum.str (day (dt_date dt)))
  | "H"%char => zfill 2 (PyNum.str (hour (dt_time dt)))
  | "M"%char => zfill 2 (PyNum.str (minute (dt_time dt)))
  | "S"%char => zfill 2 (PyNum.str (second (dt_time dt)))
  | _ => String "%" (String d EmptyString)
  end.

(** [dt.strftime(fmt)] *)
Fixpoint strftime (dt : datetime) (fmt : string) : string :=
  match fmt with
  | EmptyString => EmptyString
  | String "%" (String d fmt') => format_directive d dt +:+ strftime dt fmt'
  | String c fmt' => String c (strftime dt fmt')
  end.

Definition midnight : time := {| hour := 0; minute := 0; second := 0 |}.
Definition epoch_day : date := {| year := 1900; month := 1; day := 1 |}.

(** [d.strftime(fmt)] and [t.strftime(fmt)] *)
Definition date_strftime (d : date) (fmt : string) : string :=
  strftime {| dt_date := d; dt_time := midnight |} fmt.
Definition time_strftime (t : time) (fmt : string) : string :=
  strftime {| dt_date := epoch_day; dt_time := t |} fmt.

End Datetime.

(** [l[i]] for [0 <= i]. *)
Definition getitem {A} (l : list A) (i : nat) : result A :=
  match l !! i with
  | Some x => Ok x
  | None => Err IndexError
  end.

(** ** TaskC/task_c.py: the reservation report *)
Module TaskC.
Import PyStr.

(** A converted reservation: the eleven entries of the list [converted],
    in order. *)
Record Reservation : Type :=
  { reservationId : Z;
    name : string;
    email : string;
    phone : string;
    reservationDate : Datetime.date;
    reservationTime : Datetime.time;
    durationHours : Z;
    price : PyNum.float;
    confirmed : bool;
    reservedResource : string;
    createdAt : Datetime.datetime }.

(** The conversions of [convert_reservation_data] after the last field has
    been stripped. *)
Definition convert_fields (reservation : list string) : result Reservation :=
  let* f0 := getitem reservation 0 in
  let* v0 := PyNum.int f0 in
  let* v1 := getitem reservation 1 in
  let* v2 := getitem reservation 2 in
  let* v3 := getitem reservation 3 in
  let* f4 := getitem reservation 4 in
  let* v4 := Datetime.strptime f4 "%Y-%m-%d" in
  let* f5 := getitem reservation 5 in
  let* v5 := Datetime.strptime f5 "%H:%M" in
  let* f6 := getitem reservation 6 in
  let* v6 := PyNum.int f6 in
  let* f7 := getitem reservation 7 in
  let* v7 := PyNum.float_of_string f7 in
  let* f8 := getitem reservation 8 in
  let* v9 := getitem reservation 9 in
  let* f10 := getitem reservation 10 in
  let* v10 := Datetime.strptime f10 "%Y-%m-%d %H:%M:%S" in
  Ok {| reservationId := v0; name := v1; email := v2; phone := v3;
        reservationDate := Datetime.dt_date v4;
        reservationTime := Datetime.dt_time v5;
        durationHours := v6; price := v7;
        confirmed := String.eqb f8 "True";
        reservedResource := v9; createdAt := v10 |}.

(** [convert_reservation_data(reservation)]: the caller's list after the
    call, and what the call returns or raises. The first statement
    replaces the last element in place ([reservation[-1]]); on an empty
    list it raises and nothing is changed. *)
Definition convert_reservation_data (reservation : list string)
  : list string * result Reservation :=
  let i := (length reservation - 1)%nat in
  match reservation !! i with
  | None => (reservation, Err IndexError)
  | Some x =>
      let reservation' := <[i := strip x]> reservation in
      (reservation', convert_fields reservation')
  end.

(** [fetch_reservations], over the lines of the file. *)
Definition fetch_reservations (lines : list string) : result (list Reservation) :=
  for_each (fun reservations line =>
              let fields := split "|" line in
              let* r := snd (convert_reservation_data fields) in
              Ok (reservations ++ [r])%list)
           lines [].

(** The report functions; each returns the lines it prints. *)

Definition confirmed_reservations (reservations : list Reservation) : list string :=
  flat_map (fun r =>
    if confirmed r
    then ["- " +:+ name r +:+ ", " +:+ reservedResource r +:+ ", "
          +:+ Datetime.date_strftime (reservationDate r) "%d.%m.%Y"
          +:+ " at " +:+ Datetime.time_strftime (reservationTime r) "%H.%M"]
    else []) reservations.

Definition long_reservations (reservations : list Reservation) : list string :=
  flat_map (fun r =>
    if 3 <=? durationHours r
    then ["- " +:+ name r +:+ ", "
          +:+ Datetime.date_strftime (reservationDate r) "%d.%m.%Y"
          +:+ " at " +:+ Datetime.time_strftime (reservationTime r) "%H.%M"
          +:+ ", duration " +:+ PyNum.str (durationHours r) +:+ " h, "
          +:+ reservedResource r]
    else []) reservations.

Definition confirmation_statuses (reservations : list Reservation) : list string :=
  map (fun r =>
         name r +:+ " → " +:+ (if confirmed r then "Confirmed" else "Not Confirmed"))
      reservations.

Definition confirmation_summary (reservations : list Reservation) : list string :=
  let confirmed_n := Z.of_nat (length (filter (fun r => confirmed r = true) reservations)) in
  let not_confirmed := Z.of_nat (length reservations) - confirmed_n in
  ["- Confirmed reservations: " +:+ PyNum.str confirmed_n +:+ " pcs";
   "- Not confirmed reservations: " +:+ PyNum.str not_confirmed +:+ " pcs"].

(** [sum(r[7] * r[6] for r in reservations if r[8])]: the builtin adds the
    items from left to right to its start value [0]; the [int] operand of
    each product is converted to [float]. *)
Definition revenue_sum (reservations : list Reservation) : result PyNum.float :=
  for_each (fun total r =>
              if confirmed r
              then let* hours := PyNum.of_int (durationHours r) in
                   Ok (PyNum.fadd total (PyNum.fmul (price r) hours))
              else Ok total)
           reservations PyNum.fzero.

Definition total_revenue (reservations : list Reservation) : result (list string) :=
  let* total := revenue_sum reservations in
  let amount_str := replace "." "," (PyNum.format_2f total) in
  Ok ["Total revenue from confirmed reservations: " +:+ amount_str +:+ " €"].

(** [main], over the lines of [reservations.txt]: what has been printed,
    and [Err] when an exception leaves the program. *)
Definition main (lines : list string) : list string * result unit :=
  match fetch_reservations lines with
  | Err e => ([], Err e)
  | Ok reservations =>
      let out :=
        (["1) Confirmed Reservations"] ++ confirmed_reservations reservations
         ++ [String "010" "2) Long Reservations (≥ 3 h)"]
         ++ long_reservations reservations
         ++ [String "010" "3) Reservation Confirmation Status"]
         ++ confirmation_statuses reservations
         ++ [String "010" "4) Confirmation Summary"]
         ++ confirmation_summary reservations
         ++ [String "010" "5) Total Revenue from Confirmed Reservations"])%list in
      match total_revenue reservations with
      | Ok l => ((out ++ l)%list, Ok tt)
      | Err e => (out, Err e)
      end
  end.

End TaskC.

(** ** The [csv] module *)
Module Csv.

(** A row of [csv.DictReader]: the value of a column is a string, or
    [None] when the record is shorter than the header. *)
Definition row : Type := gmap string (option string).

(** [dict(zip(fieldnames, record))], then [None] for the columns the
    record lacks. Values beyond the header go under the key [None], which
    no script reads. *)
Definition make_row (fieldnames record : list string) : row :=
  let d := foldl (fun (d : row) kv => <[kv.1 := Some kv.2]> d) ∅
                 (zip fieldnames record) in
  foldl (fun (d : row) k => <[k := None]> d) d
        (drop (length record) fieldnames).

Definition nonempty (record : list string) : bool :=
  match record with [] => false | _ => true end.

(** [csv.DictReader(f, delimiter=";")] over the records of the file: the
    first one is the header, empty records are skipped. *)
Definition DictReader (records : list (list string)) : list row :=
  match records with
  | [] => []
  | fieldnames :: rest => map (make_row fieldnames) (List.filter nonempty rest)
  end.

(** [row[key]] *)
Definition getkey (r : row) (key : string) : result (option string) :=
  match r !! key with
  | Some v => Ok v
  | None => Err (KeyError key)
  end.

End Csv.

(** ** TaskE/task_e.py: the weekly tables of all [week*.csv] files *)
Module TaskE.
Import PyStr.

(** A row as [read_data] builds it. *)
Record MeterRow : Type :=
  { timestamp : Datetime.datetime;
    date : Datetime.date;
    consumption : list Z;
    production : list Z }.

(** The value of [daily[d]]. *)
Record totals : Type :=
  { cons : list PyNum.float;
    prod : list PyNum.float }.

Definition range3 : list nat := [0; 1; 2]%nat.

Section Reader.
(** [datetime.fromisoformat], [None] when it raises [ValueError]. *)
Variable fromisoformat : string -> option Datetime.datetime.

(** An argument that is [None] is a [TypeError] for both decoders. *)
Definition decode_time (v : option string) : result Datetime.datetime :=
  match v with
  | None => Err TypeError
  | Some s =>
      match fromisoformat s with
      | Some ts => Ok ts
      | None => Err (ValueError (InvalidIsoformat s))
      end
  end.

Definition decode_int (v : option string) : result Z :=
  match v with
  | None => Err TypeError
  | Some s => PyNum.int s
  end.

Definition phase_key (kind : string) (i : nat) : string :=
  kind +:+ " phase " +:+ PyNum.str (Z.of_nat i + 1) +:+ " Wh".

Definition read_row (row : Csv.row) : result MeterRow :=
  let* tv := Csv.getkey row "Time" in
  let* ts := decode_time tv in
  let* consumption :=
    comprehension (fun i => let* v := Csv.getkey row (phase_key "Consumption" i) in
                            decode_int v) range3 in
  let* production :=
    comprehension (fun i => let* v := Csv.getkey row (phase_key "Production" i) in
                            decode_int v) range3 in
  Ok {| timestamp := ts; date := Datetime.dt_date ts;
        consumption := consumption; production := production |}.

(** [read_data], over the records of the CSV file. *)
Definition read_data (records : list (list string)) : result (list MeterRow) :=
  for_each (fun rows row => let* r := read_row row in Ok (rows ++ [r])%list)
           (Csv.DictReader records) [].
End Reader.

Definition zero_totals : totals :=
  {| cons := [PyNum.fzero; PyNum.fzero; PyNum.fzero];
     prod := [PyNum.fzero; PyNum.fzero; PyNum.fzero] |}.

(** One turn of [for i in range(3)] on the entry of the row's date. *)
Definition add_phase (entry : MeterRow) (t : totals) (i : nat) : result totals :=
  let* c := getitem (cons t) i in
  let* wh := getitem (consumption entry) i in
  let* whf := PyNum.of_int wh in
  let t1 := {| cons := <[i := PyNum.fadd c (PyNum.fdiv whf PyNum.f1000)]> (cons t);
               prod := prod t |} in
  let* p := getitem (prod t1) i in
  let* wh' := getitem (production entry) i in
  let* whf' := PyNum.of_int wh' in
  Ok {| cons := cons t1;
        prod := <[i := PyNum.fadd p (PyNum.fdiv whf' PyNum.f1000)]> (prod t1) |}.

(** The body of [for entry in rows]: the entry of the row's date is looked
    up, or created with zeros, and updated in place. *)
Definition add_entry (daily : gmap Datetime.date totals) (entry : MeterRow)
  : result (gmap Datetime.date totals) :=
  let d := date entry in
  let t := match daily !! d with
           | Some t => t
           | None => zero_totals
           end in
  let* t' := for_each (add_phase entry) range3 t in
  Ok (<[d := t']> daily).

Definition compute_daily_totals (rows : list MeterRow)
  : result (gmap Datetime.date totals) :=
  for_each add_entry rows ∅.

Definition format_kwh (value : PyNum.float) : string :=
  replace "." "," (PyNum.format_2f value).

Definition days : list string :=
  ["Monday"; "Tuesday"; "Wednesday"; "Thursday"; "Friday"; "Saturday"; "Sunday"].

(** [sorted(daily.keys())] *)
Definition sorted_dates (daily : gmap Datetime.date totals) : list Datetime.date :=
  merge_sort Datetime.date_le (elements (dom daily)).

Definition header_lines (week_number : Z) : list string :=
  ["Week " +:+ PyNum.str week_number +:+ " - Electricity Report (kWh)" +:+ String "010" "";
   "Day          Date        Consumption (kWh)      Production (kWh)";
   "           (dd.mm.yyyy)  v1    | v2   | v3           v1   |  v2  | v3";
   repeat_char "-" 70].

(** The body of [for d in sorted(daily.keys())]. *)
Definition table_row (daily : gmap Datetime.date totals) (lines : list string)
    (d : Datetime.date) : result (list string) :=
  let* day_name := getitem days (Z.to_nat (Datetime.weekday d)) in
  let date_str := Datetime.date_strftime d "%d.%m.%Y" in
  let* t := match daily !! d with
            | Some t => Ok t
            | None => Err (KeyError (Datetime.date_strftime d "%Y-%m-%d"))
            end in
  let cons_str := join " | " (map format_kwh (cons t)) in
  let prod_str := join " | " (map format_kwh (prod t)) in
  Ok (lines ++ [ljust 12 day_name +:+ " " +:+ ljust 11 date_str +:+ " "
                +:+ ljust 27 cons_str +:+ " " +:+ prod_str])%list.

Definition generate_table_text (week_number : Z)
    (daily : gmap Datetime.date totals) : result string :=
  let* lines := for_each (table_row daily) (sorted_dates daily)
                         (header_lines week_number) in
  Ok (join (String "010" "") (lines ++ [String "010" ""])%list).

(** [Path.stem]: the name without its last suffix. *)
Fixpoint rfind_dot (s : string) (i : nat) : option nat :=
  match s with
  | EmptyString => None
  | String c s' =>
      match rfind_dot s' (S i) with
      | Some j => Some j
      | None => if Ascii.eqb c "." then Some i else None
      end
  end.

Definition stem (name : string) : string :=
  match rfind_dot name 0 with
  | Some i => if ((0 <? i) && (i <? String.length name - 1))%nat
              then String.substring 0 i name else name
  | None => name
  end.

(** The names [Path(".").glob("week*.csv")] selects. *)
Definition glob_week_csv (name : string) : bool :=
  startswith "week" name && endswith ".csv" name
  && (8 <=? String.length name)%nat.

Definition csv_files (dir : gmap string (list (list string))) : list string :=
  merge_sort String.le (List.filter glob_week_csv (elements (dom dir))).

Definition week_number_of (path : string) : result Z :=
  let week_digits := filter_chars is_digit (stem path) in
  if isdigit week_digits then PyNum.int week_digits else Ok 0.

Section Main.
Variable fromisoformat : string -> option Datetime.datetime.

(** The body of [for csv_path in csv_files]. *)
Definition process_file (dir : gmap string (list (list string)))
    (all_text : list string) (csv_path : string) : result (list string) :=
  let* week_number := week_number_of csv_path in
  let* rows := read_data fromisoformat (default [] (dir !! csv_path)) in
  let* daily_totals := compute_daily_totals rows in
  let* week_text := generate_table_text week_number daily_totals in
  Ok (all_text ++ [week_text])%list.

(** [main], over the CSV files of the current directory: the text
    written to [summary.txt] and the lines printed. *)
Definition main (dir : gmap string (list (list string)))
  : result (string * list string) :=
  let* all_text := for_each (process_file dir) (csv_files dir) [] in
  Ok (join (String "010" "") all_text, ["summary.txt created"]).
End Main.

End TaskE.

(** ** TaskD/task_d.py: the table of [week42.csv]

    [read_data], [compute_daily_totals] and [format_kwh] are, character for
    character, those of TaskE; [print_table] prints what
    [generate_table_text] collects, for week 42 and without the closing
    blank line. *)
Module TaskD.
Import PyStr.

Definition read_data := TaskE.read_data.
Definition compute_daily_totals := TaskE.compute_daily_totals.
Definition format_kwh := TaskE.format_kwh.

(** The lines [print_table] prints. *)
Definition print_table (daily : gmap Datetime.date TaskE.totals) : result (list string) :=
for_each (TaskE.table_row daily) (TaskE.sorted_dates daily)
  ["Week 42 - Electricity Report (kWh)" +:+ String "010" "";
   "Day          Date        Consumption (kWh)      Production (kWh)";
   "           (dd.mm.yyyy)  v1    | v2   | v3           v1   |  v2  | v3";
   repeat_char "-" 70].

(** [main], over the records of [week42.csv]. *)
Definition main (fromisoformat : string -> option Datetime.datetime)
  (records : list (list string)) : result (list string) :=
let* rows := read_data fromisoformat records in
let* daily_totals := compute_daily_totals rows in
print_table daily_totals.

End TaskD.


(** * Vocabulary of the statements *)
Module Spec.
Import PyStr.

Definition void {A} (r : result A) : result unit :=
let* _ := r in Ok tt.

(** The columns of a reservation line whose decoder can raise, in the order
    [convert_reservation_data] decodes them. *)
Definition column_decoders : list (nat * (string -> result unit)) :=
[ (0%nat, fun s => void (PyNum.int s));
  (4%nat, fun s => void (Datetime.strptime s "%Y-%m-%d"));
  (5%nat, fun s => void (Datetime.strptime s "%H:%M"));
  (6%nat, fun s => void (PyNum.int s));
  (7%nat, fun s => void (PyNum.float_of_string s));
  (10%nat, fun s => void (Datetime.strptime s "%Y-%m-%d %H:%M:%S")) ].

(** The first column, in that order, whose decoder raises on its field, and
    the exception it raises. *)
Fixpoint first_failure (decoders : list (nat * (string -> result unit)))
  (fields : list string) : option (nat * exn) :=
match decoders with
| [] => None
| (c, decode) :: decoders' =>
    match decode (default EmptyString (fields !! c)) with
    | Err e => Some (c, e)
    | Ok _ => first_failure decoders' fields
    end
end.


(** [sum] of a sequence of floats: from left to right, from [0]. *)
Definition float_sum (l : list PyNum.float) : PyNum.float :=
fold_left PyNum.fadd l PyNum.fzero.

(** A float written with two decimals and a decimal comma: the sign, the
    integer part, a comma and two digits of the nearest number of
    hundredths; [inf] and [nan] are written as words. *)
Definition amount (x : PyNum.float) : string :=
match x with
| S754_nan => "nan"
| S754_infinity s => PyNum.sign_text s +:+ "inf"
| S754_zero s => PyNum.sign_text s +:+ "0,00"
| S754_finite s m e =>
    let c := PyNum.hundredths m e in
    PyNum.sign_text s +:+ PyNum.str (c / 100) +:+ ","
    +:+ zfill 2 (PyNum.str (c mod 100))
end.

(** The energy of one reading in kWh: [wh / 1000.0]. *)
Definition kwh (wh : Z) : PyNum.float :=
PyNum.fdiv (PyNum.of_Z wh) PyNum.f1000.

(** The rows of one date, in the order of the input. *)
Definition rows_of_day (d : Datetime.date) (rows : list TaskE.MeterRow)
  : list TaskE.MeterRow :=
List.filter (fun r => bool_decide (TaskE.date r = d)) rows.

(** The sum, over the rows of date [d], of phase [i] of the field [sel]
    divided by 1000. *)
Definition phase_sum (sel : TaskE.MeterRow -> list Z) (i : nat)
  (d : Datetime.date) (rows : list TaskE.MeterRow) : PyNum.float :=
float_sum (map (fun r => kwh (nth i (sel r) 0)) (rows_of_day d rows)).

(** The totals of date [d]: the three sums of each field. *)
Definition day_totals (d : Datetime.date) (rows : list TaskE.MeterRow)
  : TaskE.totals :=
{| TaskE.cons := map (fun i => phase_sum TaskE.consumption i d rows) TaskE.range3;
   TaskE.prod := map (fun i => phase_sum TaskE.production i d rows) TaskE.range3 |}.

(** One row added to the totals of its date. *)
Definition add_row (t : TaskE.totals) (r : TaskE.MeterRow) : TaskE.totals :=
{| TaskE.cons :=
     map (fun i => PyNum.fadd (nth i (TaskE.cons t) PyNum.fzero)
                              (kwh (nth i (TaskE.consumption r) 0))) TaskE.range3;
   TaskE.prod :=
     map (fun i => PyNum.fadd (nth i (TaskE.prod t) PyNum.fzero)
                              (kwh (nth i (TaskE.production r) 0))) TaskE.range3 |}.

(** The day of the week of a date by Zeller's congruence: 0 for Saturday,
    1 for Sunday, 2 for Monday and so on to 6 for Friday. January and
    February count as the months 13 and 14 of the year before. *)
Definition zeller (d : Datetime.date) : Z :=
let early := Datetime.month d <? 3 in
let m := if early then Datetime.month d + 12 else Datetime.month d in
let y := if early then Datetime.year d - 1 else Datetime.year d in
(Datetime.day d + 13 * (m + 1) / 5 + y mod 100 + y mod 100 / 4
 + y / 100 / 4 + 5 * (y / 100)) mod 7.

(** The name of the day of the week of a date. *)
Definition day_name (d : Datetime.date) : string :=
match zeller d with
| 0 => "Saturday"
| 1 => "Sunday"
| 2 => "Monday"
| 3 => "Tuesday"
| 4 => "Wednesday"
| 5 => "Thursday"
| _ => "Friday"
end.

(** The character of the last decimal digit of a number; [0] is the
    character 48. *)
Definition digit (n : Z) : ascii := ascii_of_N (48 + Z.to_N (n mod 10)).

(** The last two and the last four decimal digits of a number. *)
Definition digits2 (n : Z) : string :=
String (digit (n / 10)) (String (digit n) EmptyString).

Definition digits4 (n : Z) : string :=
String (digit (n / 1000)) (String (digit (n / 100)) (digits2 n)).

(** A date as [dd.mm.yyyy]. *)
Definition dd_mm_yyyy (d : Datetime.date) : string :=
digits2 (Datetime.day d) +:+ "." +:+ digits2 (Datetime.month d) +:+ "."
+:+ digits4 (Datetime.year d).

(** [n] blanks. *)
Fixpoint blanks (n : nat) : string :=
match n with
| O => EmptyString
| S n' => String " " (blanks n')
end.

(** A text at the left of a field of [width] characters: the text, then
    blanks up to the width; a longer text is left whole. *)
Fixpoint left_justified (width : nat) (text : string) : string :=
match text with
| String c text' => String c (left_justified (Nat.pred width) text')
| EmptyString => blanks width
end.

(** The data row of a date: the day name in 12 columns, the date in 11, the
    consumption totals in 27, then the production totals; the totals of a
    kind are joined by [" | "], each with two decimals and a comma. *)
Definition table_line (entry : Datetime.date * TaskE.totals) : string :=
left_justified 12 (day_name (fst entry)) +:+ " "
+:+ left_justified 11 (dd_mm_yyyy (fst entry)) +:+ " "
+:+ left_justified 27 (join " | " (map amount (TaskE.cons (snd entry)))) +:+ " "
+:+ join " | " (map amount (TaskE.prod (snd entry))).

(** The entries of a dictionary in the order of [dates]. *)
Definition entries_of (daily : gmap Datetime.date TaskE.totals)
  (dates : list Datetime.date) : list (Datetime.date * TaskE.totals) :=
map (fun d => (d, default TaskE.zero_totals (daily !! d))) dates.

(** The week number of a file name: the digits of its stem read as one
    decimal numeral; the numeral without digits is 0. *)
Definition week_number (path : string) : Z :=
Z.of_N (PyNum.digits_value (filter_chars is_digit (TaskE.stem path))).

(** The table of one file of the directory: read, aggregated, rendered
    under its week number. *)
Definition week_table (fromisoformat : string -> option Datetime.datetime)
  (dir : gmap string (list (list string))) (path : string) : result string :=
let* rows := TaskE.read_data fromisoformat (default [] (dir !! path)) in
let* daily_totals := TaskE.compute_daily_totals rows in
TaskE.generate_table_text (week_number path) daily_totals.

(** Digits that do not start with a zero. *)
Definition plain_digits (s : string) : bool :=
isdigit s && negb (String.prefix "0" s).

(** The text [str] gives an [int]: [0], or digits that do not start with a
    zero, with a minus sign before them when negative. *)
Definition canonical_int (s : string) : bool :=
match s with
| String "-" t => plain_digits t
| _ => String.eqb s "0" || plain_digits s
end.

(** [shape pattern s]: [s] has the characters of [pattern], with a digit
    wherever the pattern has a [d]. *)
Fixpoint shape (pattern s : string) : bool :=
match pattern, s with
| EmptyString, EmptyString => true
| String "d" pattern', String c s' => is_digit c && shape pattern' s'
| String p pattern', String c s' => Ascii.eqb p c && shape pattern' s'
| _, _ => false
end.

(** The re-serialization the specification speaks of: the entries of a
    converted record written back with the format strings of the conversion
    ([str] for the integers and the truth value), joined by the separator.
    The conversion has no format string for the price; the text of a float
    is left to [float_str]. *)
Definition serialize (float_str : PyNum.float -> string) (r : TaskC.Reservation)
  : string :=
join "|"
  [ PyNum.str (TaskC.reservationId r);
    TaskC.name r;
    TaskC.email r;
    TaskC.phone r;
    Datetime.date_strftime (TaskC.reservationDate r) "%Y-%m-%d";
    Datetime.time_strftime (TaskC.reservationTime r) "%H:%M";
    PyNum.str (TaskC.durationHours r);
    float_str (TaskC.price r);
    (if TaskC.confirmed r then "True" else "False");
    TaskC.reservedResource r;
    Datetime.strftime (TaskC.createdAt r) "%Y-%m-%d %H:%M:%S" ].

(** A line with the white space around its last field removed. *)
Definition stripped_line (line : string) : string :=
join "|" (fst (TaskC.convert_reservation_data (split "|" line))).

(** The columns [read_data] reads by name. *)
Definition expected_columns : list string :=
[ "Time";
  "Consumption phase 1 Wh"; "Consumption phase 2 Wh"; "Consumption phase 3 Wh";
  "Production phase 1 Wh"; "Production phase 2 Wh"; "Production phase 3 Wh" ].

(** Every entry of the dictionary holds three phases of each kind. *)
Definition three_phases (daily : gmap Datetime.date TaskE.totals) : Prop :=
forall d t, daily !! d = Some t ->
  exists c0 c1 c2 p0 p1 p2,
    t = {| TaskE.cons := [c0; c1; c2]; TaskE.prod := [p0; p1; p2] |}.

(** A row the aggregator can add: three readings at least in each field,
    each within the range of [float]. *)
Definition addable (r : TaskE.MeterRow) : Prop :=
is_ok (for_each (TaskE.add_phase r) TaskE.range3 TaskE.zero_totals) = true.

(** A row as [read_data] builds it, with readings below [2^53] in
    magnitude. *)
Definition well_formed (r : TaskE.MeterRow) : Prop :=
length (TaskE.consumption r) = 3%nat /\ length (TaskE.production r) = 3%nat
/\ Forall (fun wh => Z.abs wh < 2 ^ 53) (TaskE.consumption r)
/\ Forall (fun wh => Z.abs wh < 2 ^ 53) (TaskE.production r).

(** A date of the calendar: a year from 1 to 9999, a month, and a day of that
    month. *)
Definition valid_date (d : Datetime.date) : Prop :=
1 <= Datetime.year d <= 9999
/\ 1 <= Datetime.month d <= 12
/\ 1 <= Datetime.day d <= Datetime.days_in_month (Datetime.year d) (Datetime.month d).

(** A time of the day. *)
Definition valid_time (t : Datetime.time) : Prop :=
0 <= Datetime.hour t <= 23
/\ 0 <= Datetime.minute t <= 59
/\ 0 <= Datetime.second t <= 59.

(** The groups of an expression, in order. *)
Definition groups (p : list Datetime.item) : list (ascii * list Datetime.alt) :=
omap (fun it => match it with
                | Datetime.Group n alts => Some (n, alts)
                | _ => None
                end) p.

(** A text that an alternative of the group has matched, under its name. *)
Definition captured (g : ascii * list Datetime.alt) (cap : ascii * string) : Prop :=
fst cap = fst g
/\ exists a s r, In a (snd g) /\ Datetime.match_alt a s = Some (snd cap, r).

(** A text of ASCII characters. *)
Definition ascii_text (s : string) : Prop :=
all_chars (fun c => (code c <? 128)%N) s = true.

(** The name of a file, as the statements take it: a text of ASCII of at
    most 255 characters, the longest name common file systems allow. *)
Definition file_name (s : string) : Prop :=
ascii_text s /\ (String.length s <= 255)%nat.

(** What reading the column [key] of a row raises, if anything: [KeyError]
    when the header has no such column, [TypeError] when the record ends
    before the column, and the [ValueError] of the decoder of the column
    when it refuses the text. *)
Definition column_failure (fromisoformat : string -> option Datetime.datetime)
  (row : Csv.row) (key : string) : option exn :=
match row !! key with
| None => Some (KeyError key)
| Some None => Some TypeError
| Some (Some text) =>
    if String.eqb key "Time"
    then match fromisoformat text with
         | Some _ => None
         | None => Some (ValueError (InvalidIsoformat text))
         end
    else match PyNum.int text with
         | Ok _ => None
         | Err e => Some e
         end
end.

(** The exception of the first column of [keys] that cannot be read. *)
Fixpoint first_column_failure (fromisoformat : string -> option Datetime.datetime)
  (row : Csv.row) (keys : list string) : option exn :=
match keys with
| [] => None
| key :: keys' =>
    match column_failure fromisoformat row key with
    | Some e => Some e
    | None => first_column_failure fromisoformat row keys'
    end
end.

(** The expected columns that are read before the column [key]. *)
Fixpoint columns_before_in (key : string) (keys : list string) : list string :=
match keys with
| [] => []
| k :: keys' => if String.eqb k key then [] else k :: columns_before_in key keys'
end.

Definition columns_before (key : string) : list string :=
columns_before_in key expected_columns.

End Spec.

(** * Properties *)

(** ** Exceptions and loops *)

Lemma for_each_app {A S} (body : S -> A -> result S) (l1 l2 : list A) (acc : S) :
  for_each body (l1 ++ l2)%list acc
  = bind (for_each body l1 acc) (for_each body l2).
Proof.
  revert acc. induction l1 as [|x l1 IH]; intros acc; simpl; [reflexivity|].
  destruct (body acc x) as [acc'|e]; simpl; [apply IH | reflexivity].
Qed.

Lemma for_each_ext {A S} (body body' : S -> A -> result S) (l : list A) (acc : S) :
  (forall acc x, body acc x = body' acc x) ->
  for_each body l acc = for_each body' l acc.
Proof.
  intros H. revert acc. induction l as [|x l IH]; intros acc; cbn; [reflexivity|].
  rewrite H. destruct (body' acc x); cbn; [apply IH | reflexivity].
Qed.

(** A property of the numbers below [k], checked on each of them. *)
Lemma below_cases (P : Z -> bool) (k : Z) :
  forallb P (map Z.of_nat (seq 0 (Z.to_nat k))) = true ->
  forall n, 0 <= n < k -> P n = true.
Proof.
  intros H n Hn. rewrite forallb_forall in H. apply H.
  apply in_map_iff. exists (Z.to_nat n). split; [lia|].
  apply in_seq. lia.
Qed.

(** Operators of [SpecFloat] as those of [ZArith], for [lia]. *)
Ltac to_binint :=
  change IntDef.Z.add with Z.add in *;
  change IntDef.Z.sub with Z.sub in *;
  change IntDef.Z.max with Z.max in *;
  change IntDef.Z.leb with Z.leb in *;
  change PosDef.Pos.add with Pos.add in *.

(** ** Strings *)
Module PyStr_facts.
Import PyStr.

Lemma append_cons (c : ascii) (a b : string) :
  String c a +:+ b = String c (a +:+ b).
Proof. reflexivity. Qed.

Lemma append_nil (b : string) : "" +:+ b = b.
Proof. reflexivity. Qed.

Lemma append_assoc (a b c : string) : (a +:+ b) +:+ c = a +:+ (b +:+ c).
Proof.
  induction a as [|x a IH]; [reflexivity|].
  rewrite !append_cons. now rewrite IH.
Qed.

Lemma append_empty_r (a : string) : a +:+ "" = a.
Proof.
  induction a as [|x a IH]; [reflexivity|].
  rewrite append_cons. now rewrite IH.
Qed.

Lemma length_append (a b : string) :
  String.length (a +:+ b) = (String.length a + String.length b)%nat.
Proof.
  induction a as [|x a IH]; [reflexivity|].
  rewrite append_cons. simpl. now rewrite IH.
Qed.

Lemma replace_append (x y : ascii) (a b : string) :
  replace x y (a +:+ b) = replace x y a +:+ replace x y b.
Proof.
  induction a as [|c a IH]; [reflexivity|].
  rewrite append_cons. simpl. rewrite append_cons. now rewrite IH.
Qed.

Lemma replace_digits (x y : ascii) (s : string) :
  is_digit x = false -> all_chars is_digit s = true -> replace x y s = s.
Proof.
  intros Hx. induction s as [|c s IH]; simpl; [reflexivity|].
  intros H. apply andb_prop in H as [Hc Hs].
  destruct (Ascii.eqb c x) eqn:E.
  - apply Ascii.eqb_eq in E. congruence.
  - now rewrite IH.
Qed.

Lemma all_chars_append (p : ascii -> bool) (a b : string) :
  all_chars p (a +:+ b) = all_chars p a && all_chars p b.
Proof.
  induction a as [|c a IH]; [reflexivity|].
  rewrite append_cons. simpl. now rewrite IH, andb_assoc.
Qed.

Lemma all_chars_repeat (p : ascii -> bool) (c : ascii) (n : nat) :
  p c = true -> all_chars p (repeat_char c n) = true.
Proof. intros Hc. induction n as [|n IH]; simpl; [reflexivity | now rewrite Hc]. Qed.

Lemma length_repeat_char (c : ascii) (n : nat) : String.length (repeat_char c n) = n.
Proof. induction n as [|n IH]; simpl; [reflexivity | now rewrite IH]. Qed.

Lemma all_digits_zfill (n : nat) (s : string) :
  all_chars is_digit s = true -> all_chars is_digit (zfill n s) = true.
Proof.
  intros H. unfold zfill. rewrite all_chars_append, H, all_chars_repeat; reflexivity.
Qed.

End PyStr_facts.

(** ** Numbers *)
Module PyNum_facts.
Import PyStr PyNum PyStr_facts.

Lemma all_digits_string_of_uint (d : Decimal.uint) :
  all_chars is_digit (NilEmpty.string_of_uint d) = true.
Proof. induction d; simpl; auto. Qed.

(** The text of a natural number holds digits only. *)
Lemma all_digits_str (n : Z) : 0 <= n -> all_chars is_digit (str n) = true.
Proof.
  intros Hn. destruct n as [|p|p]; [| |lia]; apply all_digits_string_of_uint.
Qed.

Lemma digits2_pos_iter_xO (m k : positive) :
  digits2_pos (Pos.iter xO m k) = (digits2_pos m + k)%positive.
Proof.
  induction k as [|k IH] using Pos.peano_ind.
  - simpl. lia.
  - rewrite Pos.iter_succ. simpl. rewrite IH. lia.
Qed.

Lemma digits2_pos_lower (m : positive) :
  2 ^ (Zpos (digits2_pos m) - 1) <= Zpos m.
Proof.
  induction m as [m IH|m IH|]; simpl digits2_pos.
  - rewrite Pos2Z.inj_succ.
    replace (Z.succ (Zpos (digits2_pos m)) - 1)
      with (Z.succ (Zpos (digits2_pos m) - 1)) by lia.
    rewrite Z.pow_succ_r by lia. lia.
  - rewrite Pos2Z.inj_succ.
    replace (Z.succ (Zpos (digits2_pos m)) - 1)
      with (Z.succ (Zpos (digits2_pos m) - 1)) by lia.
    rewrite Z.pow_succ_r by lia. lia.
  - simpl. lia.
Qed.

Lemma digits2_pos_le (m : positive) (n : Z) :
  0 <= n -> Zpos m < 2 ^ n -> Zpos (digits2_pos m) <= n.
Proof.
  intros Hn Hm. pose proof (digits2_pos_lower m) as Hl.
  destruct (Z_le_gt_dec (Zpos (digits2_pos m)) n) as [|Hgt]; [assumption|].
  assert (2 ^ n <= 2 ^ (Zpos (digits2_pos m) - 1)) by (apply Z.pow_le_mono_r; lia).
  lia.
Qed.

(** An integer below [2^53] in magnitude has a finite binary64 value. *)
Lemma binary_round_small (s : bool) (m : positive) :
  Zpos m < 2 ^ 53 ->
  exists m' e', binary_round prec emax s m 0 = S754_finite s m' e'.
Proof.
  intros Hm.
  pose proof (digits2_pos_le m 53 ltac:(lia) Hm) as Hd.
  unfold binary_round, shl_align, binary_round_aux, shr_fexp, fexp, emin, prec, emax.
  to_binint.
  replace (Z.max (Zpos (digits2_pos m) + 0 - 53) (3 - 1024 - 53) - 0)
    with (Zpos (digits2_pos m) - 53) by lia.
  destruct (Zpos (digits2_pos m) - 53) as [|k|k] eqn:Ek; try lia.
  - simpl Zdigits2.
    replace (Z.max (Zpos (digits2_pos m) + 0 - 53) (3 - 1024 - 53) - 0) with 0 by lia.
    cbn [shr shr_m shr_record_of_loc loc_of_shr_record round_nearest_even Zdigits2].
    replace (Z.max (Zpos (digits2_pos m) + 0 - 53) (3 - 1024 - 53) - 0) with 0 by lia.
    cbn [shr shr_m shr_record_of_loc]. simpl. eauto.
  - simpl Zdigits2. rewrite digits2_pos_iter_xO. to_binint.
    match goal with |- context [shr _ _ ?n] =>
      let H := fresh in assert (H : n = 0) by lia; rewrite H; clear H end.
    cbn [shr shr_m shr_record_of_loc loc_of_shr_record round_nearest_even Zdigits2].
    rewrite digits2_pos_iter_xO. to_binint.
    match goal with |- context [shr _ _ ?n] =>
      let H := fresh in assert (H : n = 0) by lia; rewrite H; clear H end.
    cbn [shr shr_m shr_record_of_loc].
    match goal with |- context [if ?b then _ else _] => destruct b eqn:El end;
      [eauto | apply Z.leb_gt in El; lia].
Qed.

(** Such an [int] operand never raises [OverflowError]. *)
Lemma of_int_small (z : Z) : Z.abs z < 2 ^ 53 -> of_int z = Ok (of_Z z).
Proof.
  intros Hz. unfold of_int, of_Z, binary_normalize.
  destruct z as [|p|p].
  - reflexivity.
  - destruct (binary_round_small false p) as (m' & e' & ->); [lia | reflexivity].
  - destruct (binary_round_small true p) as (m' & e' & ->); [lia | reflexivity].
Qed.

(** A string of digits is the text of a decimal numeral. *)
Lemma digit_char (c : ascii) :
  is_digit c = true ->
  exists d, forall s, String c (NilEmpty.string_of_uint s) = NilEmpty.string_of_uint (d s).
Proof.
  destruct c as [[] [] [] [] [] [] [] []]; try discriminate; intros _.
  - exists Decimal.D7. reflexivity.
  - exists Decimal.D3. reflexivity.
  - exists Decimal.D5. reflexivity.
  - exists Decimal.D9. reflexivity.
  - exists Decimal.D1. reflexivity.
  - exists Decimal.D6. reflexivity.
  - exists Decimal.D2. reflexivity.
  - exists Decimal.D4. reflexivity.
  - exists Decimal.D8. reflexivity.
  - exists Decimal.D0. reflexivity.
Qed.

Lemma digits_uint (s : string) :
  all_chars is_digit s = true -> exists d, s = NilEmpty.string_of_uint d.
Proof.
  induction s as [|c s IH]; intros H.
  - exists Decimal.Nil. reflexivity.
  - cbn in H. apply andb_prop in H as [Hc Hs].
    destruct (IH Hs) as [d ->]. destruct (digit_char c Hc) as [k Hk].
    exists (k d). apply Hk.
Qed.

Lemma digits_value_uint (d : Decimal.uint) :
  digits_value (NilEmpty.string_of_uint d) = N.of_uint d.
Proof. unfold digits_value. now rewrite NilEmpty.usu. Qed.

Lemma lstrip_c_uint (d : Decimal.uint) :
  lstrip_c (NilEmpty.string_of_uint d) = NilEmpty.string_of_uint d.
Proof. destruct d; reflexivity. Qed.

Lemma rstrip_c_uint (d : Decimal.uint) :
  rstrip_c (NilEmpty.string_of_uint d) = NilEmpty.string_of_uint d.
Proof.
  induction d; cbn [NilEmpty.string_of_uint rstrip_c]; try reflexivity;
    rewrite IHd; destruct (NilEmpty.string_of_uint d); reflexivity.
Qed.

Lemma strip_c_uint (d : Decimal.uint) :
  strip_c (NilEmpty.string_of_uint d) = NilEmpty.string_of_uint d.
Proof. unfold strip_c. now rewrite lstrip_c_uint, rstrip_c_uint. Qed.

Lemma split_sign_uint (d : Decimal.uint) :
  split_sign (NilEmpty.string_of_uint d) = (false, NilEmpty.string_of_uint d).
Proof. destruct d; reflexivity. Qed.

Lemma drop_underscores_uint (d : Decimal.uint) :
  forall prev : option ascii,
    match prev with Some c => is_digit c = true | None => True end ->
    drop_underscores prev (NilEmpty.string_of_uint d) = Some (NilEmpty.string_of_uint d).
Proof.
  induction d; intros prev Hprev;
    try (cbn [NilEmpty.string_of_uint drop_underscores];
         destruct prev as [[[] [] [] [] [] [] [] []]|]; try discriminate Hprev;
         (rewrite IHd; [reflexivity | reflexivity])).
  destruct prev as [[[] [] [] [] [] [] [] []]|]; try discriminate Hprev; reflexivity.
Qed.

Lemma isdigit_uint (d : Decimal.uint) :
  d <> Decimal.Nil -> isdigit (NilEmpty.string_of_uint d) = true.
Proof.
  intros Hd. unfold isdigit.
  pose proof (all_digits_string_of_uint d) as H.
  destruct d; try congruence; exact H.
Qed.

(** [int] on a non-empty string of digits. *)
Lemma int_uint (d : Decimal.uint) :
  d <> Decimal.Nil -> int (NilEmpty.string_of_uint d) = Ok (Z.of_N (N.of_uint d)).
Proof.
  intros Hd. unfold int.
  rewrite strip_c_uint, split_sign_uint, (drop_underscores_uint d None I).
  now rewrite (isdigit_uint d Hd), digits_value_uint.
Qed.

Lemma int_digits (s : string) :
  isdigit s = true -> int s = Ok (Z.of_N (digits_value s)).
Proof.
  intros H. assert (Ha : all_chars is_digit s = true) by (destruct s; [discriminate | exact H]).
  destruct (digits_uint s Ha) as [d ->].
  rewrite digits_value_uint. apply int_uint. intros ->. discriminate.
Qed.

(** [round_half_even] gives a nearest integer, the even one at a tie. *)
Lemma round_half_even_nearest (n d : Z) :
  0 < d ->
  Z.abs (2 * n - 2 * round_half_even n d * d) <= d
  /\ (Z.abs (2 * n - 2 * round_half_even n d * d) = d ->
      Z.even (round_half_even n d) = true).
Proof.
  intros Hd. unfold round_half_even.
  pose proof (Z.div_mod n d ltac:(lia)) as Hdm.
  pose proof (Z.mod_pos_bound n d Hd) as Hb.
  destruct (Z.compare_spec (2 * (n mod d)) d) as [He|Hl|Hg].
  - destruct (Z.even (n / d)) eqn:Ev.
    + split; [nia | intros _; exact Ev].
    + split; [nia|]. intros _. rewrite Z.even_add, Ev. reflexivity.
  - split; [nia | intros Ht; nia].
  - split; [nia | intros Ht; nia].
Qed.

(** The two-decimal text with its point replaced is the text with a comma. *)
Lemma replace_format_2f (x : float) :
  replace "." "," (format_2f x) = Spec.amount x.
Proof.
  destruct x as [s|s| |s m e]; cbn [format_2f Spec.amount].
  - destruct s; reflexivity.
  - destruct s; reflexivity.
  - reflexivity.
  - assert (Hc : 0 <= hundredths m e).
    { unfold hundredths. destruct (0 <=? e) eqn:He.
      - apply Z.leb_le in He.
        pose proof (Z.pow_pos_nonneg 2 e ltac:(lia) He). nia.
      - apply Z.leb_gt in He.
        assert (Hd : 0 < 2 ^ (- e)) by (apply Z.pow_pos_nonneg; lia).
        pose proof (round_half_even_nearest (Zpos m * 100) (2 ^ (- e)) Hd) as [Hn _].
        nia. }
    rewrite !replace_append.
    rewrite (replace_digits "." "," (str (hundredths m e / 100))).
    + rewrite (replace_digits "." "," (zfill 2 (str (hundredths m e mod 100)))).
      * destruct s; reflexivity.
      * reflexivity.
      * apply all_digits_zfill, all_digits_str. apply Z.mod_pos_bound. lia.
    + reflexivity.
    + apply all_digits_str. apply Z.div_pos; lia.
Qed.

(** *** The value of a numeral is below the power of ten of its length *)

Lemma of_uint_acc_bound (d : Decimal.uint) :
  forall acc : positive,
    Zpos (Pos.of_uint_acc d acc) < (Zpos acc + 1) * 10 ^ Z.of_nat (Decimal.nb_digits d).
Proof.
  induction d; intros acc; cbn [Pos.of_uint_acc Decimal.nb_digits];
    try (rewrite Nat2Z.inj_succ, Z.pow_succ_r by lia;
         match goal with
         | |- Zpos (Pos.of_uint_acc _ ?a) < _ =>
             pose proof (IHd a) as IH
         end;
         assert (Hp : 0 < 10 ^ Z.of_nat (Decimal.nb_digits d))
           by (apply Z.pow_pos_nonneg; lia);
         nia).
  cbn. lia.
Qed.

Lemma of_uint_bound (d : Decimal.uint) :
  Z.of_N (N.of_uint d) < 10 ^ Z.of_nat (Decimal.nb_digits d).
Proof.
  unfold N.of_uint.
  induction d; cbn [Pos.of_uint Decimal.nb_digits];
    try (rewrite Nat2Z.inj_succ, Z.pow_succ_r by lia;
         assert (Hp : 0 < 10 ^ Z.of_nat (Decimal.nb_digits d))
           by (apply Z.pow_pos_nonneg; lia);
         first [ lia
               | match goal with
                 | |- Z.of_N (Npos (Pos.of_uint_acc _ ?a)) < _ =>
                     pose proof (of_uint_acc_bound d a) as Hb
                 end;
                 cbn [Z.of_N]; nia ]).
  cbn. lia.
Qed.

End PyNum_facts.

(** ** TaskC: the reader *)
Module TaskC_facts.
Import PyStr TaskC.

(** The caller's list after the call: the last element stripped, the
    others as they were, whether the call returns or raises. *)
Lemma convert_list_after (l : list string) (x : string) :
  fst (convert_reservation_data (l ++ [x])%list) = (l ++ [strip x])%list.
Proof.
  unfold convert_reservation_data.
  assert (Hi : (length (l ++ [x]) - 1 = length l)%nat)
    by (rewrite length_app; simpl; lia).
  rewrite Hi.
  assert (Hx : (l ++ [x])%list !! length l = Some x)
    by (rewrite lookup_app_r, Nat.sub_diag; [reflexivity | lia]).
  rewrite Hx. simpl.
  rewrite insert_app_r_alt, Nat.sub_diag; [reflexivity | lia].
Qed.

Lemma convert_result (l : list string) (x : string) :
  snd (convert_reservation_data (l ++ [x])%list)
  = convert_fields (l ++ [strip x])%list.
Proof.
  pose proof (convert_list_after l x) as H.
  unfold convert_reservation_data in *.
  destruct ((l ++ [x])%list !! (length (l ++ [x]) - 1)%nat) eqn:E; simpl in *.
  - now rewrite H.
  - apply lookup_ge_None in E. rewrite length_app in E. simpl in E. lia.
Qed.

Lemma convert_list_after_11 (a0 a1 a2 a3 a4 a5 a6 a7 a8 a9 a10 : string) :
  fst (convert_reservation_data [a0; a1; a2; a3; a4; a5; a6; a7; a8; a9; a10])
  = [a0; a1; a2; a3; a4; a5; a6; a7; a8; a9; strip a10].
Proof.
  exact (convert_list_after [a0; a1; a2; a3; a4; a5; a6; a7; a8; a9] a10).
Qed.

(** C10. For every 11-element list, after the call the caller's list has
    its last element replaced by the stripped value and its ten other
    elements unchanged; this holds whether the call returns a record or
    raises. *)
Theorem convert_reservation_data_mutates_last
    (a0 a1 a2 a3 a4 a5 a6 a7 a8 a9 a10 : string) :
  fst (convert_reservation_data [a0; a1; a2; a3; a4; a5; a6; a7; a8; a9; a10])
  = [a0; a1; a2; a3; a4; a5; a6; a7; a8; a9; strip a10].
Proof.
  exact (convert_list_after [a0; a1; a2; a3; a4; a5; a6; a7; a8; a9] a10).
Qed.


(** Every failure of a decoder is a [ValueError]. *)
Lemma int_error (s : string) (e : exn) :
  PyNum.int s = Err e -> e = ValueError (InvalidIntLiteral s).
Proof.
  unfold PyNum.int. destruct (PyNum.split_sign (PyNum.strip_c s)) as [neg body].
  destruct (PyNum.drop_underscores None body) as [ds|]; [|congruence].
  destruct (isdigit ds); congruence.
Qed.

Lemma float_error (s : string) (e : exn) :
  PyNum.float_of_string s = Err e -> e = ValueError (CouldNotConvertFloat s).
Proof.
  unfold PyNum.float_of_string.
  destruct (PyNum.drop_underscores None (PyNum.strip_c s)) as [t|]; [|congruence].
  destruct (PyNum.split_sign t) as [neg body].
  destruct (_ || _); [discriminate|].
  destruct (String.eqb _ _); [discriminate|].
  destruct (PyNum.parse_decimal body) as [[m x]|]; congruence.
Qed.

Lemma compile_error_bounded (n : nat) (fmt : string) (e : exn) :
  (String.length fmt <= n)%nat ->
  Datetime.compile fmt = Err e -> exists v, e = ValueError v.
Proof.
  revert fmt e. induction n as [|n IH]; intros fmt e Hn H.
  - destruct fmt; simpl in *; [discriminate | lia].
  - destruct fmt as [|c fmt]; [discriminate|].
    assert (Hplain : forall k : list Datetime.item -> result (list Datetime.item),
      bind (Datetime.compile fmt) k = Err e ->
      (forall p, k p <> Err e) -> exists v, e = ValueError v).
    { intros k Hk Hnot. destruct (Datetime.compile fmt) as [p|e'] eqn:E; simpl in Hk.
      - exfalso. now apply (Hnot p).
      - inversion Hk; subst. apply (IH fmt); [simpl in Hn; lia | exact E]. }
    assert (Hdir : forall d fmt',
      fmt = String d fmt' ->
      match Datetime.directive d with
      | Some alts => let* p := Datetime.compile fmt' in Ok (Datetime.Group d alts :: p)
      | None => Err (ValueError (BadDirective (String d EmptyString)))
      end = Err e -> exists v, e = ValueError v).
    { intros d fmt' -> Hd. destruct (Datetime.directive d).
      - destruct (Datetime.compile fmt') as [p|e'] eqn:E; simpl in Hd; [discriminate|].
        inversion Hd; subst. apply (IH fmt'); [simpl in Hn; lia | exact E].
      - inversion Hd. eauto. }
    destruct c as [[] [] [] [] [] [] [] []];
      try (simpl in H; apply (Hplain _ H); intros p; discriminate).
    destruct fmt as [|d fmt'].
    + simpl in H. discriminate.
    + apply (Hdir d fmt' eq_refl). exact H.
Qed.

Lemma compile_error (fmt : string) (e : exn) :
  Datetime.compile fmt = Err e -> exists v, e = ValueError v.
Proof. apply (compile_error_bounded (String.length fmt)). lia. Qed.

Lemma set_fields_error (caps : list (ascii * string)) (f : Datetime.fields) (e : exn) :
  for_each Datetime.set_field caps f = Err e -> exists v, e = ValueError v.
Proof.
  revert f. induction caps as [|cap caps IH]; intros f H; simpl in H; [discriminate|].
  unfold Datetime.set_field at 1 in H.
  destruct (PyNum.int (snd cap)) as [v|e'] eqn:E; simpl in H.
  - eapply IH. exact H.
  - inversion H; subst. apply int_error in E. eauto.
Qed.

Lemma check_fields_error (f : Datetime.fields) (e : exn) :
  Datetime.check_fields f = Err e -> exists v, e = ValueError v.
Proof.
  unfold Datetime.check_fields.
  repeat match goal with |- context [if ?b then _ else _] => destruct b end;
    intros H; inversion H; eauto.
Qed.

Lemma strptime_error (s fmt : string) (e : exn) :
  Datetime.strptime s fmt = Err e -> exists v, e = ValueError v.
Proof.
  unfold Datetime.strptime.
  destruct (Datetime.compile fmt) as [p|e'] eqn:Ec; simpl.
  - destruct (Datetime.match_items p s) as [[caps rest]|].
    + destruct rest.
      * destruct (for_each Datetime.set_field caps Datetime.default_fields) as [f|e'] eqn:Ef;
          simpl; intros H.
        -- eapply check_fields_error; eauto.
        -- inversion H; subst. eapply set_fields_error; eauto.
      * intros H; inversion H; eauto.
    + intros H; inversion H; eauto.
  - intros H; inversion H; subst. eapply compile_error; eauto.
Qed.

(** The conversions of an 11-field line, with the list accesses resolved. *)
Lemma convert_fields_11 (a0 a1 a2 a3 a4 a5 a6 a7 a8 a9 a10 : string) :
  convert_fields [a0; a1; a2; a3; a4; a5; a6; a7; a8; a9; a10]
  = (let* v0 := PyNum.int a0 in
     let* v4 := Datetime.strptime a4 "%Y-%m-%d" in
     let* v5 := Datetime.strptime a5 "%H:%M" in
     let* v6 := PyNum.int a6 in
     let* v7 := PyNum.float_of_string a7 in
     let* v10 := Datetime.strptime a10 "%Y-%m-%d %H:%M:%S" in
     Ok {| reservationId := v0; name := a1; email := a2; phone := a3;
           reservationDate := Datetime.dt_date v4;
           reservationTime := Datetime.dt_time v5;
           durationHours := v6; price := v7;
           confirmed := String.eqb a8 "True";
           reservedResource := a9; createdAt := v10 |}).
Proof.
  unfold convert_fields, getitem. cbn [lookup list_lookup bind].
  destruct (PyNum.int a0); [|reflexivity]. cbn [bind].
  destruct (Datetime.strptime a4 _); [|reflexivity]. cbn [bind].
  destruct (Datetime.strptime a5 _); [|reflexivity]. cbn [bind].
  destruct (PyNum.int a6); [|reflexivity]. cbn [bind].
  destruct (PyNum.float_of_string a7); [|reflexivity]. cbn [bind].
  reflexivity.
Qed.

Lemma convert_11 (a0 a1 a2 a3 a4 a5 a6 a7 a8 a9 a10 : string) :
  snd (convert_reservation_data [a0; a1; a2; a3; a4; a5; a6; a7; a8; a9; a10])
  = convert_fields [a0; a1; a2; a3; a4; a5; a6; a7; a8; a9; strip a10].
Proof.
  exact (convert_result [a0; a1; a2; a3; a4; a5; a6; a7; a8; a9] a10).
Qed.

(** What a successful conversion of an 11-field line says of its fields. *)
Lemma convert_fields_ok (a0 a1 a2 a3 a4 a5 a6 a7 a8 a9 a10 : string) (r : Reservation) :
  convert_fields [a0; a1; a2; a3; a4; a5; a6; a7; a8; a9; a10] = Ok r <->
  exists v0 v4 v5 v6 v7 v10,
    PyNum.int a0 = Ok v0
    /\ Datetime.strptime a4 "%Y-%m-%d" = Ok v4
    /\ Datetime.strptime a5 "%H:%M" = Ok v5
    /\ PyNum.int a6 = Ok v6
    /\ PyNum.float_of_string a7 = Ok v7
    /\ Datetime.strptime a10 "%Y-%m-%d %H:%M:%S" = Ok v10
    /\ r = {| reservationId := v0; name := a1; email := a2; phone := a3;
              reservationDate := Datetime.dt_date v4;
              reservationTime := Datetime.dt_time v5;
              durationHours := v6; price := v7;
              confirmed := String.eqb a8 "True";
              reservedResource := a9; createdAt := v10 |}.
Proof.
  rewrite convert_fields_11. split.
  - intros H.
    destruct (PyNum.int a0) as [v0|]; [|discriminate]. cbn [bind] in H.
    destruct (Datetime.strptime a4 _) as [v4|]; [|discriminate]. cbn [bind] in H.
    destruct (Datetime.strptime a5 _) as [v5|]; [|discriminate]. cbn [bind] in H.
    destruct (PyNum.int a6) as [v6|]; [|discriminate]. cbn [bind] in H.
    destruct (PyNum.float_of_string a7) as [v7|]; [|discriminate]. cbn [bind] in H.
    destruct (Datetime.strptime a10 _) as [v10|]; [|discriminate]. cbn [bind] in H.
    exists v0, v4, v5, v6, v7, v10. repeat split; congruence.
  - intros (v0 & v4 & v5 & v6 & v7 & v10 & -> & -> & -> & -> & -> & -> & ->).
    reflexivity.
Qed.

(** C4. The ninth column decodes to true exactly when it is the literal
    [True]; whatever else it holds, the conversion neither fails nor changes
    in any other entry: the same line with another ninth column converts to
    the same record, with [confirmed] false unless that column is [True]. *)
Theorem confirmed_is_exact_literal
    (a0 a1 a2 a3 a4 a5 a6 a7 a8 a9 a10 : string) (r : Reservation) :
  snd (convert_reservation_data [a0; a1; a2; a3; a4; a5; a6; a7; a8; a9; a10]) = Ok r ->
  (confirmed r = true <-> a8 = "True")
  /\ forall a8' : string,
       snd (convert_reservation_data [a0; a1; a2; a3; a4; a5; a6; a7; a8'; a9; a10])
       = Ok {| reservationId := reservationId r; name := name r; email := email r;
               phone := phone r; reservationDate := reservationDate r;
               reservationTime := reservationTime r;
               durationHours := durationHours r; price := price r;
               confirmed := String.eqb a8' "True";
               reservedResource := reservedResource r; createdAt := createdAt r |}.
Proof.
  rewrite convert_11. intros H. apply convert_fields_ok in H.
  destruct H as (v0 & v4 & v5 & v6 & v7 & v10 & H0 & H4 & H5 & H6 & H7 & H10 & ->).
  split.
  - cbn [confirmed]. apply String.eqb_eq.
  - intros a8'. rewrite convert_11. apply convert_fields_ok.
    exists v0, v4, v5, v6, v7, v10. cbn. repeat split; assumption.
Qed.

(** The same line with [true], [TRUE] or [True] in the ninth column. *)
Lemma confirmed_is_exact_literal_witness :
  let line a8 := ["201"; "Moomin Valley"; "moomin@whitevalley.org"; "0509876543";
                  "2025-11-12"; "09:00"; "2"; "18.50"; a8; "Forest Area 1";
                  "2025-08-12 14:33:20"] in
  (exists r, snd (convert_reservation_data (line "true")) = Ok r /\ confirmed r = false)
  /\ (exists r, snd (convert_reservation_data (line "TRUE")) = Ok r /\ confirmed r = false)
  /\ (exists r, snd (convert_reservation_data (line "True")) = Ok r /\ confirmed r = true).
Proof.
  assert (H : exists r,
    snd (convert_reservation_data
           ["201"; "Moomin Valley"; "moomin@whitevalley.org"; "0509876543";
            "2025-11-12"; "09:00"; "2"; "18.50"; "no"; "Forest Area 1";
            "2025-08-12 14:33:20"]) = Ok r).
  { eexists. vm_compute. reflexivity. }
  destruct H as [r H].
  pose proof (confirmed_is_exact_literal _ _ _ _ _ _ _ _ _ _ _ r H) as [_ Hall].
  cbv zeta. repeat split; eexists; (split; [apply Hall | reflexivity]).
Defined.

(** The conversion of an 11-field line fails exactly with the exception of
    the first failing decoder, and succeeds when there is none. *)
Lemma convert_fields_first_failure (a0 a1 a2 a3 a4 a5 a6 a7 a8 a9 a10 : string) :
  match Spec.first_failure Spec.column_decoders
          [a0; a1; a2; a3; a4; a5; a6; a7; a8; a9; a10] with
  | Some (c, e) =>
      convert_fields [a0; a1; a2; a3; a4; a5; a6; a7; a8; a9; a10] = Err e
      /\ exists v, e = ValueError v
  | None =>
      exists r, convert_fields [a0; a1; a2; a3; a4; a5; a6; a7; a8; a9; a10] = Ok r
  end.
Proof.
  rewrite convert_fields_11.
  unfold Spec.column_decoders.
  cbn [Spec.first_failure lookup list_lookup default from_option id].
  destruct (PyNum.int a0) as [v0|e0] eqn:E0; cbn [Spec.void bind].
  2:{ split; [reflexivity|]. apply int_error in E0. eauto. }
  destruct (Datetime.strptime a4 "%Y-%m-%d") as [v4|e4] eqn:E4; cbn [Spec.void bind].
  2:{ split; [reflexivity|]. eapply strptime_error; eauto. }
  destruct (Datetime.strptime a5 "%H:%M") as [v5|e5] eqn:E5; cbn [Spec.void bind].
  2:{ split; [reflexivity|]. eapply strptime_error; eauto. }
  destruct (PyNum.int a6) as [v6|e6] eqn:E6; cbn [Spec.void bind].
  2:{ split; [reflexivity|]. apply int_error in E6. eauto. }
  destruct (PyNum.float_of_string a7) as [v7|e7] eqn:E7; cbn [Spec.void bind].
  2:{ split; [reflexivity|]. apply float_error in E7. eauto. }
  destruct (Datetime.strptime a10 "%Y-%m-%d %H:%M:%S") as [v10|e10] eqn:E10;
    cbn [Spec.void bind].
  2:{ split; [reflexivity|]. eapply strptime_error; eauto. }
  eauto.
Qed.

Lemma fetch_reservations_app (pre post : list string) :
  fetch_reservations (pre ++ post)%list
  = (let* rs := fetch_reservations pre in
     for_each (fun reservations line =>
                 let fields := split "|" line in
                 let* r := snd (convert_reservation_data fields) in
                 Ok (reservations ++ [r])%list) post rs).
Proof. unfold fetch_reservations. apply for_each_app. Qed.

(** C8, as the code has it. When a field of an 11-field line fails its
    decoder, the conversion raises the [ValueError] of the first column that
    fails, in decoding order; the reader stops at that line: it returns no
    record, of that line, of an earlier or of a later one, and [main] ends
    with the exception having printed nothing. *)
Theorem parse_failure_is_fail_fast
    (pre post : list string) (bad : string) (rs : list Reservation)
    (a0 a1 a2 a3 a4 a5 a6 a7 a8 a9 a10 : string) (c : nat) (e : exn) :
  fetch_reservations pre = Ok rs ->
  split "|" bad = [a0; a1; a2; a3; a4; a5; a6; a7; a8; a9; a10] ->
  Spec.first_failure Spec.column_decoders
    [a0; a1; a2; a3; a4; a5; a6; a7; a8; a9; strip a10] = Some (c, e) ->
  (exists v, e = ValueError v)
  /\ snd (convert_reservation_data (split "|" bad)) = Err e
  /\ fetch_reservations (pre ++ bad :: post) = Err e
  /\ main (pre ++ bad :: post) = ([], Err e).
Proof.
  intros Hpre Hsplit Hff.
  pose proof (convert_fields_first_failure a0 a1 a2 a3 a4 a5 a6 a7 a8 a9 (strip a10)) as H.
  rewrite Hff in H. destruct H as [Hconv Hval].
  assert (Hbad : snd (convert_reservation_data (split "|" bad)) = Err e)
    by (rewrite Hsplit, convert_11; exact Hconv).
  assert (Hfetch : fetch_reservations (pre ++ bad :: post) = Err e).
  { rewrite fetch_reservations_app, Hpre. cbn [bind for_each].
    rewrite Hbad. reflexivity. }
  repeat split; try assumption.
  unfold main. rewrite Hfetch. reflexivity.
Qed.

(** A file of three lines whose second has a malformed date. *)
Lemma parse_failure_is_fail_fast_witness :
  let good := "201|Moomin Valley|moomin@whitevalley.org|0509876543|2025-11-12|09:00|2|18.50|True|Forest Area 1|2025-08-12 14:33:20" in
  let bad := "202|Snork|snork@whitevalley.org|0501234567|2025-02-30|10:00|1|9.00|False|Cave|2025-08-13 08:00:00" in
  let e := ValueError (OutOfRange "day is out of range for month") in
  fetch_reservations [good; bad; good] = Err e
  /\ main [good; bad; good] = ([], Err e).
Proof.
  cbv zeta.
  assert (Hpre : exists rs, fetch_reservations
    ["201|Moomin Valley|moomin@whitevalley.org|0509876543|2025-11-12|09:00|2|18.50|True|Forest Area 1|2025-08-12 14:33:20"]
    = Ok rs) by (eexists; vm_compute; reflexivity).
  destruct Hpre as [rs Hpre].
  pose proof (parse_failure_is_fail_fast _
    ["201|Moomin Valley|moomin@whitevalley.org|0509876543|2025-11-12|09:00|2|18.50|True|Forest Area 1|2025-08-12 14:33:20"]
    "202|Snork|snork@whitevalley.org|0501234567|2025-02-30|10:00|1|9.00|False|Cave|2025-08-13 08:00:00"
    rs "202" "Snork" "snork@whitevalley.org" "0501234567" "2025-02-30" "10:00" "1"
    "9.00" "False" "Cave" "2025-08-13 08:00:00" 4%nat
    (ValueError (OutOfRange "day is out of range for month"))
    Hpre eq_refl eq_refl) as (_ & _ & Hf & Hm).
  split; assumption.
Defined.

(** C8, as the claim states it, fails: the exception does not tell the
    column. A line whose first column is malformed and a line whose seventh
    column is malformed raise the same exception; and for a date that does
    not exist the exception does not hold the raw value either. *)
Lemma parse_error_does_not_identify_column :
  let line0 := ["x"; "n"; "e"; "p"; "2025-11-12"; "09:00"; "2"; "18.50"; "True"; "r";
                "2025-08-12 14:33:20"] in
  let line6 := ["1"; "n"; "e"; "p"; "2025-11-12"; "09:00"; "x"; "18.50"; "True"; "r";
                "2025-08-12 14:33:20"] in
  let feb30 := ["1"; "n"; "e"; "p"; "2025-02-30"; "09:00"; "2"; "18.50"; "True"; "r";
                "2025-08-12 14:33:20"] in
  let feb31 := ["1"; "n"; "e"; "p"; "2025-02-31"; "09:00"; "2"; "18.50"; "True"; "r";
                "2025-08-12 14:33:20"] in
  Spec.first_failure Spec.column_decoders line0
    = Some (0%nat, ValueError (InvalidIntLiteral "x"))
  /\ Spec.first_failure Spec.column_decoders line6
    = Some (6%nat, ValueError (InvalidIntLiteral "x"))
  /\ snd (convert_reservation_data line0) = Err (ValueError (InvalidIntLiteral "x"))
  /\ snd (convert_reservation_data line6) = Err (ValueError (InvalidIntLiteral "x"))
  /\ snd (convert_reservation_data feb30)
    = Err (ValueError (OutOfRange "day is out of range for month"))
  /\ snd (convert_reservation_data feb31)
    = Err (ValueError (OutOfRange "day is out of range for month")).
Proof. vm_compute. repeat split; reflexivity. Qed.

(** ** TaskC: the revenue report *)




End TaskC_facts.

(** ** TaskE: the aggregator *)
Module TaskE_facts.
Import PyStr TaskE.

Lemma of_int_ok (z : Z) (f : PyNum.float) : PyNum.of_int z = Ok f -> f = PyNum.of_Z z.
Proof.
  unfold PyNum.of_int. destruct (PyNum.of_Z z); intros H; inversion H; reflexivity.
Qed.

(** The three turns of the inner loop on totals of three phases. *)
Lemma add_phases_ok (entry : MeterRow) (c0 c1 c2 p0 p1 p2 : PyNum.float) (t' : totals) :
  for_each (add_phase entry) range3 {| cons := [c0; c1; c2]; prod := [p0; p1; p2] |} = Ok t' ->
  t' = Spec.add_row {| cons := [c0; c1; c2]; prod := [p0; p1; p2] |} entry.
Proof.
  unfold Spec.add_row, Spec.kwh, range3, add_phase, getitem.
  destruct (consumption entry) as [|a0 [|a1 [|a2 ca]]];
    destruct (production entry) as [|b0 [|b1 [|b2 pa]]];
    cbn [for_each bind lookup list_lookup cons prod insert list_insert map nth];
    try discriminate;
    repeat match goal with
    | |- context [PyNum.of_int ?z] =>
        let E := fresh "E" in
        destruct (PyNum.of_int z) eqn:E;
        [apply of_int_ok in E; subst|];
        cbn [for_each bind lookup list_lookup cons prod insert list_insert map nth];
        try discriminate
    end.
  intros H. inversion H. reflexivity.
Qed.

Lemma add_row_three_phases (t : totals) (r : MeterRow) :
  exists c0 c1 c2 p0 p1 p2,
    Spec.add_row t r = {| cons := [c0; c1; c2]; prod := [p0; p1; p2] |}.
Proof. unfold Spec.add_row, range3. cbn [map]. repeat eexists. Qed.

(** One turn of the outer loop. *)
Lemma add_entry_ok (daily daily' : gmap Datetime.date totals) (entry : MeterRow) :
  Spec.three_phases daily ->
  add_entry daily entry = Ok daily' ->
  daily' = <[date entry := Spec.add_row (default zero_totals (daily !! date entry)) entry]> daily.
Proof.
  intros Hinv. unfold add_entry.
  assert (Hshape : exists c0 c1 c2 p0 p1 p2,
    default zero_totals (daily !! date entry)
    = {| cons := [c0; c1; c2]; prod := [p0; p1; p2] |}).
  { destruct (daily !! date entry) as [t|] eqn:E.
    - apply (Hinv _ _ E).
    - unfold zero_totals. cbn. repeat eexists. }
  destruct Hshape as (c0 & c1 & c2 & p0 & p1 & p2 & Hshape).
  replace (match daily !! date entry with Some t => t | None => zero_totals end)
    with (default zero_totals (daily !! date entry))
    by (destruct (daily !! date entry); reflexivity).
  rewrite Hshape.
  destruct (for_each (add_phase entry) range3 _) as [t'|e] eqn:E; [|discriminate].
  apply add_phases_ok in E. subst t'. cbn [bind]. intros H. inversion H. reflexivity.
Qed.

Lemma add_entry_three_phases (daily daily' : gmap Datetime.date totals) (entry : MeterRow) :
  Spec.three_phases daily -> add_entry daily entry = Ok daily' -> Spec.three_phases daily'.
Proof.
  intros Hinv H. rewrite (add_entry_ok _ _ _ Hinv H). intros d t.
  destruct (decide (date entry = d)) as [->|Hne].
  - rewrite lookup_insert_eq. intros [= <-]. apply add_row_three_phases.
  - rewrite lookup_insert_ne by exact Hne. apply Hinv.
Qed.

Lemma rows_of_day_cons (d : Datetime.date) (r : MeterRow) (rows : list MeterRow) :
  Spec.rows_of_day d (r :: rows)
  = if decide (date r = d) then r :: Spec.rows_of_day d rows
    else Spec.rows_of_day d rows.
Proof.
  unfold Spec.rows_of_day. cbn [List.filter].
  destruct (decide (date r = d)) as [H|H].
  - now rewrite bool_decide_eq_true_2.
  - now rewrite bool_decide_eq_false_2.
Qed.

(** The dictionary after the loop, entry by entry: the rows of a date are
    added, in their order, to what the dictionary held for it. *)
Lemma for_each_add_entry_lookup (rows : list MeterRow) :
  forall daily0 daily : gmap Datetime.date totals,
    Spec.three_phases daily0 ->
    for_each add_entry rows daily0 = Ok daily ->
    forall d,
      daily !! d
      = match Spec.rows_of_day d rows with
        | [] => daily0 !! d
        | rs => Some (fold_left Spec.add_row rs (default zero_totals (daily0 !! d)))
        end.
Proof.
  induction rows as [|r rows IH]; intros daily0 daily Hinv H d.
  - cbn in H. inversion H. reflexivity.
  - cbn [for_each] in H.
    destruct (add_entry daily0 r) as [daily1|e] eqn:E1; [|discriminate].
    cbn [bind] in H.
    pose proof (add_entry_three_phases _ _ _ Hinv E1) as Hinv1.
    rewrite (IH _ _ Hinv1 H d).
    rewrite (add_entry_ok _ _ _ Hinv E1).
    rewrite rows_of_day_cons.
    destruct (decide (date r = d)) as [->|Hne].
    + rewrite lookup_insert_eq. cbn [default from_option id].
      destruct (Spec.rows_of_day _ rows); reflexivity.
    + rewrite lookup_insert_ne by exact Hne. reflexivity.
Qed.

(** Adding rows one after the other sums each phase from left to right. *)
Lemma fold_add_row (rs : list MeterRow) :
  forall c0 c1 c2 p0 p1 p2,
    fold_left Spec.add_row rs {| cons := [c0; c1; c2]; prod := [p0; p1; p2] |}
    = {| cons :=
           map (fun i => fold_left PyNum.fadd
                           (map (fun r => Spec.kwh (nth i (consumption r) 0)) rs)
                           (nth i [c0; c1; c2] PyNum.fzero)) range3;
         prod :=
           map (fun i => fold_left PyNum.fadd
                           (map (fun r => Spec.kwh (nth i (production r) 0)) rs)
                           (nth i [p0; p1; p2] PyNum.fzero)) range3 |}.
Proof.
  induction rs as [|r rs IH]; intros c0 c1 c2 p0 p1 p2; [reflexivity|].
  cbn [fold_left]. unfold Spec.add_row at 2. unfold range3 at 1 2.
  cbn [map cons prod nth]. rewrite IH. reflexivity.
Qed.

Lemma fold_add_row_zero (d : Datetime.date) (rows : list MeterRow) :
  fold_left Spec.add_row (Spec.rows_of_day d rows) zero_totals = Spec.day_totals d rows.
Proof. unfold zero_totals. rewrite fold_add_row. reflexivity. Qed.

Lemma three_phases_empty : Spec.three_phases ∅.
Proof. intros d t H. rewrite lookup_empty in H. discriminate. Qed.

(** The result of the aggregator, entry by entry. *)
Lemma compute_daily_totals_lookup (rows : list MeterRow)
    (daily : gmap Datetime.date totals) (d : Datetime.date) :
  compute_daily_totals rows = Ok daily ->
  daily !! d = match Spec.rows_of_day d rows with
               | [] => None
               | _ => Some (Spec.day_totals d rows)
               end.
Proof.
  intros H. unfold compute_daily_totals in H.
  rewrite (for_each_add_entry_lookup rows _ _ three_phases_empty H d).
  rewrite lookup_empty. cbn [default from_option id].
  rewrite <- fold_add_row_zero.
  destruct (Spec.rows_of_day d rows); reflexivity.
Qed.

(** C2. For every sequence of rows the aggregator accepts and every date
    [d] of its result, the stored totals of [d] are, phase by phase, the sum
    over the rows of date [d], in their order, of the reading divided by
    1000; and a date is in the result exactly when some row has it. *)
Theorem daily_totals_are_sums (rows : list MeterRow)
    (daily : gmap Datetime.date totals) (d : Datetime.date) (t : totals) :
  compute_daily_totals rows = Ok daily ->
  daily !! d = Some t ->
  cons t = [Spec.phase_sum consumption 0 d rows; Spec.phase_sum consumption 1 d rows;
            Spec.phase_sum consumption 2 d rows]
  /\ prod t = [Spec.phase_sum production 0 d rows; Spec.phase_sum production 1 d rows;
               Spec.phase_sum production 2 d rows]
  /\ exists r, In r rows /\ date r = d.
Proof.
  intros H Hd. rewrite (compute_daily_totals_lookup _ _ d H) in Hd.
  destruct (Spec.rows_of_day d rows) as [|r rs] eqn:E; [discriminate|].
  inversion Hd; subst t. repeat split; try reflexivity.
  exists r. assert (Hin : In r (Spec.rows_of_day d rows)) by (rewrite E; left; reflexivity).
  unfold Spec.rows_of_day in Hin. apply filter_In in Hin as [Hin Hb].
  split; [exact Hin | now apply bool_decide_eq_true_1 in Hb].
Qed.

(** Whether the inner loop raises does not depend on the totals so far. *)
Lemma add_phases_is_ok (entry : MeterRow) (c0 c1 c2 p0 p1 p2 : PyNum.float) :
  is_ok (for_each (add_phase entry) range3 {| cons := [c0; c1; c2]; prod := [p0; p1; p2] |})
  = is_ok (for_each (add_phase entry) range3 zero_totals).
Proof.
  unfold zero_totals, range3, add_phase, getitem.
  destruct (consumption entry) as [|a0 [|a1 [|a2 ca]]];
    destruct (production entry) as [|b0 [|b1 [|b2 pa]]];
    cbn [for_each bind lookup list_lookup cons prod insert list_insert is_ok];
    try reflexivity;
    repeat match goal with
    | |- context [PyNum.of_int ?z] =>
        destruct (PyNum.of_int z);
        cbn [for_each bind lookup list_lookup cons prod insert list_insert is_ok];
        try reflexivity
    end.
Qed.

Lemma add_entry_is_ok (daily : gmap Datetime.date totals) (entry : MeterRow) :
  Spec.three_phases daily ->
  is_ok (add_entry daily entry) = true <-> Spec.addable entry.
Proof.
  intros Hinv. unfold add_entry, Spec.addable.
  assert (Hshape : exists c0 c1 c2 p0 p1 p2,
    match daily !! date entry with Some t => t | None => zero_totals end
    = {| cons := [c0; c1; c2]; prod := [p0; p1; p2] |}).
  { destruct (daily !! date entry) as [t|] eqn:E.
    - apply (Hinv _ _ E).
    - unfold zero_totals. repeat eexists. }
  destruct Hshape as (c0 & c1 & c2 & p0 & p1 & p2 & ->).
  rewrite <- (add_phases_is_ok entry c0 c1 c2 p0 p1 p2).
  destruct (for_each (add_phase entry) range3 _); reflexivity.
Qed.

(** The aggregator returns exactly when every row can be added. *)
Lemma for_each_add_entry_is_ok (rows : list MeterRow) :
  forall daily0 : gmap Datetime.date totals,
    Spec.three_phases daily0 ->
    is_ok (for_each add_entry rows daily0) = true <-> Forall Spec.addable rows.
Proof.
  induction rows as [|r rows IH]; intros daily0 Hinv.
  - cbn. split; [constructor | reflexivity].
  - cbn [for_each]. pose proof (add_entry_is_ok daily0 r Hinv) as Hr.
    destruct (add_entry daily0 r) as [daily1|e] eqn:E1; cbn [bind].
    + rewrite (IH daily1 (add_entry_three_phases _ _ _ Hinv E1)).
      split.
      * intros H. constructor; [apply Hr; reflexivity | exact H].
      * intros H. now inversion H.
    + split; [discriminate|]. intros H. inversion H; subst.
      apply Hr. assumption.
Qed.

Lemma compute_daily_totals_is_ok (rows : list MeterRow) :
  (exists daily, compute_daily_totals rows = Ok daily) <-> Forall Spec.addable rows.
Proof.
  rewrite <- (for_each_add_entry_is_ok rows ∅ three_phases_empty).
  unfold compute_daily_totals.
  destruct (for_each add_entry rows ∅) as [daily|e]; cbn [is_ok]; split.
  - reflexivity.
  - eauto.
  - intros [daily H]. discriminate.
  - discriminate.
Qed.

(** Rows as [read_data] builds them, with readings below [2^53], can be
    added: on such input the aggregator returns. *)
Lemma well_formed_addable (r : MeterRow) : Spec.well_formed r -> Spec.addable r.
Proof.
  intros (Hc & Hp & Hcb & Hpb). unfold Spec.addable, zero_totals, range3, add_phase, getitem.
  destruct (consumption r) as [|a0 [|a1 [|a2 [|? ?]]]]; try discriminate Hc.
  destruct (production r) as [|b0 [|b1 [|b2 [|? ?]]]]; try discriminate Hp.
  repeat match goal with
  | H : Forall _ (_ :: _) |- _ => inversion H; clear H; subst
  end.
  cbn [for_each bind lookup list_lookup cons prod insert list_insert].
  repeat (rewrite PyNum_facts.of_int_small by assumption;
          cbn [for_each bind lookup list_lookup cons prod insert list_insert]).
  reflexivity.
Qed.

Lemma compute_daily_totals_returns (rows : list MeterRow) :
  Forall Spec.well_formed rows -> exists daily, compute_daily_totals rows = Ok daily.
Proof.
  intros H. apply compute_daily_totals_is_ok.
  eapply Forall_impl; [exact H | apply well_formed_addable].
Qed.

(** The two rows of the example: 1000 Wh and 2000 Wh on phase 1 of the
    consumption, on one day. *)
Lemma daily_totals_are_sums_witness :
  let day := {| Datetime.year := 2025; Datetime.month := 10; Datetime.day := 13 |} in
  let row h wh :=
    {| timestamp := {| Datetime.dt_date := day;
                       Datetime.dt_time := {| Datetime.hour := h; Datetime.minute := 0;
                                              Datetime.second := 0 |} |};
       date := day; consumption := [wh; 0; 0]; production := [0; 0; 0] |} in
  exists daily t,
    compute_daily_totals [row 0 1000; row 1 2000] = Ok daily
    /\ daily !! day = Some t
    /\ nth 0 (cons t) PyNum.fzero = PyNum.of_Z 3
    /\ format_kwh (nth 0 (cons t) PyNum.fzero) = "3,00".
Proof.
  cbv zeta.
  destruct (compute_daily_totals_returns
    [ {| timestamp := {| Datetime.dt_date := {| Datetime.year := 2025; Datetime.month := 10;
                                                Datetime.day := 13 |};
                         Datetime.dt_time := {| Datetime.hour := 0; Datetime.minute := 0;
                                                Datetime.second := 0 |} |};
         date := {| Datetime.year := 2025; Datetime.month := 10; Datetime.day := 13 |};
         consumption := [1000; 0; 0]; production := [0; 0; 0] |};
      {| timestamp := {| Datetime.dt_date := {| Datetime.year := 2025; Datetime.month := 10;
                                                Datetime.day := 13 |};
                         Datetime.dt_time := {| Datetime.hour := 1; Datetime.minute := 0;
                                                Datetime.second := 0 |} |};
         date := {| Datetime.year := 2025; Datetime.month := 10; Datetime.day := 13 |};
         consumption := [2000; 0; 0]; production := [0; 0; 0] |} ]) as [daily Hd].
  { repeat constructor; cbn; lia. }
  pose proof (compute_daily_totals_lookup _ _
    {| Datetime.year := 2025; Datetime.month := 10; Datetime.day := 13 |} Hd) as Hl.
  change (Spec.rows_of_day _ _) with
    [ {| timestamp := {| Datetime.dt_date := {| Datetime.year := 2025; Datetime.month := 10;
                                                Datetime.day := 13 |};
                         Datetime.dt_time := {| Datetime.hour := 0; Datetime.minute := 0;
                                                Datetime.second := 0 |} |};
         date := {| Datetime.year := 2025; Datetime.month := 10; Datetime.day := 13 |};
         consumption := [1000; 0; 0]; production := [0; 0; 0] |};
      {| timestamp := {| Datetime.dt_date := {| Datetime.year := 2025; Datetime.month := 10;
                                                Datetime.day := 13 |};
                         Datetime.dt_time := {| Datetime.hour := 1; Datetime.minute := 0;
                                                Datetime.second := 0 |} |};
         date := {| Datetime.year := 2025; Datetime.month := 10; Datetime.day := 13 |};
         consumption := [2000; 0; 0]; production := [0; 0; 0] |} ] in Hl.
  cbv iota in Hl.
  destruct (daily_totals_are_sums _ _ _ _ Hd Hl) as (Hc & _ & _).
  eexists daily, _. split; [exact Hd|]. split; [exact Hl|].
  rewrite Hc. cbn [nth]. split; vm_compute; reflexivity.
Defined.

(** The dates of the result are the dates of the rows. *)
Lemma compute_daily_totals_dom (rows : list MeterRow)
    (daily : gmap Datetime.date totals) (d : Datetime.date) :
  compute_daily_totals rows = Ok daily ->
  d ∈ dom daily <-> exists r, In r rows /\ date r = d.
Proof.
  intros H. rewrite elem_of_dom, (compute_daily_totals_lookup _ _ d H).
  unfold Spec.rows_of_day.
  destruct (List.filter _ rows) as [|r rs] eqn:E.
  - split; [intros [t Ht]; discriminate|].
    intros (r & Hin & Hr). exfalso.
    assert (Hf : In r (List.filter (fun r => bool_decide (date r = d)) rows)).
    { apply filter_In. split; [exact Hin | now apply bool_decide_eq_true_2]. }
    rewrite E in Hf. exact Hf.
  - split; [|eauto]. intros _. exists r.
    assert (Hf : In r (List.filter (fun r => bool_decide (date r = d)) rows))
      by (rewrite E; left; reflexivity).
    apply filter_In in Hf as [Hin Hb].
    split; [exact Hin | now apply bool_decide_eq_true_1 in Hb].
Qed.

(** C3, as the code has it. The aggregator accepts a permutation of the rows
    it accepts, and the result has the same dates; the totals are the same
    whenever the rows of each date come in the same order, since every total
    is a float sum taken in the order of the rows. *)
Theorem daily_totals_under_permutation (rows rows' : list MeterRow)
    (daily : gmap Datetime.date totals) :
  Permutation rows rows' ->
  compute_daily_totals rows = Ok daily ->
  exists daily',
    compute_daily_totals rows' = Ok daily'
    /\ dom daily' = dom daily
    /\ ((forall d, Spec.rows_of_day d rows' = Spec.rows_of_day d rows) -> daily' = daily).
Proof.
  intros Hperm H.
  assert (Hok : Forall Spec.addable rows') by
    (rewrite <- Hperm; apply compute_daily_totals_is_ok; eauto).
  apply compute_daily_totals_is_ok in Hok as [daily' H'].
  exists daily'. split; [exact H'|]. split.
  - apply set_eq. intros d.
    rewrite (compute_daily_totals_dom _ _ d H), (compute_daily_totals_dom _ _ d H').
    split; intros (r & Hin & Hr); exists r; (split; [|exact Hr]).
    + eapply Permutation_in; [symmetry; exact Hperm | exact Hin].
    + eapply Permutation_in; [exact Hperm | exact Hin].
  - intros Hsame. apply map_eq. intros d.
    rewrite (compute_daily_totals_lookup _ _ d H), (compute_daily_totals_lookup _ _ d H').
    unfold Spec.day_totals, Spec.phase_sum. rewrite (Hsame d). reflexivity.
Qed.

(** Two rows of different dates, in both orders. *)
Lemma daily_totals_under_permutation_witness :
  let row d wh :=
    {| timestamp := {| Datetime.dt_date := {| Datetime.year := 2025; Datetime.month := 10;
                                              Datetime.day := d |};
                       Datetime.dt_time := Datetime.midnight |};
       date := {| Datetime.year := 2025; Datetime.month := 10; Datetime.day := d |};
       consumption := [wh; 0; 0]; production := [0; 0; 0] |} in
  exists daily,
    compute_daily_totals [row 13 100; row 14 200] = Ok daily
    /\ compute_daily_totals [row 14 200; row 13 100] = Ok daily.
Proof.
  cbv zeta.
  destruct (compute_daily_totals_returns
    [ {| timestamp := {| Datetime.dt_date := {| Datetime.year := 2025; Datetime.month := 10;
                                                Datetime.day := 13 |};
                         Datetime.dt_time := Datetime.midnight |};
         date := {| Datetime.year := 2025; Datetime.month := 10; Datetime.day := 13 |};
         consumption := [100; 0; 0]; production := [0; 0; 0] |};
      {| timestamp := {| Datetime.dt_date := {| Datetime.year := 2025; Datetime.month := 10;
                                                Datetime.day := 14 |};
                         Datetime.dt_time := Datetime.midnight |};
         date := {| Datetime.year := 2025; Datetime.month := 10; Datetime.day := 14 |};
         consumption := [200; 0; 0]; production := [0; 0; 0] |} ]) as [daily Hd].
  { repeat constructor; cbn; lia. }
  exists daily. split; [exact Hd|].
  destruct (daily_totals_under_permutation _ _ _ (perm_swap _ _ []) Hd)
    as (daily' & Hd' & _ & Hsame).
  rewrite Hd'. f_equal. apply Hsame. intros d.
  rewrite !rows_of_day_cons. cbn [date].
  repeat case_decide; try reflexivity; congruence.
Defined.

(** C3, as the claim states it, fails: three readings of 100, 200 and 300 Wh
    on one day sum to 0.6000000000000001 kWh in this order and to 0.6 kWh in
    the opposite one. *)
Lemma daily_totals_depend_on_order :
  let day := {| Datetime.year := 2025; Datetime.month := 10; Datetime.day := 13 |} in
  let row wh :=
    {| timestamp := {| Datetime.dt_date := day; Datetime.dt_time := Datetime.midnight |};
       date := day; consumption := [wh; 0; 0]; production := [0; 0; 0] |} in
  Permutation [row 100; row 200; row 300] [row 300; row 200; row 100]
  /\ (let* daily := compute_daily_totals [row 100; row 200; row 300] in
      Ok (option_map cons (daily !! day)))
     = Ok (Some [S754_finite false 5404319552844596 (-53); PyNum.fzero; PyNum.fzero])
  /\ (let* daily := compute_daily_totals [row 300; row 200; row 100] in
      Ok (option_map cons (daily !! day)))
     = Ok (Some [S754_finite false 5404319552844595 (-53); PyNum.fzero; PyNum.fzero]).
Proof.
  cbv zeta. split.
  - eapply perm_trans; [apply perm_swap|].
    eapply perm_trans; [apply perm_skip, perm_swap|]. apply perm_swap.
  - split; vm_compute; reflexivity.
Qed.

End TaskE_facts.

(** ** TaskE: the reader *)
Module Reader_facts.
Import PyStr TaskE.

Lemma foldl_insert_some_lookup (kvs : list (string * string)) (d : Csv.row) (key : string) :
  ~ In key (map fst kvs) ->
  foldl (fun (d : Csv.row) kv => <[kv.1 := Some kv.2]> d) d kvs !! key = d !! key.
Proof.
  revert d. induction kvs as [|kv kvs IH]; intros d Hk; [reflexivity|].
  cbn [foldl]. rewrite IH.
  - apply lookup_insert_ne. intros Heq. apply Hk. left. exact Heq.
  - intros Hin. apply Hk. right. exact Hin.
Qed.

Lemma foldl_insert_none_lookup (ks : list string) (d : Csv.row) (key : string) :
  ~ In key ks ->
  foldl (fun (d : Csv.row) k => <[k := None]> d) d ks !! key = d !! key.
Proof.
  revert d. induction ks as [|k ks IH]; intros d Hk; [reflexivity|].
  cbn [foldl]. rewrite IH.
  - apply lookup_insert_ne. intros Heq. apply Hk. left. exact Heq.
  - intros Hin. apply Hk. right. exact Hin.
Qed.

Lemma in_fst_zip (l1 l2 : list string) (key : string) :
  In key (map fst (zip l1 l2)) -> In key l1.
Proof.
  revert l2. induction l1 as [|x l1 IH]; intros [|y l2]; cbn; try tauto.
  intros [H|H]; [left; exact H | right; eapply IH; exact H].
Qed.

Lemma in_drop (n : nat) (l : list string) (key : string) : In key (drop n l) -> In key l.
Proof.
  revert l. induction n as [|n IH]; intros [|x l]; cbn; try tauto.
  intros H. right. apply IH. exact H.
Qed.

(** A row has no value under a name the header lacks. *)
Lemma make_row_lookup_absent (fieldnames record : list string) (key : string) :
  ~ In key fieldnames -> Csv.make_row fieldnames record !! key = None.
Proof.
  intros Hk. unfold Csv.make_row.
  rewrite foldl_insert_none_lookup by (intros H; apply Hk; eapply in_drop; exact H).
  rewrite foldl_insert_some_lookup by (intros H; apply Hk; eapply in_fst_zip; exact H).
  apply lookup_empty.
Qed.

Lemma filter_all_empty (rest : list (list string)) :
  Forall (fun record => record = []) rest -> List.filter Csv.nonempty rest = [].
Proof.
  induction 1 as [|record rest -> _ IH]; [reflexivity|]. cbn. exact IH.
Qed.

Section Reader.
Variable fromisoformat : string -> option Datetime.datetime.

(** Reading a row raises what the first expected column that cannot be read
    raises, and returns when every expected column can be read. *)
Lemma read_row_first_failure (row : Csv.row) :
  match Spec.first_column_failure fromisoformat row Spec.expected_columns with
  | Some e => read_row fromisoformat row = Err e
  | None => exists r, read_row fromisoformat row = Ok r
  end.
Proof.
  unfold Spec.expected_columns. cbn [Spec.first_column_failure].
  unfold Spec.column_failure.
  repeat match goal with
  | |- context [String.eqb ?a ?b] =>
      let v := eval vm_compute in (String.eqb a b) in change (String.eqb a b) with v
  end.
  cbv iota.
  unfold read_row, range3, Csv.getkey, decode_time, decode_int. cbn [comprehension].
  change (phase_key "Consumption" 0) with "Consumption phase 1 Wh".
  change (phase_key "Consumption" 1) with "Consumption phase 2 Wh".
  change (phase_key "Consumption" 2) with "Consumption phase 3 Wh".
  change (phase_key "Production" 0) with "Production phase 1 Wh".
  change (phase_key "Production" 1) with "Production phase 2 Wh".
  change (phase_key "Production" 2) with "Production phase 3 Wh".
  repeat match goal with
  | |- context [row !! ?k] =>
      destruct (row !! k) as [[?|]|]; cbn [bind]; try reflexivity
  | |- context [fromisoformat ?t] =>
      destruct (fromisoformat t); cbn [bind]; try reflexivity
  | |- context [PyNum.int ?t] =>
      destruct (PyNum.int t); cbn [bind]; try reflexivity
  end.
  eexists. reflexivity.
Qed.

Lemma missing_column_failure (row : Csv.row) (key : string) (keys : list string) :
  In key keys -> row !! key = None ->
  Spec.first_column_failure fromisoformat row (Spec.columns_before_in key keys) = None ->
  Spec.first_column_failure fromisoformat row keys = Some (KeyError key).
Proof.
  intros Hin Hnone. induction keys as [|k keys IH]; [destruct Hin|].
  cbn [Spec.columns_before_in Spec.first_column_failure].
  destruct (String.eqb_spec k key) as [->|Hne].
  - intros _. unfold Spec.column_failure. now rewrite Hnone.
  - cbn [Spec.first_column_failure].
    destruct (Spec.column_failure fromisoformat row k); [discriminate|].
    apply IH. destruct Hin as [Heq|Hin]; [congruence | exact Hin].
Qed.

Lemma missing_column_fails (row : Csv.row) (key : string) (keys : list string) :
  In key keys -> row !! key = None ->
  exists e, Spec.first_column_failure fromisoformat row keys = Some e.
Proof.
  intros Hin Hnone. induction keys as [|k keys IH]; [destruct Hin|].
  cbn [Spec.first_column_failure].
  destruct (Spec.column_failure fromisoformat row k) as [e|] eqn:Ek; [eauto|].
  apply IH. destruct Hin as [->|Hin]; [|exact Hin].
  unfold Spec.column_failure in Ek. rewrite Hnone in Ek. discriminate Ek.
Qed.

Lemma read_data_first_record (fieldnames first : list string)
    (blanks rest : list (list string)) (e : exn) :
  Forall (fun record => record = []) blanks ->
  first <> [] ->
  read_row fromisoformat (Csv.make_row fieldnames first) = Err e ->
  read_data fromisoformat (fieldnames :: blanks ++ first :: rest) = Err e.
Proof.
  intros Hblanks Hfirst He. unfold read_data. cbn [Csv.DictReader].
  rewrite List.filter_app, (filter_all_empty blanks Hblanks). cbn [app List.filter].
  destruct first; [congruence|]. cbn [Csv.nonempty map for_each].
  rewrite He. reflexivity.
Qed.

(** C9, as the code has it. When the header lacks an expected column and
    the file has a data record, [read_data] raises at the first data record
    and returns nothing. The exception is that of the first expected
    column, in the order [Time], consumption 1 to 3, production 1 to 3,
    that cannot be read in that record: [KeyError] for a column the header
    lacks, [TypeError] for one the record ends before, the [ValueError] of
    its decoder for a text it refuses. It is the [KeyError] of the missing
    column when the columns read before it are read, and always so for
    [Time]. A file without data records is read as the empty list, whatever
    its header. *)
Theorem missing_header_fails_on_first_row
    (fieldnames first : list string) (blanks rest : list (list string)) (key : string) :
  In key Spec.expected_columns ->
  ~ In key fieldnames ->
  Forall (fun record => record = []) blanks ->
  first <> [] ->
  exists e,
    read_data fromisoformat (fieldnames :: blanks ++ first :: rest) = Err e
    /\ read_row fromisoformat (Csv.make_row fieldnames first) = Err e
    /\ Spec.first_column_failure fromisoformat (Csv.make_row fieldnames first)
         Spec.expected_columns = Some e
    /\ (Spec.first_column_failure fromisoformat (Csv.make_row fieldnames first)
          (Spec.columns_before key) = None -> e = KeyError key)
    /\ (key = "Time" -> e = KeyError "Time")
    /\ read_data fromisoformat (fieldnames :: blanks) = Ok [].
Proof.
  intros Hexp Habs Hblanks Hfirst.
  pose proof (make_row_lookup_absent fieldnames first key Habs) as Hnone.
  destruct (missing_column_fails _ key _ Hexp Hnone) as [e He].
  pose proof (read_row_first_failure (Csv.make_row fieldnames first)) as Hrow.
  rewrite He in Hrow.
  assert (Hkey : Spec.first_column_failure fromisoformat (Csv.make_row fieldnames first)
                   (Spec.columns_before key) = None -> e = KeyError key).
  { intros Hbefore.
    pose proof (missing_column_failure _ key _ Hexp Hnone Hbefore) as Hk. congruence. }
  exists e. split; [now apply read_data_first_record|]. split; [exact Hrow|].
  split; [exact He|]. split; [exact Hkey|]. split.
  - intros ->. apply Hkey. reflexivity.
  - unfold read_data. cbn [Csv.DictReader].
    now rewrite (filter_all_empty blanks Hblanks).
Qed.

End Reader.

(** A header without the second consumption column, and a data record
    whose timestamp and first reading are well written. *)
Lemma missing_header_fails_on_first_row_witness :
  let monday := {| Datetime.dt_date := {| Datetime.year := 2025; Datetime.month := 10;
                                          Datetime.day := 13 |};
                   Datetime.dt_time := Datetime.midnight |} in
  let fromisoformat s :=
    if String.eqb s "2025-10-13T00:00:00" then Some monday else None in
  read_data fromisoformat
    [["Time"; "Consumption phase 1 Wh"; "Production phase 1 Wh"];
     ["2025-10-13T00:00:00"; "5"; "7"]]
  = Err (KeyError "Consumption phase 2 Wh").
Proof.
  cbv zeta.
  destruct (missing_header_fails_on_first_row
              (fun s => if String.eqb s "2025-10-13T00:00:00"
                        then Some {| Datetime.dt_date :=
                                       {| Datetime.year := 2025; Datetime.month := 10;
                                          Datetime.day := 13 |};
                                     Datetime.dt_time := Datetime.midnight |}
                        else None)
              ["Time"; "Consumption phase 1 Wh"; "Production phase 1 Wh"]
              ["2025-10-13T00:00:00"; "5"; "7"] [] []
              "Consumption phase 2 Wh")
    as (e & Hread & _ & _ & Hkey & _).
  - cbn. tauto.
  - cbn. intros [H|[H|[H|[]]]]; discriminate H.
  - constructor.
  - discriminate.
  - cbn [app] in Hread. rewrite Hread. f_equal. apply Hkey. vm_compute. reflexivity.
Defined.

(** C9, as the claim states it, fails: a file that has only a header, and
    that header without any expected column, is read without error; and a
    header that lacks a consumption column leaves a [ValueError] when the
    [Time] of the first record is malformed. *)
Lemma missing_header_is_not_always_an_error :
  read_data (fun _ => None) [["Foo"; "Bar"]] = Ok []
  /\ read_data (fun _ => None) [["Time"]; ["yesterday"]]
     = Err (ValueError (InvalidIsoformat "yesterday")).
Proof. split; vm_compute; reflexivity. Qed.

End Reader_facts.

(** ** The weekly table *)
Module Table_facts.
Import PyStr TaskE.

Lemma date_le_transitive : Transitive Datetime.date_le.
Proof. intros a b c. unfold Datetime.date_le. lia. Qed.

Lemma date_le_total : Total Datetime.date_le.
Proof. intros a b. unfold Datetime.date_le. lia. Qed.

Lemma date_le_lt (a b : Datetime.date) :
  Datetime.date_le a b -> a <> b -> Datetime.date_lt a b.
Proof.
  destruct a as [ya ma da], b as [yb mb db].
  unfold Datetime.date_le, Datetime.date_lt. cbn. intros Hle Hne.
  assert (~ (ya = yb /\ ma = mb /\ da = db)) by (intros (-> & -> & ->); congruence).
  lia.
Qed.

(** A list sorted by [<=] that has no duplicates is strictly ascending. *)
Lemma sorted_nodup_strict (l : list Datetime.date) :
  StronglySorted Datetime.date_le l -> NoDup l -> StronglySorted Datetime.date_lt l.
Proof.
  induction 1 as [|a l Hs IH Hall]; intros Hnd; constructor.
  - apply IH. now inversion Hnd.
  - inversion Hnd as [|? ? Hnotin Hnd']; subst.
    rewrite Forall_forall in *. intros b Hb.
    apply date_le_lt; [apply Hall; exact Hb|].
    intros ->. apply Hnotin. exact Hb.
Qed.

(** [sorted(daily.keys())]: the dates of the dictionary, each once, in
    ascending order. *)
Lemma sorted_dates_spec (daily : gmap Datetime.date totals) :
  StronglySorted Datetime.date_lt (sorted_dates daily)
  /\ (forall d, In d (sorted_dates daily) <-> d ∈ dom daily)
  /\ length (sorted_dates daily) = size daily.
Proof.
  unfold sorted_dates.
  pose proof (merge_sort_Permutation Datetime.date_le (elements (dom daily))) as Hp.
  repeat split.
  - apply sorted_nodup_strict.
    + apply (@StronglySorted_merge_sort _ Datetime.date_le _
               date_le_transitive date_le_total).
    + rewrite Hp. apply NoDup_elements.
  - intros H. apply elem_of_elements. rewrite <- Hp. now apply list_elem_of_In.
  - intros H. apply list_elem_of_In. rewrite Hp. now apply elem_of_elements.
  - rewrite Hp. fold (size (dom daily)). apply size_dom.
Qed.

Lemma weekday_range (d : Datetime.date) : 0 <= Datetime.weekday d < 7.
Proof. unfold Datetime.weekday. apply Z.mod_pos_bound. lia. Qed.

(** [d.weekday()] is the day of Zeller's congruence, counted from Monday. *)
Lemma weekday_zeller (d : Datetime.date) :
  1 <= Datetime.month d <= 12 ->
  Datetime.weekday d = (Spec.zeller d + 5) mod 7.
Proof.
  destruct d as [y m dd]. cbn [Datetime.month]. intros Hm.
  assert (Hc : m = 1 \/ m = 2 \/ m = 3 \/ m = 4 \/ m = 5 \/ m = 6 \/ m = 7 \/ m = 8
               \/ m = 9 \/ m = 10 \/ m = 11 \/ m = 12) by lia.
  unfold Datetime.weekday, Spec.zeller, Datetime.toordinal, Datetime.days_before_year,
    Datetime.days_before_month, Datetime.is_leap.
  cbn [Datetime.year Datetime.month Datetime.day].
  destruct Hc as [ -> | [ -> | [ -> | [ -> | [ -> | [ -> | [ -> | [ -> | [ -> | [ -> | [ -> | -> ] ] ] ] ] ] ] ] ] ] ];
    repeat match goal with
    | |- context [Z.ltb ?a ?b] =>
        let v := eval vm_compute in (Z.ltb a b) in change (Z.ltb a b) with v
    end;
    match goal with
    | |- context [Z.to_nat ?k] =>
        let v := eval vm_compute in (Z.to_nat k) in change (Z.to_nat k) with v
    end;
    cbn [nth andb]; cbv zeta; cbv iota;
    repeat match goal with
    | |- context [if ?b then _ else _] => destruct b eqn:?
    end;
    repeat match goal with
    | H : andb _ _ = true |- _ => apply andb_prop in H as [? ?]
    | H : andb _ _ = false |- _ => apply andb_false_iff in H as [?|?]
    | H : orb _ _ = true |- _ => apply orb_prop in H as [?|?]
    | H : orb _ _ = false |- _ => apply orb_false_iff in H as [? ?]
    | H : negb _ = true |- _ => apply negb_true_iff in H
    | H : negb _ = false |- _ => apply negb_false_iff in H
    | H : (_ =? _) = true |- _ => apply Z.eqb_eq in H
    | H : (_ =? _) = false |- _ => apply Z.eqb_neq in H
    end; try discriminate;
    Z.div_mod_to_equations; lia.
Qed.

(** [days[d.weekday()]] never leaves the list. *)
Lemma getitem_day (d : Datetime.date) :
  exists name, getitem days (Z.to_nat (Datetime.weekday d)) = Ok name
               /\ (String.length name <= 12)%nat.
Proof.
  pose proof (weekday_range d) as H.
  assert (Hn : (Z.to_nat (Datetime.weekday d) < 7)%nat) by lia.
  destruct (Z.to_nat (Datetime.weekday d)) as [|[|[|[|[|[|[|n]]]]]]];
    try (eexists; split; [reflexivity | cbn; lia]).
  lia.
Qed.

(** It is the name of the day of the date. *)
Lemma getitem_day_name (d : Datetime.date) :
  Spec.valid_date d ->
  getitem days (Z.to_nat (Datetime.weekday d)) = Ok (Spec.day_name d).
Proof.
  intros (_ & Hm & _). rewrite (weekday_zeller d Hm). unfold Spec.day_name.
  assert (Hz : 0 <= Spec.zeller d < 7)
    by (unfold Spec.zeller; cbv zeta; apply Z.mod_pos_bound; lia).
  assert (Hc : Spec.zeller d = 0 \/ Spec.zeller d = 1 \/ Spec.zeller d = 2
               \/ Spec.zeller d = 3 \/ Spec.zeller d = 4 \/ Spec.zeller d = 5
               \/ Spec.zeller d = 6) by lia.
  destruct Hc as [ -> | [ -> | [ -> | [ -> | [ -> | [ -> | -> ] ] ] ] ] ]; reflexivity.
Qed.

Lemma zfill_digits2 (n : Z) : 0 <= n <= 99 -> zfill 2 (PyNum.str n) = Spec.digits2 n.
Proof.
  intros Hn. apply String.eqb_eq.
  apply (below_cases (fun n => String.eqb (zfill 2 (PyNum.str n)) (Spec.digits2 n)) 100);
    [vm_compute; reflexivity | lia].
Qed.

(** A year from 1000 on has four digits. *)
Lemma str_digits4 (n : Z) : 1000 <= n <= 9999 -> PyNum.str n = Spec.digits4 n.
Proof.
  intros Hn.
  assert (H : (if n <? 1000 then true else String.eqb (PyNum.str n) (Spec.digits4 n)) = true).
  { apply (below_cases
             (fun n => if n <? 1000 then true
                       else String.eqb (PyNum.str n) (Spec.digits4 n)) 10000);
      [vm_compute; reflexivity | lia]. }
  destruct (Z.ltb_spec n 1000); [lia|]. now apply String.eqb_eq.
Qed.

Lemma days_in_month_range (y m : Z) : 28 <= Datetime.days_in_month y m <= 31.
Proof.
  unfold Datetime.days_in_month.
  repeat match goal with
         | |- context [if ?b then _ else _] => destruct b
         end; lia.
Qed.

Lemma date_strftime_dd_mm_yyyy (d : Datetime.date) :
  Spec.valid_date d -> 1000 <= Datetime.year d ->
  Datetime.date_strftime d "%d.%m.%Y" = Spec.dd_mm_yyyy d.
Proof.
  intros (Hy & Hm & Hd) Hyear.
  pose proof (days_in_month_range (Datetime.year d) (Datetime.month d)) as H31.
  unfold Datetime.date_strftime, Spec.dd_mm_yyyy.
  cbn [Datetime.strftime Datetime.format_directive Datetime.dt_date].
  rewrite PyStr_facts.append_empty_r.
  rewrite !zfill_digits2, str_digits4 by lia. reflexivity.
Qed.

Lemma map_format_kwh (l : list PyNum.float) : map format_kwh l = map Spec.amount l.
Proof.
  apply map_ext. intros x. apply PyNum_facts.replace_format_2f.
Qed.

Lemma blanks_repeat_char (n : nat) : Spec.blanks n = repeat_char " " n.
Proof. induction n as [|n IH]; cbn; congruence. Qed.

(** [f"{s:<n}"] writes [s] at the left of a field of [n] characters. *)
Lemma ljust_left_justified (n : nat) (s : string) :
  ljust n s = Spec.left_justified n s.
Proof.
  revert n. induction s as [|c s IH]; intros n; unfold ljust in *.
  - cbn [String.length Spec.left_justified]. rewrite Nat.sub_0_r.
    now rewrite blanks_repeat_char.
  - cbn [String.length Spec.left_justified]. rewrite PyStr_facts.append_cons, <- IH.
    replace (n - S (String.length s))%nat with (Nat.pred n - String.length s)%nat by lia.
    reflexivity.
Qed.

(** One turn of the loop over the dates. *)
Lemma table_row_returns (daily : gmap Datetime.date totals) (lines : list string)
    (d : Datetime.date) (t : totals) :
  daily !! d = Some t ->
  exists line, table_row daily lines d = Ok (lines ++ [line])%list.
Proof.
  intros Ht. unfold table_row.
  destruct (getitem_day d) as (name & -> & _). cbn [bind]. rewrite Ht. cbn [bind].
  eauto.
Qed.

Lemma table_row_ok (daily : gmap Datetime.date totals) (lines : list string)
    (d : Datetime.date) (t : totals) :
  daily !! d = Some t ->
  Spec.valid_date d -> 1000 <= Datetime.year d ->
  table_row daily lines d = Ok (lines ++ [Spec.table_line (d, t)])%list.
Proof.
  intros Ht Hd Hyear. unfold table_row, Spec.table_line.
  rewrite (getitem_day_name d Hd). cbn [bind]. rewrite Ht. cbn [bind fst snd].
  rewrite (date_strftime_dd_mm_yyyy d Hd Hyear), !map_format_kwh.
  now rewrite !ljust_left_justified.
Qed.

(** The loop over the dates of the dictionary appends a line for each. *)
Lemma table_rows_return (daily : gmap Datetime.date totals) (dates : list Datetime.date) :
  forall lines,
    (forall d, In d dates -> d ∈ dom daily) ->
    exists rows, for_each (table_row daily) dates lines = Ok (lines ++ rows)%list
                 /\ length rows = length dates.
Proof.
  induction dates as [|d dates IH]; intros lines Hin.
  - exists []. cbn. now rewrite app_nil_r.
  - cbn [for_each].
    assert (Hd : d ∈ dom daily) by (apply Hin; left; reflexivity).
    apply elem_of_dom in Hd as [t Ht].
    destruct (table_row_returns daily lines d t Ht) as [line ->]. cbn [bind].
    destruct (IH (lines ++ [line])%list) as (rows & -> & Hlen);
      [intros d' Hd'; apply Hin; right; exact Hd'|].
    exists (line :: rows). rewrite <- app_assoc. split; [reflexivity|].
    cbn [length]. now rewrite Hlen.
Qed.

Lemma table_rows_ok (daily : gmap Datetime.date totals) (dates : list Datetime.date) :
  forall lines,
    (forall d, In d dates ->
       d ∈ dom daily /\ Spec.valid_date d /\ 1000 <= Datetime.year d) ->
    for_each (table_row daily) dates lines
    = Ok (lines ++ map Spec.table_line (Spec.entries_of daily dates))%list.
Proof.
  induction dates as [|d dates IH]; intros lines Hin.
  - cbn. now rewrite app_nil_r.
  - cbn [for_each Spec.entries_of map].
    destruct (Hin d) as (Hd & Hvalid & Hyear); [left; reflexivity|].
    apply elem_of_dom in Hd as [t Ht].
    rewrite (table_row_ok _ _ _ _ Ht Hvalid Hyear). cbn [bind].
    rewrite IH by (intros d' Hd'; apply Hin; right; exact Hd').
    rewrite Ht. cbn [default from_option id]. now rewrite <- app_assoc.
Qed.

Lemma length_ljust (n : nat) (s : string) :
  String.length (ljust n s) = Nat.max n (String.length s).
Proof.
  unfold ljust. rewrite PyStr_facts.length_append, PyStr_facts.length_repeat_char. lia.
Qed.

Lemma sorted_dates_empty : sorted_dates ∅ = [].
Proof.
  destruct (sorted_dates_spec ∅) as (_ & _ & Hlen).
  rewrite map_size_empty in Hlen. now apply length_zero_iff_nil.
Qed.

Lemma in_entries_of (daily : gmap Datetime.date totals) (dates : list Datetime.date)
    (d : Datetime.date) (t : totals) :
  (forall d, In d dates <-> d ∈ dom daily) ->
  In (d, t) (Spec.entries_of daily dates) <-> daily !! d = Some t.
Proof.
  intros Hdates. unfold Spec.entries_of. rewrite in_map_iff. split.
  - intros (d' & Heq & Hin). inversion Heq; subst.
    apply Hdates, elem_of_dom in Hin as [t' Ht']. now rewrite Ht'.
  - intros Ht. exists d. rewrite Ht. split; [reflexivity|].
    apply Hdates, elem_of_dom. eauto.
Qed.

Lemma fst_entries_of (daily : gmap Datetime.date totals) (dates : list Datetime.date) :
  map fst (Spec.entries_of daily dates) = dates.
Proof.
  unfold Spec.entries_of. rewrite map_map. cbn. apply map_id.
Qed.

(** The text of a table: header lines, data rows, and the closing entry. *)
Lemma week_table_rows (week_number : Z) (daily : gmap Datetime.date totals) :
  exists rows : list string,
    generate_table_text week_number daily
    = Ok (join (String "010" "")
            ((header_lines week_number ++ rows) ++ [String "010" ""])%list).
Proof.
  destruct (sorted_dates_spec daily) as (_ & Hin & _).
  destruct (table_rows_return daily (sorted_dates daily) (header_lines week_number))
    as (rows & Hrows & _); [intros d; apply Hin|].
  exists rows. unfold generate_table_text. rewrite Hrows. reflexivity.
Qed.

(** C6. For a mapping whose dates are dates of the calendar of the year 1000
    or later, both renderers emit, after the four header lines, one data row
    per date of the mapping, in ascending date order; a row holds the name
    of the day of the week, the date as [dd.mm.yyyy] and the consumption and
    production totals with two decimals and a comma, joined by [" | "], at
    the left of fields of 12, 11 and 27 characters. The text of TaskE ends
    with a blank line; for the empty mapping both emit the header lines
    only. Neither renderer raises. *)
Theorem week_table_has_a_row_per_date (week_number : Z)
    (daily : gmap Datetime.date totals) :
  (forall d, d ∈ dom daily -> Spec.valid_date d /\ 1000 <= Datetime.year d) ->
  exists entries : list (Datetime.date * totals),
    (forall d t, In (d, t) entries <-> daily !! d = Some t)
    /\ StronglySorted Datetime.date_lt (map fst entries)
    /\ length entries = size daily
    /\ generate_table_text week_number daily
       = Ok (join (String "010" "")
               (header_lines week_number ++ map Spec.table_line entries
                ++ [String "010" ""])%list)
    /\ TaskD.print_table daily
       = Ok (header_lines 42 ++ map Spec.table_line entries)%list
    /\ generate_table_text week_number ∅
       = Ok (join (String "010" "") (header_lines week_number ++ [String "010" ""])%list)
    /\ TaskD.print_table ∅ = Ok (header_lines 42).
Proof.
  intros Hdates.
  destruct (sorted_dates_spec daily) as (Hsorted & Hin & Hlen).
  exists (Spec.entries_of daily (sorted_dates daily)).
  assert (Hdom : forall d, In d (sorted_dates daily) ->
                   d ∈ dom daily /\ Spec.valid_date d /\ 1000 <= Datetime.year d).
  { intros d Hd. apply Hin in Hd. destruct (Hdates d Hd). auto. }
  assert (Hempty : sorted_dates ∅ = []) by apply sorted_dates_empty.
  unfold generate_table_text at 2. unfold TaskD.print_table at 2.
  rewrite Hempty. cbn [for_each bind app].
  repeat split.
  - apply in_entries_of. exact Hin.
  - apply in_entries_of. exact Hin.
  - rewrite fst_entries_of. exact Hsorted.
  - unfold Spec.entries_of. rewrite length_map. exact Hlen.
  - unfold generate_table_text. rewrite (table_rows_ok _ _ _ Hdom). cbn [bind].
    now rewrite <- app_assoc.
  - unfold TaskD.print_table. apply (table_rows_ok _ _ _ Hdom).
Qed.

(** The table of a Monday with 3 kWh, 0.4 kWh and 0.6 kWh. *)
Lemma week_table_has_a_row_per_date_witness :
  let d := {| Datetime.year := 2025; Datetime.month := 10; Datetime.day := 13 |} in
  let t := {| cons := [PyNum.of_Z 3; Spec.kwh 400; Spec.kwh 600];
              prod := [PyNum.fzero; PyNum.fzero; Spec.kwh 5] |} in
  TaskD.print_table (<[d := t]> ∅)
  = Ok (header_lines 42
        ++ ["Monday       13.10.2025  3,00 | 0,40 | 0,60          0,00 | 0,00 | 0,01"])%list.
Proof.
  cbv zeta.
  set (d := {| Datetime.year := 2025; Datetime.month := 10; Datetime.day := 13 |}).
  set (t := {| cons := [PyNum.of_Z 3; Spec.kwh 400; Spec.kwh 600];
               prod := [PyNum.fzero; PyNum.fzero; Spec.kwh 5] |}).
  assert (Hdates : forall d', d' ∈ dom (<[d := t]> (∅ : gmap Datetime.date totals)) ->
                     Spec.valid_date d' /\ 1000 <= Datetime.year d').
  { intros d' Hd'. rewrite insert_empty, dom_singleton_L in Hd'.
    apply elem_of_singleton in Hd'. subst d'.
    unfold Spec.valid_date. cbn. lia. }
  destruct (week_table_has_a_row_per_date 42 _ Hdates)
    as (entries & Hin & _ & Hlen & _ & Hprint & _).
  rewrite insert_empty, map_size_singleton in Hlen.
  destruct entries as [|[d' t'] [|? ?]]; try discriminate Hlen.
  assert (He : (<[d := t]> (∅ : gmap Datetime.date totals)) !! d' = Some t')
    by (apply Hin; left; reflexivity).
  rewrite insert_empty in He. apply lookup_singleton_Some in He as [<- <-].
  rewrite Hprint. vm_compute. reflexivity.
Defined.

End Table_facts.

(** ** TaskE: the batch driver *)
Module Driver_facts.
Import PyStr TaskE.

Lemma all_digits_filter (s : string) : all_chars is_digit (filter_chars is_digit s) = true.
Proof.
  induction s as [|c s IH]; [reflexivity|]. cbn [filter_chars].
  destruct (is_digit c) eqn:E; [cbn; now rewrite E | exact IH].
Qed.

(** The week number of a file: the digits of its stem read as one decimal
    numeral, 0 when there are none. *)
Lemma week_number_of_digits (path : string) :
  week_number_of path = Ok (Spec.week_number path).
Proof.
  unfold week_number_of, Spec.week_number.
  destruct (isdigit (filter_chars is_digit (stem path))) eqn:E.
  - now apply PyNum_facts.int_digits.
  - pose proof (all_digits_filter (stem path)) as Ha. unfold isdigit in E.
    destruct (filter_chars is_digit (stem path)); [reflexivity | congruence].
Qed.

(** [sorted(Path(".").glob("week*.csv"))]: the matching names of the
    directory, each once, in the order of strings. *)
Lemma csv_files_spec (dir : gmap string (list (list string))) :
  StronglySorted String.le (csv_files dir)
  /\ NoDup (csv_files dir)
  /\ forall name, In name (csv_files dir) <-> name ∈ dom dir /\ glob_week_csv name = true.
Proof.
  unfold csv_files.
  pose proof (merge_sort_Permutation String.le
                (List.filter glob_week_csv (elements (dom dir)))) as Hp.
  repeat split.
  - apply StronglySorted_merge_sort; apply _.
  - rewrite Hp. apply NoDup_ListNoDup, List.NoDup_filter, NoDup_ListNoDup, NoDup_elements.
  - apply elem_of_elements.
    assert (H' : In name (List.filter glob_week_csv (elements (dom dir))))
      by (apply list_elem_of_In; rewrite <- Hp; now apply list_elem_of_In).
    apply filter_In in H' as [H' _]. now apply list_elem_of_In.
  - assert (H' : In name (List.filter glob_week_csv (elements (dom dir))))
      by (apply list_elem_of_In; rewrite <- Hp; now apply list_elem_of_In).
    now apply filter_In in H' as [_ H'].
  - intros [Hd Hg]. apply list_elem_of_In. rewrite Hp. apply list_elem_of_In.
    apply filter_In. split; [|exact Hg]. apply list_elem_of_In. now apply elem_of_elements.
Qed.

Lemma for_each_collect {A B} (f : A -> result B) (l : list A) :
  forall acc : list B,
    for_each (fun acc x => let* y := f x in Ok (acc ++ [y])%list) l acc
    = (let* ys := comprehension f l in Ok (acc ++ ys)%list).
Proof.
  induction l as [|x l IH]; intros acc; cbn [for_each comprehension bind].
  - now rewrite app_nil_r.
  - destruct (f x) as [y|e]; cbn [bind]; [|reflexivity].
    rewrite IH. destruct (comprehension f l) as [ys|e]; cbn [bind]; [|reflexivity].
    now rewrite <- app_assoc.
Qed.

Lemma join_snoc (sep : string) (l : list string) (x : string) :
  l <> [] -> join sep (l ++ [x]) = join sep l +:+ sep +:+ x.
Proof.
  induction l as [|y l IH]; [congruence|]. intros _.
  destruct l as [|z l].
  - reflexivity.
  - change (join sep ((y :: z :: l) ++ [x]))
      with (y +:+ sep +:+ join sep ((z :: l) ++ [x])).
    rewrite IH by discriminate.
    change (join sep (y :: z :: l)) with (y +:+ sep +:+ join sep (z :: l)).
    now rewrite !PyStr_facts.append_assoc.
Qed.

Section Driver.
Variable fromisoformat : string -> option Datetime.datetime.

Lemma process_file_week_table (dir : gmap string (list (list string)))
    (all_text : list string) (csv_path : string) :
  process_file fromisoformat dir all_text csv_path
  = (let* week_text := Spec.week_table fromisoformat dir csv_path in
     Ok (all_text ++ [week_text])%list).
Proof.
  unfold process_file, Spec.week_table. rewrite week_number_of_digits. cbn [bind].
  destruct (read_data _ _) as [rows|e]; cbn [bind]; [|reflexivity].
  destruct (compute_daily_totals rows) as [daily|e]; cbn [bind]; reflexivity.
Qed.

End Driver.
End Driver_facts.

(** ** TaskC: converting a line and writing it back *)
Module Roundtrip_facts.
Import PyStr PyNum PyStr_facts PyNum_facts.

Lemma str_of_N (n : N) : str (Z.of_N n) = NilEmpty.string_of_uint (N.to_uint n).
Proof. destruct n; reflexivity. Qed.

Lemma string_of_uint_iter_D0 (k : nat) (u : Decimal.uint) :
  NilEmpty.string_of_uint (Nat.iter k Decimal.D0 u)
  = repeat_char "0" k +:+ NilEmpty.string_of_uint u.
Proof.
  induction k as [|k IH]; [reflexivity|].
  change (Nat.iter (S k) Decimal.D0 u) with (Decimal.D0 (Nat.iter k Decimal.D0 u)).
  cbn [NilEmpty.string_of_uint repeat_char]. rewrite IH. reflexivity.
Qed.

Lemma length_string_of_uint (u : Decimal.uint) :
  String.length (NilEmpty.string_of_uint u) = Decimal.nb_digits u.
Proof. induction u; cbn; congruence. Qed.

(** Writing the value of a numeral in as many digits as the numeral has
    gives the numeral back. *)
Lemma zfill_str_uint (d : Decimal.uint) :
  d <> Decimal.Nil ->
  zfill (Decimal.nb_digits d) (str (Z.of_N (N.of_uint d))) = NilEmpty.string_of_uint d.
Proof.
  intros Hd. rewrite str_of_N, Unsigned.to_of. unfold zfill.
  rewrite length_string_of_uint, <- string_of_uint_iter_D0.
  now rewrite DecimalFacts.iter_D0_unorm.
Qed.

Lemma zfill_str_digits (n : nat) (s : string) :
  all_chars is_digit s = true -> String.length s = n -> n <> 0%nat ->
  zfill n (str (Z.of_N (digits_value s))) = s.
Proof.
  intros Hs Hlen Hn. destruct (digits_uint s Hs) as [d ->].
  rewrite digits_value_uint. rewrite length_string_of_uint in Hlen. subst n.
  apply zfill_str_uint. intros ->. now apply Hn.
Qed.

Lemma zfill_long (n : nat) (s : string) : (n <= String.length s)%nat -> zfill n s = s.
Proof.
  intros H. unfold zfill.
  replace (n - String.length s)%nat with 0%nat by lia. reflexivity.
Qed.

(** A year from 1000 on is written with four digits or more. *)
Lemma str_year (v : Z) : 1000 <= v -> zfill 4 (str v) = str v.
Proof.
  intros Hv. apply zfill_long.
  rewrite <- (Z2N.id v) by lia. rewrite str_of_N, length_string_of_uint.
  pose proof (of_uint_bound (N.to_uint (Z.to_N v))) as Hb.
  rewrite DecimalN.Unsigned.of_to, Z2N.id in Hb by lia.
  destruct (Nat.le_gt_cases 4 (Decimal.nb_digits (N.to_uint (Z.to_N v)))) as [H|H];
    [exact H|].
  assert (Hp : 10 ^ Z.of_nat (Decimal.nb_digits (N.to_uint (Z.to_N v))) <= 10 ^ 3)
    by (apply Z.pow_le_mono_r; lia).
  change (10 ^ 3) with 1000 in Hp. lia.
Qed.

Lemma plain_digits_uint (s : string) :
  Spec.plain_digits s = true ->
  exists d, s = NilEmpty.string_of_uint d /\ Decimal.unorm d = d
            /\ d <> Decimal.Nil /\ d <> Decimal.D0 Decimal.Nil.
Proof.
  unfold Spec.plain_digits. intros H. apply andb_prop in H as [Hd Hz].
  assert (Ha : all_chars is_digit s = true) by (destruct s; [discriminate | exact Hd]).
  destruct (digits_uint s Ha) as [d ->]. exists d. split; [reflexivity|].
  destruct d; cbn in Hd, Hz; try discriminate Hd; try discriminate Hz;
    try (repeat split; try reflexivity; discriminate).
  destruct (NilEmpty.string_of_uint d); discriminate Hz.
Qed.

Lemma of_uint_positive (d : Decimal.uint) :
  Decimal.unorm d = d -> d <> Decimal.D0 Decimal.Nil ->
  exists p, N.of_uint d = Npos p /\ Pos.to_uint p = d.
Proof.
  intros Hn Hz. pose proof (Unsigned.to_of d) as H. rewrite Hn in H.
  destruct (N.of_uint d) as [|p].
  - cbn in H. congruence.
  - exists p. split; [reflexivity | exact H].
Qed.

Lemma strip_minus (t : string) :
  rstrip_c t = t -> t <> "" -> strip_c (String "-" t) = String "-" t.
Proof.
  intros Hr Ht. unfold strip_c.
  change (lstrip_c (String "-" t)) with (String "-" t).
  change (rstrip_c (String "-" t))
    with (match rstrip_c t with
          | EmptyString => if is_c_space "-" then EmptyString else String "-" EmptyString
          | u => String "-" u
          end).
  rewrite Hr. destruct t; [congruence | reflexivity].
Qed.

Lemma int_plain_digits (s : string) :
  Spec.plain_digits s = true ->
  exists p, int s = Ok (Zpos p) /\ NilEmpty.string_of_uint (Pos.to_uint p) = s
            /\ int (String "-" s) = Ok (Zneg p).
Proof.
  intros H. destruct (plain_digits_uint s H) as (d & -> & Hn & Hnil & Hz).
  destruct (of_uint_positive d Hn Hz) as (p & Hp & Hto).
  exists p. rewrite (int_uint d Hnil), Hp, Hto. repeat split.
  unfold int.
  assert (Hstrip : strip_c (String "-" (NilEmpty.string_of_uint d))
                   = String "-" (NilEmpty.string_of_uint d)).
  { apply strip_minus; [apply rstrip_c_uint|]. destruct d; try congruence; discriminate. }
  rewrite Hstrip. cbn [split_sign].
  rewrite (drop_underscores_uint d None I), (isdigit_uint d Hnil), digits_value_uint, Hp.
  reflexivity.
Qed.

(** An [int] written as [str] writes it is read and written back unchanged. *)
Lemma int_round_trip (s : string) (v : Z) :
  Spec.canonical_int s = true -> int s = Ok v -> str v = s.
Proof.
  intros Hc Hv. unfold Spec.canonical_int in Hc.
  assert (Hplain : Spec.plain_digits s = true -> str v = s).
  { intros H. destruct (int_plain_digits s H) as (p & Hp & Hs & _).
    rewrite Hp in Hv. inversion Hv. exact Hs. }
  assert (Hzero : String.eqb s "0" || Spec.plain_digits s = true -> str v = s).
  { intros H. apply orb_prop in H as [H|H]; [|now apply Hplain].
    apply String.eqb_eq in H. subst s. vm_compute in Hv. inversion Hv. reflexivity. }
  destruct s as [|c t]; [now apply Hzero|].
  destruct (Ascii.eqb c "-") eqn:Ec.
  - apply Ascii.eqb_eq in Ec. subst c.
    destruct (int_plain_digits t Hc) as (p & _ & Hs & Hneg).
    rewrite Hneg in Hv. inversion Hv. cbn [str]. now rewrite Hs.
  - apply Hzero.
    destruct c as [[] [] [] [] [] [] [] []]; try exact Hc; discriminate Ec.
Qed.

(** *** What [strptime] matched *)

Lemma digit_cases (c : ascii) :
  is_digit c = true ->
  c = "0"%char \/ c = "1"%char \/ c = "2"%char \/ c = "3"%char \/ c = "4"%char
  \/ c = "5"%char \/ c = "6"%char \/ c = "7"%char \/ c = "8"%char \/ c = "9"%char.
Proof.
  destruct c as [[] [] [] [] [] [] [] []]; try discriminate; intros _; tauto.
Qed.

Ltac each_digit H :=
  destruct (digit_cases _ H)
    as [ -> | [ -> | [ -> | [ -> | [ -> | [ -> | [ -> | [ -> | [ -> | -> ] ] ] ] ] ] ] ] ].

(** Runs the matcher on the characters that are known. *)
Ltac run_matcher :=
  repeat (cbn [Datetime.match_items Datetime.try_alts Datetime.match_alt];
          repeat match goal with
          | |- context [Datetime.cmatch ?k ?c] =>
              let v := eval vm_compute in (Datetime.cmatch k c) in
              change (Datetime.cmatch k c) with v
          end;
          cbv iota).

(** The group of [%Y] takes four characters. *)
Lemma year_group (n : ascii) (p : list Datetime.item) (c0 c1 c2 c3 : ascii)
    (rest : string) (caps : list (ascii * string)) (fin : string) :
  Datetime.match_items
    (Datetime.Group n [[Datetime.CDigit; Datetime.CDigit; Datetime.CDigit; Datetime.CDigit]]
     :: p)
    (String c0 (String c1 (String c2 (String c3 rest)))) = Some (caps, fin) ->
  exists caps',
    Datetime.match_items p rest = Some (caps', fin)
    /\ caps = (n, String c0 (String c1 (String c2 (String c3 "")))) :: caps'.
Proof.
  cbn [Datetime.match_items Datetime.try_alts Datetime.match_alt Datetime.cmatch].
  destruct (is_digit c0); [|discriminate].
  destruct (is_digit c1); [|discriminate].
  destruct (is_digit c2); [|discriminate].
  destruct (is_digit c3); [|discriminate].
  destruct (Datetime.match_items p rest) as [[caps' fin']|]; [|discriminate].
  intros H. inversion H. eauto.
Qed.

(** A group of one or two digits, before an item that takes no digit, takes
    both digits of a two-digit field. *)
Lemma two_digit_group (n : ascii) (alts : list Datetime.alt) (p : list Datetime.item)
    (a b : ascii) (rest : string) (caps : list (ascii * string)) (fin : string) :
  In n ["m"; "d"; "H"; "M"; "S"]%char ->
  Datetime.directive n = Some alts ->
  is_digit a = true -> is_digit b = true ->
  (forall c s, is_digit c = true -> Datetime.match_items p (String c s) = None) ->
  Datetime.match_items (Datetime.Group n alts :: p) (String a (String b rest))
  = Some (caps, fin) ->
  exists caps',
    Datetime.match_items p rest = Some (caps', fin)
    /\ caps = (n, String a (String b "")) :: caps'.
Proof.
  intros Hn Halts Ha Hb Hrej.
  cbn in Hn.
  destruct Hn as [<-|[<-|[<-|[<-|[<-|[]]]]]]; inversion Halts; subst alts; clear Halts;
    each_digit Ha; each_digit Hb; run_matcher;
    rewrite ?Hrej by reflexivity;
    (destruct (Datetime.match_items p rest) as [[caps' fin']|];
     [intros H; inversion H; eauto | discriminate]).
Qed.

(** The last group of a format, on a two-digit field that ends the text. *)
Lemma two_digit_last (n : ascii) (alts : list Datetime.alt) (a b : ascii)
    (caps : list (ascii * string)) :
  In n ["m"; "d"; "H"; "M"; "S"]%char ->
  Datetime.directive n = Some alts ->
  is_digit a = true -> is_digit b = true ->
  Datetime.match_items [Datetime.Group n alts] (String a (String b "")) = Some (caps, "") ->
  caps = [(n, String a (String b ""))].
Proof.
  intros Hn Halts Ha Hb.
  cbn in Hn.
  destruct Hn as [<-|[<-|[<-|[<-|[<-|[]]]]]]; inversion Halts; subst alts; clear Halts;
    each_digit Ha; each_digit Hb; run_matcher;
    intros H; inversion H; reflexivity.
Qed.

Lemma literal_step (c : ascii) (p : list Datetime.item) (s : string) :
  Datetime.match_items (Datetime.Lit c :: p) (String c s) = Datetime.match_items p s.
Proof. cbn [Datetime.match_items]. now rewrite Ascii.eqb_refl. Qed.

Lemma literal_rejects_digit (c : ascii) (p : list Datetime.item) :
  is_digit c = false ->
  forall d s, is_digit d = true ->
    Datetime.match_items (Datetime.Lit c :: p) (String d s) = None.
Proof.
  intros Hc d s Hd. cbn [Datetime.match_items].
  destruct (Ascii.eqb c d) eqn:E; [|reflexivity].
  apply Ascii.eqb_eq in E. congruence.
Qed.

Lemma digit_not_space (d : ascii) : is_digit d = true -> is_space d = false.
Proof. intros Hd. each_digit Hd; reflexivity. Qed.

Lemma spaces_reject_digit (p : list Datetime.item) :
  forall d s, is_digit d = true ->
    Datetime.match_items (Datetime.Spaces :: p) (String d s) = None.
Proof.
  intros d s Hd. cbn [Datetime.match_items Datetime.spaces_plus].
  now rewrite (digit_not_space d Hd).
Qed.

(** One blank before a digit is all the white space there is. *)
Lemma one_space_step (p : list Datetime.item) (d : ascii) (s : string) :
  is_digit d = true ->
  Datetime.match_items (Datetime.Spaces :: p) (String " " (String d s))
  = Datetime.match_items p (String d s).
Proof.
  intros Hd. cbn [Datetime.match_items Datetime.spaces_plus].
  change (is_space " ") with true. cbv iota.
  cbn [Datetime.spaces_star]. now rewrite (digit_not_space d Hd).
Qed.

(** Reading the groups into the fields, in a hypothesis. *)
Ltac read_fields H :=
  repeat (cbn [for_each] in H; unfold Datetime.set_field at 1 in H;
          cbn [fst snd] in H;
          rewrite int_digits in H by
            (cbn [isdigit all_chars];
             repeat match goal with
             | D : is_digit ?c = true |- context [is_digit ?c] => rewrite D
             end; reflexivity);
          cbn [bind] in H);
  cbn [for_each bind Datetime.default_fields Datetime.f_year Datetime.f_month
       Datetime.f_day Datetime.f_hour Datetime.f_minute Datetime.f_second] in H.

Ltac all_digits :=
  cbn [all_chars];
  repeat match goal with
  | H : is_digit ?c = true |- context [is_digit ?c] => rewrite H
  end; reflexivity.

(** The characters of a text of known shape. *)
Tactic Notation "next_char" hyp(H) ident(s) ident(c) :=
  destruct s as [|c s];
  [ cbn in H; repeat (apply andb_prop in H as [? H]); discriminate H
  | cbn [Spec.shape] in H ].

Tactic Notation "end_of_text" hyp(H) ident(s) :=
  destruct s;
  [ | cbn in H; repeat (apply andb_prop in H as [? H]); discriminate H ];
  repeat (apply andb_prop in H as [? H]);
  repeat match goal with
  | E : Ascii.eqb _ _ = true |- _ => apply Ascii.eqb_eq in E; subst
  end.

(** A date written [YYYY-MM-DD] is read and written back unchanged. *)
Lemma date_round_trip (s : string) (v : Datetime.datetime) :
  Spec.shape "dddd-dd-dd" s = true ->
  Datetime.strptime s "%Y-%m-%d" = Ok v ->
  1000 <= Datetime.year (Datetime.dt_date v) ->
  Datetime.date_strftime (Datetime.dt_date v) "%Y-%m-%d" = s.
Proof.
  intros Hs Hv Hyear.
  next_char Hs s y0. next_char Hs s y1. next_char Hs s y2. next_char Hs s y3.
  next_char Hs s s0. next_char Hs s m0. next_char Hs s m1. next_char Hs s s1.
  next_char Hs s d0. next_char Hs s d1. end_of_text Hs s.
  unfold Datetime.strptime in Hv.
  let p := eval vm_compute in (Datetime.compile "%Y-%m-%d") in
  change (Datetime.compile "%Y-%m-%d") with p in Hv.
  cbn [bind] in Hv.
  match type of Hv with
  | match ?m with _ => _ end = _ => destruct m as [[caps fin]|] eqn:E; [|discriminate Hv]
  end.
  apply year_group in E as (caps1 & E & ->).
  rewrite literal_step in E.
  apply two_digit_group in E as (caps2 & E & ->);
    [ | cbn; tauto | reflexivity | assumption | assumption
      | apply literal_rejects_digit; reflexivity ].
  rewrite literal_step in E.
  destruct fin; [|discriminate Hv].
  apply two_digit_last in E as ->; [ | cbn; tauto | reflexivity | assumption | assumption ].
  read_fields Hv.
  unfold Datetime.check_fields in Hv. cbn [Datetime.f_year Datetime.f_month Datetime.f_day
    Datetime.f_hour Datetime.f_minute Datetime.f_second] in Hv.
  repeat match type of Hv with
  | (if ?b then _ else _) = _ => destruct b; [discriminate Hv|]
  end.
  inversion Hv; subst v; clear Hv.
  cbn [Datetime.dt_date Datetime.year] in Hyear.
  unfold Datetime.date_strftime.
  cbn [Datetime.strftime Datetime.format_directive Datetime.dt_date Datetime.dt_time
       Datetime.year Datetime.month Datetime.day].
  rewrite <- (str_year _ Hyear).
  rewrite (zfill_str_digits 4), !(zfill_str_digits 2) by (all_digits || reflexivity || discriminate).
  reflexivity.
Qed.

(** A time written [HH:MM] is read and written back unchanged. *)
Lemma time_round_trip (s : string) (v : Datetime.datetime) :
  Spec.shape "dd:dd" s = true ->
  Datetime.strptime s "%H:%M" = Ok v ->
  Datetime.time_strftime (Datetime.dt_time v) "%H:%M" = s.
Proof.
  intros Hs Hv.
  next_char Hs s h0. next_char Hs s h1. next_char Hs s s0.
  next_char Hs s m0. next_char Hs s m1. end_of_text Hs s.
  unfold Datetime.strptime in Hv.
  let p := eval vm_compute in (Datetime.compile "%H:%M") in
  change (Datetime.compile "%H:%M") with p in Hv.
  cbn [bind] in Hv.
  match type of Hv with
  | match ?m with _ => _ end = _ => destruct m as [[caps fin]|] eqn:E; [|discriminate Hv]
  end.
  apply two_digit_group in E as (caps1 & E & ->);
    [ | cbn; tauto | reflexivity | assumption | assumption
      | apply literal_rejects_digit; reflexivity ].
  rewrite literal_step in E.
  destruct fin; [|discriminate Hv].
  apply two_digit_last in E as ->; [ | cbn; tauto | reflexivity | assumption | assumption ].
  read_fields Hv.
  unfold Datetime.check_fields in Hv. cbn [Datetime.f_year Datetime.f_month Datetime.f_day
    Datetime.f_hour Datetime.f_minute Datetime.f_second] in Hv.
  repeat match type of Hv with
  | (if ?b then _ else _) = _ => destruct b; [discriminate Hv|]
  end.
  inversion Hv; subst v; clear Hv.
  unfold Datetime.time_strftime.
  cbn [Datetime.strftime Datetime.format_directive Datetime.dt_date Datetime.dt_time
       Datetime.hour Datetime.minute Datetime.second].
  rewrite !(zfill_str_digits 2) by (all_digits || reflexivity || discriminate).
  reflexivity.
Qed.

(** A timestamp written [YYYY-MM-DD HH:MM:SS] is read and written back
    unchanged. *)
Lemma timestamp_round_trip (s : string) (v : Datetime.datetime) :
  Spec.shape "dddd-dd-dd dd:dd:dd" s = true ->
  Datetime.strptime s "%Y-%m-%d %H:%M:%S" = Ok v ->
  1000 <= Datetime.year (Datetime.dt_date v) ->
  Datetime.strftime v "%Y-%m-%d %H:%M:%S" = s.
Proof.
  intros Hs Hv Hyear.
  next_char Hs s y0. next_char Hs s y1. next_char Hs s y2. next_char Hs s y3.
  next_char Hs s s0. next_char Hs s m0. next_char Hs s m1. next_char Hs s s1.
  next_char Hs s d0. next_char Hs s d1. next_char Hs s s2.
  next_char Hs s h0. next_char Hs s h1. next_char Hs s s3.
  next_char Hs s n0. next_char Hs s n1. next_char Hs s s4.
  next_char Hs s e0. next_char Hs s e1. end_of_text Hs s.
  unfold Datetime.strptime in Hv.
  let p := eval vm_compute in (Datetime.compile "%Y-%m-%d %H:%M:%S") in
  change (Datetime.compile "%Y-%m-%d %H:%M:%S") with p in Hv.
  cbn [bind] in Hv.
  match type of Hv with
  | match ?m with _ => _ end = _ => destruct m as [[caps fin]|] eqn:E; [|discriminate Hv]
  end.
  apply year_group in E as (caps1 & E & ->).
  rewrite literal_step in E.
  apply two_digit_group in E as (caps2 & E & ->);
    [ | cbn; tauto | reflexivity | assumption | assumption
      | apply literal_rejects_digit; reflexivity ].
  rewrite literal_step in E.
  apply two_digit_group in E as (caps3 & E & ->);
    [ | cbn; tauto | reflexivity | assumption | assumption
      | apply spaces_reject_digit ].
  rewrite one_space_step in E by assumption.
  apply two_digit_group in E as (caps4 & E & ->);
    [ | cbn; tauto | reflexivity | assumption | assumption
      | apply literal_rejects_digit; reflexivity ].
  rewrite literal_step in E.
  apply two_digit_group in E as (caps5 & E & ->);
    [ | cbn; tauto | reflexivity | assumption | assumption
      | apply literal_rejects_digit; reflexivity ].
  rewrite literal_step in E.
  destruct fin; [|discriminate Hv].
  apply two_digit_last in E as ->; [ | cbn; tauto | reflexivity | assumption | assumption ].
  read_fields Hv.
  unfold Datetime.check_fields in Hv. cbn [Datetime.f_year Datetime.f_month Datetime.f_day
    Datetime.f_hour Datetime.f_minute Datetime.f_second] in Hv.
  repeat match type of Hv with
  | (if ?b then _ else _) = _ => destruct b; [discriminate Hv|]
  end.
  inversion Hv; subst v; clear Hv.
  cbn [Datetime.dt_date Datetime.year] in Hyear.
  cbn [Datetime.strftime Datetime.format_directive Datetime.dt_date Datetime.dt_time
       Datetime.year Datetime.month Datetime.day
       Datetime.hour Datetime.minute Datetime.second].
  rewrite <- (str_year _ Hyear).
  rewrite (zfill_str_digits 4), !(zfill_str_digits 2) by (all_digits || reflexivity || discriminate).
  reflexivity.
Qed.

(** *** Lines *)

Lemma split_nonempty (sep : ascii) (s : string) : split sep s <> [].
Proof.
  destruct s as [|c s]; cbn [split]; [discriminate|].
  destruct (Ascii.eqb c sep); [discriminate|].
  destruct (split sep s); discriminate.
Qed.

(** Joining the fields of a line gives the line. *)
Lemma join_split (sep : ascii) (s : string) :
  join (String sep "") (split sep s) = s.
Proof.
  induction s as [|c s IH]; [reflexivity|]. cbn [split].
  pose proof (split_nonempty sep s) as Hne.
  destruct (Ascii.eqb c sep) eqn:E.
  - apply Ascii.eqb_eq in E. subst c.
    destruct (split sep s) as [|w ws]; [congruence|].
    change (join (String sep "") ("" :: w :: ws))
      with ("" +:+ String sep "" +:+ join (String sep "") (w :: ws)).
    rewrite IH. reflexivity.
  - destruct (split sep s) as [|w ws]; [congruence|].
    destruct ws as [|w' ws].
    + cbn [join] in *. now rewrite IH.
    + change (join (String sep "") (String c w :: w' :: ws))
        with (String c w +:+ String sep "" +:+ join (String sep "") (w' :: ws)).
      change (join (String sep "") (w :: w' :: ws))
        with (w +:+ String sep "" +:+ join (String sep "") (w' :: ws)) in IH.
      rewrite append_cons. now rewrite IH.
Qed.

Section Roundtrip.
Variable float_str : float -> string.

(** C1, as the code has it. Converting an 11-field line and writing the
    record back with the same format strings reproduces the line, but for
    the white space stripped at both ends of the last field, when every
    field is written the way the serializer writes it: the integers as
    [str] writes them, the date, the time and the timestamp with all their
    digits and a year of 1000 or later, the truth value as [True] or
    [False], and the price as the float serializer writes its value. An
    earlier year is read with its leading zeros, which the C library may
    not write back. *)
Theorem canonical_line_round_trips
    (line a0 a1 a2 a3 a4 a5 a6 a7 a8 a9 a10 : string) (r : TaskC.Reservation) :
  split "|" line = [a0; a1; a2; a3; a4; a5; a6; a7; a8; a9; a10] ->
  snd (TaskC.convert_reservation_data (split "|" line)) = Ok r ->
  Spec.canonical_int a0 = true ->
  Spec.shape "dddd-dd-dd" a4 = true ->
  1000 <= Datetime.year (TaskC.reservationDate r) ->
  Spec.shape "dd:dd" a5 = true ->
  Spec.canonical_int a6 = true ->
  float_str (TaskC.price r) = a7 ->
  a8 = "True" \/ a8 = "False" ->
  Spec.shape "dddd-dd-dd dd:dd:dd" (strip a10) = true ->
  1000 <= Datetime.year (Datetime.dt_date (TaskC.createdAt r)) ->
  Spec.serialize float_str r = Spec.stripped_line line
  /\ Spec.stripped_line line = join "|" [a0; a1; a2; a3; a4; a5; a6; a7; a8; a9; strip a10]
  /\ line = join "|" [a0; a1; a2; a3; a4; a5; a6; a7; a8; a9; a10].
Proof.
  intros Hsplit Hconv H0 H4 Hy4 H5 H6 H7 H8 H10 Hy10.
  assert (Hline : line = join "|" [a0; a1; a2; a3; a4; a5; a6; a7; a8; a9; a10])
    by (rewrite <- Hsplit; symmetry; apply join_split).
  assert (Hstripped : Spec.stripped_line line
                      = join "|" [a0; a1; a2; a3; a4; a5; a6; a7; a8; a9; strip a10]).
  { unfold Spec.stripped_line. rewrite Hsplit.
    now rewrite TaskC_facts.convert_list_after_11. }
  split; [|split; assumption].
  rewrite Hstripped. rewrite Hsplit, TaskC_facts.convert_11 in Hconv.
  apply TaskC_facts.convert_fields_ok in Hconv
    as (v0 & v4 & v5 & v6 & v7 & v10 & E0 & E4 & E5 & E6 & E7 & E10 & ->).
  unfold Spec.serialize.
  cbn [TaskC.reservationId TaskC.name TaskC.email TaskC.phone TaskC.reservationDate
       TaskC.reservationTime TaskC.durationHours TaskC.price TaskC.confirmed
       TaskC.reservedResource TaskC.createdAt] in *.
  rewrite (int_round_trip a0 v0 H0 E0), (int_round_trip a6 v6 H6 E6).
  rewrite (date_round_trip a4 v4 H4 E4 Hy4), (time_round_trip a5 v5 H5 E5).
  rewrite (timestamp_round_trip (strip a10) v10 H10 E10 Hy10), H7.
  destruct H8 as [-> | ->]; reflexivity.
Qed.

End Roundtrip.

(** The line of the documentation of TaskC, its time written as the
    conversion reads it, with a space before its last field and the end of
    line after it; the price is written with two decimals. *)
Lemma canonical_line_round_trips_witness :
  let line := "201|Moomin Valley|moomin@whitevalley.org|0509876543|2025-11-12|09:00|2|18.50|True|Forest Area 1| 2025-08-12 14:33:20" +:+ String "010" "" in
  exists r,
    snd (TaskC.convert_reservation_data (split "|" line)) = Ok r
    /\ Spec.serialize format_2f r
       = "201|Moomin Valley|moomin@whitevalley.org|0509876543|2025-11-12|09:00|2|18.50|True|Forest Area 1|2025-08-12 14:33:20".
Proof.
  cbv zeta.
  assert (H : exists r, snd (TaskC.convert_reservation_data (split "|"
    ("201|Moomin Valley|moomin@whitevalley.org|0509876543|2025-11-12|09:00|2|18.50|True|Forest Area 1| 2025-08-12 14:33:20" +:+ String "010" ""))) = Ok r
    /\ format_2f (TaskC.price r) = "18.50"
    /\ (1000 <=? Datetime.year (TaskC.reservationDate r)) = true
    /\ (1000 <=? Datetime.year (Datetime.dt_date (TaskC.createdAt r))) = true).
  { eexists. split; [|split; [|split]]; vm_compute; reflexivity. }
  destruct H as (r & Hr & Hp & Hy4 & Hy10). exists r. split; [exact Hr|].
  apply Z.leb_le in Hy4, Hy10.
  assert (Hsplit : split "|" ("201|Moomin Valley|moomin@whitevalley.org|0509876543|2025-11-12|09:00|2|18.50|True|Forest Area 1| 2025-08-12 14:33:20" +:+ String "010" "")
     = ["201"; "Moomin Valley"; "moomin@whitevalley.org"; "0509876543";
        "2025-11-12"; "09:00"; "2"; "18.50"; "True"; "Forest Area 1";
        " 2025-08-12 14:33:20" +:+ String "010" ""]) by (vm_compute; reflexivity).
  assert (A0 : Spec.canonical_int "201" = true) by (vm_compute; reflexivity).
  assert (A4 : Spec.shape "dddd-dd-dd" "2025-11-12" = true) by (vm_compute; reflexivity).
  assert (A5 : Spec.shape "dd:dd" "09:00" = true) by (vm_compute; reflexivity).
  assert (A6 : Spec.canonical_int "2" = true) by (vm_compute; reflexivity).
  assert (A10 : Spec.shape "dddd-dd-dd dd:dd:dd"
                  (strip (" 2025-08-12 14:33:20" +:+ String "010" "")) = true)
    by (vm_compute; reflexivity).
  destruct (canonical_line_round_trips format_2f _ _ _ _ _ _ _ _ _ _ _ _ r
              Hsplit Hr A0 A4 Hy4 A5 A6 Hp (or_introl eq_refl) A10 Hy10) as (Hser & Hstr & _).
  rewrite Hser, Hstr. vm_compute. reflexivity.
Defined.

(** C1, as the claim states it, fails: the conversion sends different valid
    lines to one record, so that no serializer gives each of them back. The
    lines below differ in the first column ([7] and [007]), the price
    ([18.50] and [18.5]) and the truth value ([False] and [no]). *)
Lemma conversion_is_not_injective :
  let line1 := "7|n|e|p|2025-11-12|09:00|2|18.50|False|r|2025-08-12 14:33:20" in
  let line2 := "007|n|e|p|2025-11-12|09:00|2|18.5|no|r|2025-08-12 14:33:20" in
  exists r,
    snd (TaskC.convert_reservation_data (split "|" line1)) = Ok r
    /\ snd (TaskC.convert_reservation_data (split "|" line2)) = Ok r
    /\ String.eqb (Spec.stripped_line line1) (Spec.stripped_line line2) = false.
Proof. cbv zeta. eexists. split; [|split]; vm_compute; reflexivity. Qed.

End Roundtrip_facts.

(** ** TaskC: lines and fields *)
Module Lines_facts.
Import PyStr TaskC.

Lemma rstrip_idempotent (s : string) : rstrip (rstrip s) = rstrip s.
Proof.
  induction s as [|c s IH]; [reflexivity|].
  cbn [rstrip]. destruct (rstrip s) as [|d t] eqn:E.
  - destruct (is_space c) eqn:Ec; [reflexivity|]. cbn [rstrip]. now rewrite Ec.
  - change (rstrip (String c (String d t)))
      with (match rstrip (String d t) with
            | EmptyString => if is_space c then EmptyString else String c EmptyString
            | u => String c u
            end).
    rewrite IH. reflexivity.
Qed.

Lemma rstrip_head (c : ascii) (s : string) :
  is_space c = false -> exists t, rstrip (String c s) = String c t.
Proof.
  intros Hc. cbn [rstrip]. destruct (rstrip s); [rewrite Hc|]; eauto.
Qed.

Lemma lstrip_head (s : string) :
  lstrip s = "" \/ exists c t, lstrip s = String c t /\ is_space c = false.
Proof.
  induction s as [|c s IH]; [left; reflexivity|].
  cbn [lstrip]. destruct (is_space c) eqn:Ec; [exact IH|].
  right. eauto.
Qed.

Lemma lstrip_strip (s : string) : lstrip (strip s) = strip s.
Proof.
  unfold strip. destruct (lstrip_head s) as [->|(c & t & -> & Hc)]; [reflexivity|].
  destruct (rstrip_head c t Hc) as [u ->]. cbn [lstrip]. now rewrite Hc.
Qed.

(** Stripping twice is stripping once. *)
Lemma strip_idempotent (s : string) : strip (strip s) = strip s.
Proof.
  unfold strip at 1. rewrite lstrip_strip. unfold strip. apply rstrip_idempotent.
Qed.

Lemma convert_snoc (l : list string) (x : string) :
  convert_reservation_data (l ++ [x])%list
  = ((l ++ [strip x])%list, convert_fields (l ++ [strip x])%list).
Proof.
  rewrite (surjective_pairing (convert_reservation_data _)).
  now rewrite TaskC_facts.convert_list_after, TaskC_facts.convert_result.
Qed.

Lemma list_snoc_cases {A} (l : list A) : l = [] \/ exists l' x, l = (l' ++ [x])%list.
Proof.
  induction l as [|a l IH] using rev_ind; [left; reflexivity | right; eauto].
Qed.

(** X1. Converting the list a second time changes nothing more and gives the
    same outcome. *)
Theorem convert_reservation_data_twice (reservation : list string) :
  convert_reservation_data (fst (convert_reservation_data reservation))
  = convert_reservation_data reservation.
Proof.
  destruct (list_snoc_cases reservation) as [->|(l & x & ->)]; [reflexivity|].
  rewrite !convert_snoc. cbn [fst]. rewrite convert_snoc.
  now rewrite strip_idempotent.
Qed.

(** Leaves the successive decoders of a conversion that returned. *)
Ltac binds H :=
  repeat match type of H with
  | bind ?r _ = Ok _ =>
      let E := fresh "E" in
      destruct r eqn:E; [cbn [bind] in H | discriminate H]
  end.

Lemma convert_fields_length (l : list string) (r : Reservation) :
  convert_fields l = Ok r -> (11 <= length l)%nat.
Proof.
  unfold convert_fields. intros H. binds H.
  match goal with
  | E : getitem l 10 = Ok _ |- _ =>
      unfold getitem in E; destruct (l !! 10%nat) eqn:El; [|discriminate E];
      apply lookup_lt_Some in El; lia
  end.
Qed.

Lemma getitem_error {A} (l : list A) (i : nat) (e : exn) :
  getitem l i = Err e -> e = IndexError.
Proof. unfold getitem. destruct (l !! i); congruence. Qed.

(** The exceptions of a conversion: a list access out of range, or a value
    that a decoder refuses. *)
Lemma convert_fields_error (l : list string) (e : exn) :
  convert_fields l = Err e -> e = IndexError \/ exists v, e = ValueError v.
Proof.
  unfold convert_fields. intros H.
  repeat match type of H with
  | bind ?r _ = Err _ =>
      let E := fresh "E" in
      destruct r eqn:E;
      [ cbn [bind] in H
      | cbn [bind] in H; inversion H; subst;
        first [ left; eapply getitem_error; eassumption
              | right; eapply TaskC_facts.strptime_error; eassumption
              | right; eexists; eapply TaskC_facts.int_error; eassumption
              | right; eexists; eapply TaskC_facts.float_error; eassumption ] ]
  end.
  discriminate H.
Qed.

Lemma convert_error (l : list string) (e : exn) :
  snd (convert_reservation_data l) = Err e -> e = IndexError \/ exists v, e = ValueError v.
Proof.
  destruct (list_snoc_cases l) as [->|(l' & x & ->)].
  - cbn. intros H. inversion H. now left.
  - rewrite convert_snoc. cbn [snd]. apply convert_fields_error.
Qed.

(** X2. A list of fewer than eleven fields never converts: the call raises
    [IndexError], or the [ValueError] of a field that is present. *)
Theorem short_reservation_raises (reservation : list string) :
  (length reservation < 11)%nat ->
  exists e,
    snd (convert_reservation_data reservation) = Err e
    /\ (e = IndexError \/ exists v, e = ValueError v).
Proof.
  intros Hlen.
  destruct (snd (convert_reservation_data reservation)) as [r|e] eqn:E.
  - exfalso. destruct (list_snoc_cases reservation) as [->|(l' & x & ->)].
    + discriminate E.
    + rewrite convert_snoc in E. cbn [snd] in E.
      apply convert_fields_length in E.
      rewrite length_app in Hlen, E. cbn [length] in Hlen, E. lia.
  - exists e. split; [reflexivity|]. exact (convert_error reservation e E).
Qed.

(** A line of two fields. *)
Lemma short_reservation_raises_witness :
  exists e,
    snd (convert_reservation_data (split "|" "201|Moomin Valley")) = Err e
    /\ (e = IndexError \/ exists v, e = ValueError v).
Proof.
  assert (Hsplit : split "|" "201|Moomin Valley" = ["201"; "Moomin Valley"])
    by (vm_compute; reflexivity).
  rewrite Hsplit. apply short_reservation_raises. cbn [length]. lia.
Defined.


Lemma convert_fields_prefix (a0 a1 a2 a3 a4 a5 a6 a7 a8 a9 a10 : string)
    (rest : list string) :
  convert_fields (a0 :: a1 :: a2 :: a3 :: a4 :: a5 :: a6 :: a7 :: a8 :: a9 :: a10 :: rest)
  = convert_fields [a0; a1; a2; a3; a4; a5; a6; a7; a8; a9; a10].
Proof.
  rewrite TaskC_facts.convert_fields_11.
  unfold convert_fields, getitem. cbn [lookup list_lookup bind].
  destruct (PyNum.int a0); [|reflexivity]. cbn [bind].
  destruct (Datetime.strptime a4 _); [|reflexivity]. cbn [bind].
  destruct (Datetime.strptime a5 _); [|reflexivity]. cbn [bind].
  destruct (PyNum.int a6); [|reflexivity]. cbn [bind].
  destruct (PyNum.float_of_string a7); [|reflexivity]. cbn [bind].
  reflexivity.
Qed.

(** X3. Fields beyond the eleventh are not read. The white space is then
    stripped from the last field of the list, not from the eleventh, which
    is decoded as it stands. *)
Theorem fields_beyond_the_eleventh_are_ignored
    (a0 a1 a2 a3 a4 a5 a6 a7 a8 a9 a10 : string) (more : list string) (last : string) :
  convert_reservation_data
    ([a0; a1; a2; a3; a4; a5; a6; a7; a8; a9; a10] ++ more ++ [last])%list
  = (([a0; a1; a2; a3; a4; a5; a6; a7; a8; a9; a10] ++ more ++ [strip last])%list,
     convert_fields [a0; a1; a2; a3; a4; a5; a6; a7; a8; a9; a10]).
Proof.
  rewrite !app_assoc, convert_snoc, <- !app_assoc. cbn [app].
  now rewrite convert_fields_prefix.
Qed.

Lemma split_blank (s : string) : all_chars is_space s = true -> split "|" s = [s].
Proof.
  induction s as [|c s IH]; [reflexivity|]. cbn [all_chars split].
  intros H. apply andb_prop in H as [Hc Hs].
  destruct (Ascii.eqb c "|") eqn:E.
  - apply Ascii.eqb_eq in E. subst c. discriminate Hc.
  - now rewrite (IH Hs).
Qed.

Lemma strip_blank (s : string) : all_chars is_space s = true -> strip s = "".
Proof.
  intros H. unfold strip.
  assert (Hl : lstrip s = "").
  { induction s as [|c s IH]; [reflexivity|]. cbn [all_chars lstrip] in *.
    apply andb_prop in H as [Hc Hs]. rewrite Hc. now apply IH. }
  now rewrite Hl.
Qed.

(** X4. A blank line stops the reader: a line of white space only, such as
    an empty last line, is one field, which [int] refuses once stripped; no
    reservation is returned and [main] prints nothing. *)
Theorem blank_line_stops_the_reader
    (pre post : list string) (line : string) (rs : list Reservation) :
  fetch_reservations pre = Ok rs ->
  all_chars is_space line = true ->
  fetch_reservations (pre ++ line :: post) = Err (ValueError (InvalidIntLiteral ""))
  /\ main (pre ++ line :: post) = ([], Err (ValueError (InvalidIntLiteral ""))).
Proof.
  intros Hpre Hblank.
  assert (Hf : fetch_reservations (pre ++ line :: post)
               = Err (ValueError (InvalidIntLiteral ""))).
  { rewrite TaskC_facts.fetch_reservations_app, Hpre. cbn [bind for_each].
    rewrite (split_blank line Hblank).
    change (convert_reservation_data [line])
      with ([strip line], convert_fields [strip line]).
    rewrite (strip_blank line Hblank). reflexivity. }
  split; [exact Hf|]. unfold main. now rewrite Hf.
Qed.

(** A file whose second and last line is empty. *)
Lemma blank_line_stops_the_reader_witness :
  fetch_reservations
    [ "201|Moomin Valley|moomin@whitevalley.org|0509876543|2025-11-12|09:00|2|18.50|True|Forest Area 1|2025-08-12 14:33:20" +:+ String "010" "";
      String "010" "" ]
  = Err (ValueError (InvalidIntLiteral "")).
Proof.
  assert (Hpre : exists rs, fetch_reservations
    [ "201|Moomin Valley|moomin@whitevalley.org|0509876543|2025-11-12|09:00|2|18.50|True|Forest Area 1|2025-08-12 14:33:20" +:+ String "010" "" ]
    = Ok rs) by (eexists; vm_compute; reflexivity).
  destruct Hpre as [rs Hpre].
  assert (Hblank : all_chars is_space (String "010" "") = true) by (vm_compute; reflexivity).
  exact (proj1 (blank_line_stops_the_reader _ [] _ rs Hpre Hblank)).
Defined.

Lemma comprehension_ok {A B} (f : A -> result B) (l : list A) (ys : list B) :
  comprehension f l = Ok ys <-> Forall2 (fun x y => f x = Ok y) l ys.
Proof.
  revert ys. induction l as [|x l IH]; intros ys; cbn [comprehension].
  - split.
    + intros H. inversion H. constructor.
    + intros H. inversion H. reflexivity.
  - split.
    + intros H. destruct (f x) as [y|e] eqn:Ex; [|discriminate H]. cbn [bind] in H.
      destruct (comprehension f l) as [ys'|e] eqn:El; [|discriminate H].
      cbn [bind] in H. inversion H; subst. constructor; [exact Ex|].
      now apply IH.
    + intros H. inversion H as [|? y ? ys' Hx Hl]; subst. rewrite Hx. cbn [bind].
      apply IH in Hl. rewrite Hl. reflexivity.
Qed.

Lemma fetch_reservations_comprehension (lines : list string) :
  fetch_reservations lines
  = comprehension (fun line => snd (convert_reservation_data (split "|" line))) lines.
Proof.
  unfold fetch_reservations. cbv zeta.
  rewrite (Driver_facts.for_each_collect
             (fun line => snd (convert_reservation_data (split "|" line)))).
  destruct (comprehension _ lines); reflexivity.
Qed.

(** X5. The reader returns exactly when every line converts, and then gives
    one reservation per line, in the order of the lines. *)
Theorem fetch_reservations_is_linewise (lines : list string) (rs : list Reservation) :
  fetch_reservations lines = Ok rs
  <-> Forall2 (fun line r => snd (convert_reservation_data (split "|" line)) = Ok r)
              lines rs.
Proof. rewrite fetch_reservations_comprehension. apply comprehension_ok. Qed.



Lemma of_int_error (z : Z) (e : exn) :
  PyNum.of_int z = Err e -> e = OverflowError /\ 2 ^ 53 <= Z.abs z.
Proof.
  intros H. split.
  - unfold PyNum.of_int in H. destruct (PyNum.of_Z z); congruence.
  - destruct (Z_lt_le_dec (Z.abs z) (2 ^ 53)) as [Hlt|Hle]; [|exact Hle].
    rewrite (PyNum_facts.of_int_small z Hlt) in H. discriminate H.
Qed.




End Lines_facts.

(** ** TaskC: the sections of the report *)
Module Report_facts.
Import PyStr TaskC.

Lemma length_confirmed_reservations (rs : list Reservation) :
  length (confirmed_reservations rs)
  = length (filter (fun r => confirmed r = true) rs).
Proof.
  unfold confirmed_reservations.
  induction rs as [|r rs IH]; [reflexivity|]. cbn [flat_map].
  rewrite filter_cons. destruct (confirmed r) eqn:Ec.
  - rewrite decide_True by reflexivity. cbn [app length]. now rewrite IH.
  - rewrite decide_False by discriminate. exact IH.
Qed.

(** X7. The summary agrees with the other sections: the number of confirmed
    reservations it prints is the number of lines of the first section, and
    its two numbers add up to the number of lines of the third, one per
    reservation. *)
Theorem summary_agrees_with_sections (rs : list Reservation) :
  confirmation_summary rs
  = ["- Confirmed reservations: "
     +:+ PyNum.str (Z.of_nat (length (confirmed_reservations rs))) +:+ " pcs";
     "- Not confirmed reservations: "
     +:+ PyNum.str (Z.of_nat (length (confirmation_statuses rs)
                              - length (confirmed_reservations rs))) +:+ " pcs"]
  /\ (length (confirmed_reservations rs) <= length (confirmation_statuses rs))%nat
  /\ length (confirmation_statuses rs) = length rs.
Proof.
  assert (Hle : (length (confirmed_reservations rs) <= length rs)%nat).
  { rewrite length_confirmed_reservations. apply length_filter. }
  assert (Hst : length (confirmation_statuses rs) = length rs)
    by apply length_map.
  split; [|split; [lia | exact Hst]].
  unfold confirmation_summary. cbv zeta.
  rewrite <- length_confirmed_reservations, Hst.
  now rewrite Nat2Z.inj_sub by exact Hle.
Qed.

Lemma revenue_sum_filter (rs : list Reservation) (acc : PyNum.float) :
  for_each (fun total r =>
              if confirmed r
              then let* hours := PyNum.of_int (durationHours r) in
                   Ok (PyNum.fadd total (PyNum.fmul (price r) hours))
              else Ok total) rs acc
  = for_each (fun total r =>
              if confirmed r
              then let* hours := PyNum.of_int (durationHours r) in
                   Ok (PyNum.fadd total (PyNum.fmul (price r) hours))
              else Ok total) (List.filter confirmed rs) acc.
Proof.
  revert acc. induction rs as [|r rs IH]; intros acc; [reflexivity|].
  cbn [for_each List.filter]. destruct (confirmed r) eqn:Ec.
  - cbn [for_each]. rewrite Ec.
    destruct (PyNum.of_int (durationHours r)); cbn [bind]; [apply IH | reflexivity].
  - cbn [bind]. apply IH.
Qed.

Lemma revenue_sum_unconfirmed (rs : list Reservation) (acc : PyNum.float) :
  for_each (fun total r =>
              if confirmed r
              then let* hours := PyNum.of_int (durationHours r) in
                   Ok (PyNum.fadd total (PyNum.fmul (price r) hours))
              else Ok total) (List.filter (fun r => negb (confirmed r)) rs) acc
  = Ok acc.
Proof.
  induction rs as [|r rs IH]; [reflexivity|].
  cbn [List.filter]. destruct (confirmed r) eqn:Ec; cbn [negb]; [exact IH|].
  cbn [for_each]. rewrite Ec. cbn [bind]. exact IH.
Qed.

(** X8. Reservations that are not confirmed have no part in the revenue:
    the line printed, or the exception raised, is that of the confirmed
    reservations alone, whatever the price and the duration of the others;
    without a confirmed reservation the revenue is printed as [0,00]. *)
Theorem total_revenue_ignores_unconfirmed (rs : list Reservation) :
  total_revenue rs = total_revenue (List.filter confirmed rs)
  /\ total_revenue (List.filter (fun r => negb (confirmed r)) rs)
     = Ok ["Total revenue from confirmed reservations: 0,00 €"].
Proof.
  unfold total_revenue, revenue_sum. split.
  - now rewrite revenue_sum_filter.
  - rewrite revenue_sum_unconfirmed. reflexivity.
Qed.

(** X26. The order of the reservations matters to the order of the lines
    only: a permutation of the reservations gives the same summary, and in
    the first three sections the same lines in another order. *)
Theorem sections_under_permutation (rs rs' : list Reservation) :
  Permutation rs rs' ->
  confirmation_summary rs = confirmation_summary rs'
  /\ Permutation (confirmed_reservations rs) (confirmed_reservations rs')
  /\ Permutation (long_reservations rs) (long_reservations rs')
  /\ Permutation (confirmation_statuses rs) (confirmation_statuses rs').
Proof.
  intros Hp. split; [|split; [|split]].
  - unfold confirmation_summary. cbv zeta.
    rewrite <- !length_confirmed_reservations.
    assert (Hc : Permutation (confirmed_reservations rs) (confirmed_reservations rs'))
      by (unfold confirmed_reservations; now apply Permutation_flat_map).
    now rewrite (Permutation_length Hc), (Permutation_length Hp).
  - unfold confirmed_reservations. now apply Permutation_flat_map.
  - unfold long_reservations. now apply Permutation_flat_map.
  - unfold confirmation_statuses. now apply Permutation_map.
Qed.

(** Two reservations, one of them confirmed, in both orders. *)
Lemma sections_under_permutation_witness :
  let stamp := {| Datetime.dt_date := Datetime.epoch_day;
                  Datetime.dt_time := Datetime.midnight |} in
  let record n c :=
    {| reservationId := 1; name := n; email := "e"; phone := "p";
       reservationDate := Datetime.epoch_day; reservationTime := Datetime.midnight;
       durationHours := 2; price := PyNum.fzero; confirmed := c;
       reservedResource := "r"; createdAt := stamp |} in
  confirmation_summary [record "a" true; record "b" false]
  = confirmation_summary [record "b" false; record "a" true].
Proof.
  cbv zeta. refine (proj1 (sections_under_permutation _ _ _)). apply perm_swap.
Defined.

End Report_facts.

(** ** TaskC: dates and times *)
Module Calendar_facts.
Import PyStr PyNum PyStr_facts PyNum_facts.

Lemma digits_value_bound (s : string) :
  all_chars is_digit s = true ->
  0 <= Z.of_N (digits_value s) < 10 ^ Z.of_nat (String.length s).
Proof.
  intros H. destruct (digits_uint s H) as [d ->].
  rewrite digits_value_uint, Roundtrip_facts.length_string_of_uint.
  split; [lia | apply of_uint_bound].
Qed.


(** *** What the expression of a format captures *)

Lemma try_alts_some {R} (k : string -> string -> option R) (alts : list Datetime.alt)
    (s : string) (x : R) :
  Datetime.try_alts k alts s = Some x ->
  exists a t r, In a alts /\ Datetime.match_alt a s = Some (t, r) /\ k t r = Some x.
Proof.
  induction alts as [|a alts IH]; cbn [Datetime.try_alts]; [discriminate|].
  intros H.
  assert (Hrest : Datetime.try_alts k alts s = Some x ->
                  exists b t r, In b (a :: alts)
                                /\ Datetime.match_alt b s = Some (t, r) /\ k t r = Some x)
    by (intros H'; destruct (IH H') as (b & t & r & Hin & Hm & Hk);
        exists b, t, r; split; [right; exact Hin | split; assumption]).
  destruct (Datetime.match_alt a s) as [[t r]|] eqn:Em; [|now apply Hrest].
  destruct (k t r) as [y|] eqn:Ek; [|now apply Hrest].
  inversion H; subst. exists a, t, r. split; [left; reflexivity | split; assumption].
Qed.

Lemma spaces_star_some {R} (k : string -> option R) (s : string) (x : R) :
  Datetime.spaces_star k s = Some x -> exists s', k s' = Some x.
Proof.
  induction s as [|c s IH]; cbn [Datetime.spaces_star]; [eauto|].
  destruct (is_space c); [|eauto].
  destruct (Datetime.spaces_star k s) as [y|] eqn:E; [|eauto].
  intros H. inversion H; subst. now apply IH.
Qed.

(** A match gives one text per group, in order, each matched by an
    alternative of its group. *)
Lemma match_items_captures (p : list Datetime.item) :
  forall s caps rest,
    Datetime.match_items p s = Some (caps, rest) ->
    Forall2 Spec.captured (Spec.groups p) caps.
Proof.
  induction p as [|it p IH]; intros s caps rest H.
  - cbn in H. inversion H. constructor.
  - destruct it as [n alts|c|]; cbn [Datetime.match_items] in H.
    + apply try_alts_some in H as (a & t & r & Hin & Hm & Hk).
      destruct (Datetime.match_items p r) as [[caps' rest']|] eqn:E; [|discriminate Hk].
      inversion Hk; subst. unfold Spec.groups. cbn [omap list_omap].
      constructor; [|exact (IH _ _ _ E)].
      split; [reflexivity|]. exists a, s, r. split; [exact Hin | exact Hm].
    + destruct s as [|c' s']; [discriminate H|].
      destruct (Ascii.eqb c c'); [|discriminate H]. exact (IH _ _ _ H).
    + unfold Datetime.spaces_plus in H. destruct s as [|c' s']; [discriminate H|].
      destruct (is_space c'); [|discriminate H].
      apply spaces_star_some in H as [s'' H]. exact (IH _ _ _ H).
Qed.


Lemma match_alt_cons (k : Datetime.cclass) (a : Datetime.alt) (s t r : string) :
  Datetime.match_alt (k :: a) s = Some (t, r) ->
  exists c s' t',
    s = String c s' /\ Datetime.cmatch k c = true
    /\ Datetime.match_alt a s' = Some (t', r) /\ t = String c t'.
Proof.
  cbn [Datetime.match_alt]. destruct s as [|c s']; [discriminate|].
  destruct (Datetime.cmatch k c) eqn:Ec; [|discriminate].
  destruct (Datetime.match_alt a s') as [[t' r']|] eqn:Ea; [|discriminate].
  intros H. inversion H; subst. exists c, s', t'. repeat split; assumption.
Qed.

Lemma match_alt_nil (s t r : string) :
  Datetime.match_alt [] s = Some (t, r) -> t = "" /\ r = s.
Proof. cbn. intros H. inversion H. split; reflexivity. Qed.

(** A class between two digits holds digits only. *)
Lemma cmatch_digit (k : Datetime.cclass) (c : ascii) :
  Datetime.cmatch k c = true ->
  match k with
  | Datetime.CDigit => true
  | Datetime.CRange lo hi => is_digit lo && is_digit hi
  | Datetime.CChar x => is_digit x
  end = true ->
  is_digit c = true.
Proof.
  destruct k as [|lo hi|x]; cbn [Datetime.cmatch].
  - intros H _. exact H.
  - unfold is_digit. intros H Hk.
    apply andb_prop in H as [H1 H2]. apply andb_prop in Hk as [Hlo Hhi].
    apply andb_prop in Hlo as [Hlo _]. apply andb_prop in Hhi as [_ Hhi].
    apply N.leb_le in H1, H2, Hlo, Hhi.
    apply andb_true_intro. split; apply N.leb_le; lia.
  - intros H Hx. apply Ascii.eqb_eq in H. now subst.
Qed.

Import Roundtrip_facts.

Ltac alt_chars H :=
  repeat (apply match_alt_cons in H as (?c & ?s & ?t & -> & ?Hc & H & ->));
  apply match_alt_nil in H as [-> ->].

Ltac class_char :=
  match goal with
  | Hc : Datetime.cmatch (Datetime.CChar " ") ?c = true |- _ =>
      cbn [Datetime.cmatch] in Hc; apply Ascii.eqb_eq in Hc; subst c
  | Hc : Datetime.cmatch ?k ?c = true |- _ =>
      let Hd := fresh "Hd" in
      assert (Hd : is_digit c = true) by (apply (cmatch_digit k c Hc); reflexivity);
      each_digit Hd; vm_compute in Hc; try discriminate Hc; clear Hc
  end.

(** The value of the text of a group. *)
Lemma group_value (n : ascii) (alts : list Datetime.alt) (a : Datetime.alt)
    (s t r : string) :
  Datetime.directive n = Some alts -> In a alts ->
  Datetime.match_alt a s = Some (t, r) ->
  exists v,
    int t = Ok v
    /\ match n with
       | "Y"%char => 0 <= v <= 9999
       | "m"%char => 1 <= v <= 12
       | "d"%char => 1 <= v <= 31
       | "H"%char => 0 <= v <= 23
       | "M"%char => 0 <= v <= 59
       | "S"%char => 0 <= v <= 61
       | _ => True
       end.
Proof.
  intros Hd Hin Hm.
  destruct n as [[] [] [] [] [] [] [] []]; try discriminate Hd;
    inversion Hd; subst alts; clear Hd; cbn [In] in Hin;
    repeat match type of Hin with
           | _ \/ _ => destruct Hin as [<-|Hin]
           end; try contradiction;
    alt_chars Hm.
  (* the year *)
  all: try (cbn [Datetime.cmatch] in *;
            match goal with
            | |- exists v, int ?t = Ok v /\ 0 <= v <= 9999 =>
                assert (Ha : all_chars is_digit t = true) by all_digits;
                exists (Z.of_N (digits_value t));
                split; [apply int_digits; exact Ha|];
                pose proof (digits_value_bound t Ha) as Hb;
                cbn [String.length] in Hb;
                change (10 ^ Z.of_nat 4) with 10000 in Hb; lia
            end).
  all: repeat class_char; eexists; (split; [vm_compute; reflexivity | lia]).
Qed.


(** The texts of the groups of a match, with their values. *)
Ltac captured_values H E :=
  unfold Datetime.strptime in H;
  match type of H with
  | bind (Datetime.compile ?fmt) _ = _ =>
      let p := eval vm_compute in (Datetime.compile fmt) in
      change (Datetime.compile fmt) with p in H
  end;
  cbn [bind] in H;
  match type of H with
  | match ?m with _ => _ end = _ =>
      let unread := fresh "unread" in
      destruct m as [[caps unread]|] eqn:E; [|discriminate H];
      destruct unread; [|discriminate H]
  end;
  apply match_items_captures in E;
  unfold Spec.groups in E; cbn [omap list_omap] in E;
  repeat match goal with
  | F : Forall2 _ (_ :: _) _ |- _ => inversion F; subst; clear F
  | F : Forall2 _ [] _ |- _ => inversion F; subst; clear F
  end;
  repeat match goal with
  | C : Spec.captured (?n, ?alts) ?cap |- _ =>
      let t := fresh "t" in
      let v := fresh "v" in
      let Hv := fresh "Hv" in
      let Hr := fresh "Hr" in
      destruct cap as [? t];
      destruct C as (C & ?a & ?s & ?r & ?Hin & ?Hm);
      cbn [fst snd] in *; subst;
      match goal with
      | Hin' : In ?a' alts, Hm' : Datetime.match_alt ?a' _ = Some (t, _) |- _ =>
          destruct (group_value n alts a' _ t _ eq_refl Hin' Hm') as (v & Hv & Hr);
          clear Hin' Hm'
      end
  end;
  repeat (cbn [for_each] in H; unfold Datetime.set_field at 1 in H;
          cbn [fst snd] in H;
          match type of H with
          | context [int ?t] =>
              match goal with
              | Hv : int t = Ok _ |- _ => rewrite Hv in H
              end
          end;
          cbn [bind] in H);
  cbn [for_each bind Datetime.default_fields Datetime.f_year Datetime.f_month
       Datetime.f_day Datetime.f_hour Datetime.f_minute Datetime.f_second] in H;
  unfold Datetime.check_fields in H;
  cbn [Datetime.f_year Datetime.f_month Datetime.f_day
       Datetime.f_hour Datetime.f_minute Datetime.f_second] in H;
  repeat match type of H with
  | (if ?b then _ else _) = _ =>
      let Eb := fresh "Eb" in
      destruct b eqn:Eb; [discriminate H|]; apply Z.ltb_ge in Eb
  end;
  inversion H; subst; clear H.

(** [%Y-%m-%d] reads a date of the calendar. *)
Lemma strptime_date (s : string) (v : Datetime.datetime) :
  Datetime.strptime s "%Y-%m-%d" = Ok v ->
  Spec.valid_date (Datetime.dt_date v) /\ Datetime.dt_time v = Datetime.midnight.
Proof.
  intros H. captured_values H E.
  unfold Spec.valid_date. cbn. split; [lia | reflexivity].
Qed.

(** [%H:%M] reads a time of the day, without seconds. *)
Lemma strptime_time (s : string) (v : Datetime.datetime) :
  Datetime.strptime s "%H:%M" = Ok v ->
  Spec.valid_time (Datetime.dt_time v) /\ Datetime.second (Datetime.dt_time v) = 0.
Proof.
  intros H. captured_values H E.
  unfold Spec.valid_time. cbn. split; [lia | reflexivity].
Qed.

Lemma strptime_timestamp (s : string) (v : Datetime.datetime) :
  Datetime.strptime s "%Y-%m-%d %H:%M:%S" = Ok v ->
  Spec.valid_date (Datetime.dt_date v) /\ Spec.valid_time (Datetime.dt_time v).
Proof.
  intros H. captured_values H E.
  unfold Spec.valid_date, Spec.valid_time. cbn. lia.
Qed.


Import TaskC Lines_facts.

(** The three texts a conversion that returned has read as dates and
    times. *)
Lemma convert_fields_dates (l : list string) (r : Reservation) :
  convert_fields l = Ok r ->
  exists f4 f5 f10 v4 v5,
    Datetime.strptime f4 "%Y-%m-%d" = Ok v4
    /\ Datetime.strptime f5 "%H:%M" = Ok v5
    /\ Datetime.strptime f10 "%Y-%m-%d %H:%M:%S" = Ok (createdAt r)
    /\ reservationDate r = Datetime.dt_date v4
    /\ reservationTime r = Datetime.dt_time v5.
Proof.
  unfold convert_fields. intros H. binds H. inversion H; subst; clear H.
  cbn [reservationDate reservationTime createdAt].
  match goal with
  | E4 : Datetime.strptime ?f4 "%Y-%m-%d" = Ok ?v4,
    E5 : Datetime.strptime ?f5 "%H:%M" = Ok ?v5,
    E10 : Datetime.strptime ?f10 "%Y-%m-%d %H:%M:%S" = Ok _ |- _ =>
      exists f4, f5, f10, v4, v5
  end.
  repeat split; assumption || reflexivity.
Qed.

(** X9. A reservation that has been converted holds a date of the calendar
    (years 1 to 9999, the day within its month), a time of the day without
    seconds, and a timestamp made of such a date and a time of the day. *)
Theorem converted_dates_are_valid (reservation : list string) (r : Reservation) :
  snd (convert_reservation_data reservation) = Ok r ->
  Spec.valid_date (reservationDate r)
  /\ Spec.valid_time (reservationTime r)
  /\ Datetime.second (reservationTime r) = 0
  /\ Spec.valid_date (Datetime.dt_date (createdAt r))
  /\ Spec.valid_time (Datetime.dt_time (createdAt r)).
Proof.
  intros H.
  destruct (list_snoc_cases reservation) as [->|(l & x & ->)]; [discriminate H|].
  rewrite convert_snoc in H. cbn [snd] in H.
  apply convert_fields_dates in H as (f4 & f5 & f10 & v4 & v5 & H4 & H5 & H10 & -> & ->).
  apply strptime_date in H4 as [H4 _].
  apply strptime_time in H5 as [H5 H5'].
  apply strptime_timestamp in H10 as [H10 H10'].
  split; [exact H4|]. split; [exact H5|]. split; [exact H5'|].
  split; [exact H10 | exact H10'].
Qed.

(** A line whose date is the last day of February in a leap year. *)
Lemma converted_dates_are_valid_witness :
  exists r,
    snd (convert_reservation_data
           ["201"; "Moomin Valley"; "moomin@whitevalley.org"; "0509876543";
            "2024-2-29"; "9:5"; "2"; "18.50"; "True"; "Forest Area 1";
            "2025-08-12 14:33:20"]) = Ok r
    /\ Spec.valid_date (reservationDate r)
    /\ Datetime.second (reservationTime r) = 0.
Proof.
  assert (H : exists r,
    snd (convert_reservation_data
           ["201"; "Moomin Valley"; "moomin@whitevalley.org"; "0509876543";
            "2024-2-29"; "9:5"; "2"; "18.50"; "True"; "Forest Area 1";
            "2025-08-12 14:33:20"]) = Ok r) by (eexists; vm_compute; reflexivity).
  destruct H as [r H]. exists r. split; [exact H|].
  destruct (converted_dates_are_valid _ r H) as (Hd & _ & Hs & _).
  split; assumption.
Defined.

(** *** The dates and times of the report *)

Lemma two_digits (n : Z) : 0 <= n <= 99 -> Spec.shape "dd" (zfill 2 (str n)) = true.
Proof.
  intros Hn.
  apply (below_cases (fun n => Spec.shape "dd" (zfill 2 (str n))) 100);
    [vm_compute; reflexivity | lia].
Qed.

Lemma is_digit_digit (n : Z) : is_digit (Spec.digit n) = true.
Proof.
  unfold Spec.digit.
  apply (below_cases (fun k => is_digit (ascii_of_N (48 + Z.to_N k))) 10);
    [vm_compute; reflexivity | apply Z.mod_pos_bound; lia].
Qed.

Lemma shape_append (p1 p2 s1 s2 : string) :
  Spec.shape p1 s1 = true -> Spec.shape p2 s2 = true ->
  Spec.shape (p1 +:+ p2) (s1 +:+ s2) = true.
Proof.
  revert s1. induction p1 as [|x p1 IH]; intros s1 H1 H2.
  - destruct s1; [exact H2 | discriminate H1].
  - destruct s1 as [|c s1].
    + destruct x as [[] [] [] [] [] [] [] []]; discriminate H1.
    + rewrite !append_cons.
      destruct x as [[] [] [] [] [] [] [] []]; cbn [Spec.shape] in *;
        apply andb_prop in H1 as [Hc H1]; rewrite Hc; cbn [andb];
        apply IH; assumption.
Qed.

Lemma shape_digits2 (n : Z) : Spec.shape "dd" (Spec.digits2 n) = true.
Proof. unfold Spec.digits2. cbn [Spec.shape]. now rewrite !is_digit_digit. Qed.

Lemma shape_digits4 (n : Z) : Spec.shape "dddd" (Spec.digits4 n) = true.
Proof.
  unfold Spec.digits4, Spec.digits2. cbn [Spec.shape]. now rewrite !is_digit_digit.
Qed.

Lemma date_text_shape (d : Datetime.date) :
  Spec.valid_date d -> 1000 <= Datetime.year d ->
  Spec.shape "dd.dd.dddd" (Datetime.date_strftime d "%d.%m.%Y") = true.
Proof.
  intros Hd Hyear. rewrite (Table_facts.date_strftime_dd_mm_yyyy d Hd Hyear).
  unfold Spec.dd_mm_yyyy.
  change "dd.dd.dddd" with ("dd" +:+ "." +:+ "dd" +:+ "." +:+ "dddd").
  repeat apply shape_append;
    first [ reflexivity | apply shape_digits2 | apply shape_digits4 ].
Qed.

Lemma time_text_shape (t : Datetime.time) :
  Spec.valid_time t ->
  Spec.shape "dd.dd" (Datetime.time_strftime t "%H.%M") = true.
Proof.
  intros (Hh & Hm & _). unfold Datetime.time_strftime.
  cbn [Datetime.strftime Datetime.format_directive Datetime.dt_time].
  rewrite append_empty_r.
  change "dd.dd" with ("dd" +:+ "." +:+ "dd").
  change (String "." ?x) with ("." +:+ x).
  repeat apply shape_append;
    first [ reflexivity | apply two_digits; lia ].
Qed.

(** The date and the time that the report prints. *)
Lemma converted_date_and_time (reservation : list string) (r : Reservation) :
  snd (convert_reservation_data reservation) = Ok r ->
  Spec.valid_date (reservationDate r) /\ Spec.valid_time (reservationTime r).
Proof.
  intros H.
  destruct (list_snoc_cases reservation) as [->|(l & x & ->)]; [discriminate H|].
  rewrite convert_snoc in H. cbn [snd] in H.
  apply convert_fields_dates in H as (f4 & f5 & f10 & v4 & v5 & H4 & H5 & _ & -> & ->).
  apply strptime_date in H4 as [H4 _].
  apply strptime_time in H5 as [H5 _].
  split; assumption.
Qed.

(** X10. The lines of the report about a converted reservation hold its date
    as two digits, a point, two digits, a point and four digits, and its time
    as two digits, a point and two digits, whatever the number of digits the
    line of the file had: [confirmed_reservations] prints one such line when
    the reservation is confirmed, and [long_reservations] one when it lasts
    three hours or more. The year is 1000 or later: the text of an earlier
    year depends on the platform. *)
Theorem report_lines_hold_fixed_width_dates (reservation : list string) (r : Reservation) :
  snd (convert_reservation_data reservation) = Ok r ->
  1000 <= Datetime.year (reservationDate r) ->
  exists date time : string,
    Spec.shape "dd.dd.dddd" date = true
    /\ Spec.shape "dd.dd" time = true
    /\ confirmed_reservations [r]
       = (if confirmed r
          then ["- " +:+ name r +:+ ", " +:+ reservedResource r +:+ ", " +:+ date
                +:+ " at " +:+ time]
          else [])
    /\ long_reservations [r]
       = (if 3 <=? durationHours r
          then ["- " +:+ name r +:+ ", " +:+ date +:+ " at " +:+ time
                +:+ ", duration " +:+ PyNum.str (durationHours r) +:+ " h, "
                +:+ reservedResource r]
          else []).
Proof.
  intros H Hyear. apply converted_date_and_time in H as (Hd & Ht).
  exists (Datetime.date_strftime (reservationDate r) "%d.%m.%Y"),
         (Datetime.time_strftime (reservationTime r) "%H.%M").
  split; [now apply date_text_shape|]. split; [now apply time_text_shape|].
  unfold confirmed_reservations, long_reservations. cbn [flat_map].
  rewrite !app_nil_r. split; reflexivity.
Qed.

(** A line whose date and time are written without their leading zeros. *)
Lemma report_lines_hold_fixed_width_dates_witness :
  exists (r : Reservation) (date time : string),
    snd (convert_reservation_data
           ["201"; "Moomin Valley"; "moomin@whitevalley.org"; "0509876543";
            "2025-1-2"; "9:5"; "3"; "18.50"; "True"; "Forest Area 1";
            "2025-08-12 14:33:20"]) = Ok r
    /\ Spec.shape "dd.dd.dddd" date = true
    /\ Spec.shape "dd.dd" time = true
    /\ confirmed_reservations [r]
       = ["- Moomin Valley, Forest Area 1, " +:+ date +:+ " at " +:+ time].
Proof.
  assert (H : exists r,
    snd (convert_reservation_data
           ["201"; "Moomin Valley"; "moomin@whitevalley.org"; "0509876543";
            "2025-1-2"; "9:5"; "3"; "18.50"; "True"; "Forest Area 1";
            "2025-08-12 14:33:20"]) = Ok r
    /\ Datetime.year (reservationDate r) = 2025
    /\ confirmed r = true
    /\ name r = "Moomin Valley" /\ reservedResource r = "Forest Area 1").
  { eexists. split; [vm_compute; reflexivity|]. repeat split; vm_compute; reflexivity. }
  destruct H as (r & H & Hy & Hc & Hn & Hres).
  assert (Hyear : 1000 <= Datetime.year (reservationDate r)) by (rewrite Hy; lia).
  destruct (report_lines_hold_fixed_width_dates _ r H Hyear)
    as (date & time & Hd & Ht & Hcr & _).
  exists r, date, time. split; [exact H|]. split; [exact Hd|]. split; [exact Ht|].
  rewrite Hcr, Hc, Hn, Hres. reflexivity.
Defined.

(** *** Fields that do not start with a digit *)

Lemma cmatch_no_digit (k : Datetime.cclass) (c : ascii) :
  is_digit c = false ->
  match k with
  | Datetime.CDigit => true
  | Datetime.CRange lo hi => is_digit lo && is_digit hi
  | Datetime.CChar x => is_digit x
  end = true ->
  Datetime.cmatch k c = false.
Proof.
  intros Hc Hk. destruct (Datetime.cmatch k c) eqn:E; [|reflexivity].
  rewrite (cmatch_digit k c E Hk) in Hc. discriminate Hc.
Qed.

Lemma strptime_date_needs_digit (c : ascii) (s : string) :
  is_digit c = false ->
  Datetime.strptime (String c s) "%Y-%m-%d"
  = Err (ValueError (TimeDataMismatch (String c s) "%Y-%m-%d")).
Proof.
  intros Hc. unfold Datetime.strptime.
  let p := eval vm_compute in (Datetime.compile "%Y-%m-%d") in
  change (Datetime.compile "%Y-%m-%d") with p.
  cbn [bind Datetime.match_items Datetime.try_alts Datetime.match_alt].
  rewrite !(cmatch_no_digit _ c Hc) by reflexivity. reflexivity.
Qed.

Lemma strptime_time_needs_digit (c : ascii) (s : string) :
  is_digit c = false ->
  Datetime.strptime (String c s) "%H:%M"
  = Err (ValueError (TimeDataMismatch (String c s) "%H:%M")).
Proof.
  intros Hc. unfold Datetime.strptime.
  let p := eval vm_compute in (Datetime.compile "%H:%M") in
  change (Datetime.compile "%H:%M") with p.
  cbn [bind Datetime.match_items Datetime.try_alts Datetime.match_alt].
  rewrite !(cmatch_no_digit _ c Hc) by reflexivity. reflexivity.
Qed.

(** X11. The date and the time of a reservation are not stripped: a field
    that starts with a blank, or with any other character of ASCII that is
    no digit, is refused as not matching its format, whereas the identifier
    before it is converted by [int], which drops the white space around it.
    A line written with blanks around its separators therefore does not
    convert. *)
Theorem date_and_time_fields_are_not_stripped
    (a0 a1 a2 a3 a4 a5 a6 a7 a8 a9 a10 : string) (c : ascii) (s : string) :
  (code c < 128)%N ->
  is_digit c = false ->
  (exists v0, PyNum.int a0 = Ok v0) ->
  snd (convert_reservation_data [a0; a1; a2; a3; String c s; a5; a6; a7; a8; a9; a10])
  = Err (ValueError (TimeDataMismatch (String c s) "%Y-%m-%d"))
  /\ ((exists v4, Datetime.strptime a4 "%Y-%m-%d" = Ok v4) ->
      snd (convert_reservation_data [a0; a1; a2; a3; a4; String c s; a6; a7; a8; a9; a10])
      = Err (ValueError (TimeDataMismatch (String c s) "%H:%M"))).
Proof.
  intros _ Hc [v0 H0]. rewrite !TaskC_facts.convert_11, !TaskC_facts.convert_fields_11.
  rewrite H0. cbn [bind]. split.
  - now rewrite (strptime_date_needs_digit c s Hc).
  - intros [v4 H4]. rewrite H4. cbn [bind].
    now rewrite (strptime_time_needs_digit c s Hc).
Qed.

(** The line of the documentation of TaskC, cut at its separators. *)
Lemma date_and_time_fields_are_not_stripped_witness :
  split "|" "201 | Moomin Valley | moomin@whitevalley.org | 0509876543 | 2025-11-12 | 09:00 | 2 | 18.50 | True | Forest Area 1 | 2025-08-12 14:33:20"
  = ["201 "; " Moomin Valley "; " moomin@whitevalley.org "; " 0509876543 ";
     " 2025-11-12 "; " 09:00 "; " 2 "; " 18.50 "; " True "; " Forest Area 1 ";
     " 2025-08-12 14:33:20"]
  /\ snd (convert_reservation_data
            ["201 "; " Moomin Valley "; " moomin@whitevalley.org "; " 0509876543 ";
             " 2025-11-12 "; " 09:00 "; " 2 "; " 18.50 "; " True "; " Forest Area 1 ";
             " 2025-08-12 14:33:20"])
     = Err (ValueError (TimeDataMismatch " 2025-11-12 " "%Y-%m-%d")).
Proof.
  split; [vm_compute; reflexivity|].
  assert (Ha : (code " " < 128)%N) by (vm_compute; reflexivity).
  assert (Hc : is_digit " " = false) by (vm_compute; reflexivity).
  assert (H0 : exists v0, PyNum.int "201 " = Ok v0) by (eexists; vm_compute; reflexivity).
  exact (proj1 (date_and_time_fields_are_not_stripped
                  "201 " " Moomin Valley " " moomin@whitevalley.org " " 0509876543 "
                  "" " 09:00 " " 2 " " 18.50 " " True " " Forest Area 1 "
                  " 2025-08-12 14:33:20" " " "2025-11-12 " Ha Hc H0)).
Defined.

End Calendar_facts.

(** ** TaskD and TaskE: the records of a file *)
Module Records_facts.
Import PyStr TaskE Lines_facts.

(** *** The rows of [csv.DictReader] *)

Lemma foldl_insert_some_at (fieldnames record : list string) :
  forall (d : Csv.row) (i : nat) (key a : string),
    NoDup fieldnames -> fieldnames !! i = Some key -> record !! i = Some a ->
    foldl (fun (d : Csv.row) kv => <[kv.1 := Some kv.2]> d) d (zip fieldnames record) !! key
    = Some (Some a).
Proof.
  revert record. induction fieldnames as [|k ks IH]; intros record d i key a Hnd Hk Ha.
  - rewrite lookup_nil in Hk. discriminate Hk.
  - destruct record as [|x xs]; [rewrite lookup_nil in Ha; discriminate Ha|].
    apply NoDup_cons in Hnd as [Hnotin Hnd]. cbn [zip zip_with foldl].
    destruct i as [|i]; cbn in Hk, Ha.
    + inversion Hk; inversion Ha; subst.
      rewrite Reader_facts.foldl_insert_some_lookup.
      * cbn. apply lookup_insert_eq.
      * intros Hin. apply Reader_facts.in_fst_zip in Hin.
        apply Hnotin. now apply list_elem_of_In.
    + eapply IH; eassumption.
Qed.

Lemma foldl_insert_none_at (ks : list string) :
  forall (d : Csv.row) (key : string),
    In key ks ->
    foldl (fun (d : Csv.row) k => <[k := None]> d) d ks !! key = Some None.
Proof.
  induction ks as [|k ks IH]; intros d key Hin; [destruct Hin|].
  cbn [foldl]. destruct (In_dec string_dec key ks) as [Hks|Hks].
  - now apply IH.
  - destruct Hin as [->|Hin]; [|contradiction].
    rewrite Reader_facts.foldl_insert_none_lookup by exact Hks.
    apply lookup_insert_eq.
Qed.

(** The value of a column of the header: the field of the record at the
    place of the column, [None] when the record ends before it. *)
Lemma make_row_lookup (fieldnames record : list string) (i : nat) (key : string) :
  NoDup fieldnames -> fieldnames !! i = Some key ->
  Csv.make_row fieldnames record !! key = Some (record !! i).
Proof.
  intros Hnd Hk. unfold Csv.make_row.
  destruct (record !! i) as [a|] eqn:Ea.
  - rewrite Reader_facts.foldl_insert_none_lookup.
    + eapply foldl_insert_some_at; eassumption.
    + intros Hin. apply list_elem_of_In, list_elem_of_lookup in Hin as [j Hj].
      rewrite lookup_drop in Hj.
      apply lookup_lt_Some in Ea.
      assert (Heq : (length record + j)%nat = i)
        by (eapply NoDup_lookup; eassumption).
      lia.
  - apply foldl_insert_none_at.
    apply lookup_ge_None in Ea.
    apply list_elem_of_In, list_elem_of_lookup. exists (i - length record)%nat.
    rewrite lookup_drop. replace (length record + (i - length record))%nat with i by lia.
    exact Hk.
Qed.


Section Records.
Variable fromisoformat : string -> option Datetime.datetime.

Lemma read_data_comprehension (records : list (list string)) :
  read_data fromisoformat records
  = comprehension (read_row fromisoformat) (Csv.DictReader records).
Proof.
  unfold read_data. rewrite (Driver_facts.for_each_collect (read_row fromisoformat)).
  destruct (comprehension _ _); reflexivity.
Qed.

Lemma comprehension_length {A B} (f : A -> result B) (l : list A) (ys : list B) :
  comprehension f l = Ok ys -> length ys = length l.
Proof.
  intros H. apply comprehension_ok in H. symmetry. eapply Forall2_length. exact H.
Qed.

Lemma read_row_shape (row : Csv.row) (r : MeterRow) :
  read_row fromisoformat row = Ok r ->
  length (consumption r) = 3%nat /\ length (production r) = 3%nat
  /\ date r = Datetime.dt_date (timestamp r).
Proof.
  unfold read_row. intros H. binds H. inversion H; subst; clear H. cbn.
  repeat match goal with
  | E : comprehension _ range3 = Ok _ |- _ => apply comprehension_length in E
  end.
  repeat split; assumption.
Qed.

(** X12. What [read_data] returns holds one row per record that is not
    empty, in the order of the file: the rows are, one after the other, what
    [read_row] makes of the non-empty records after the header. Every row
    has three readings of consumption and three of production, and its date
    is the date of its timestamp. *)
Theorem read_data_rows_are_well_shaped (records : list (list string))
    (rows : list MeterRow) :
  read_data fromisoformat records = Ok rows ->
  Forall2 (fun record r =>
             read_row fromisoformat (Csv.make_row (hd [] records) record) = Ok r)
          (List.filter Csv.nonempty (tail records)) rows
  /\ length rows = length (List.filter Csv.nonempty (tail records))
  /\ Forall (fun r => length (consumption r) = 3%nat
                      /\ length (production r) = 3%nat
                      /\ date r = Datetime.dt_date (timestamp r)) rows.
Proof.
  rewrite read_data_comprehension. intros H.
  assert (Hrows : Forall2 (fun record r =>
                    read_row fromisoformat (Csv.make_row (hd [] records) record) = Ok r)
                    (List.filter Csv.nonempty (tail records)) rows).
  { apply comprehension_ok in H.
    destruct records as [|fieldnames rest]; cbn [Csv.DictReader hd tail] in *.
    - inversion H. constructor.
    - apply Forall2_fmap_l in H. exact H. }
  split; [exact Hrows|]. split.
  - symmetry. eapply Forall2_length. exact Hrows.
  - clear Hrows. apply comprehension_ok in H.
    induction H as [|row r rows' rs Hr _ IH]; constructor; [|exact IH].
    exact (read_row_shape row r Hr).
Qed.

(** The readings of the rows of a file that has been read. *)
Lemma three_readings_a_row (records : list (list string)) (rows : list MeterRow) :
  read_data fromisoformat records = Ok rows ->
  Forall (fun r => length (consumption r) = 3%nat /\ length (production r) = 3%nat) rows.
Proof.
  rewrite read_data_comprehension. intros H. apply comprehension_ok in H.
  induction H as [|row r rows' rs Hr _ IH]; constructor; [|exact IH].
  destruct (read_row_shape row r Hr) as (Hc & Hp & _). now split.
Qed.

(** The exceptions of [read_row]: a column that the header lacks, a field
    that the record lacks, or a text that a decoder refuses. *)
Lemma getkey_error (row : Csv.row) (key : string) (e : exn) :
  Csv.getkey row key = Err e -> e = KeyError key.
Proof. unfold Csv.getkey. destruct (row !! key); congruence. Qed.

Lemma decode_time_error (v : option string) (e : exn) :
  decode_time fromisoformat v = Err e -> e = TypeError \/ exists x, e = ValueError x.
Proof.
  unfold decode_time. destruct v as [s|]; [|intros H; inversion H; now left].
  destruct (fromisoformat s); intros H; inversion H. right. eauto.
Qed.

Lemma decode_int_error (v : option string) (e : exn) :
  decode_int v = Err e -> e = TypeError \/ exists x, e = ValueError x.
Proof.
  unfold decode_int. destruct v as [s|]; [|intros H; inversion H; now left].
  intros H. apply TaskC_facts.int_error in H. right. eauto.
Qed.

Lemma read_row_error (row : Csv.row) (e : exn) :
  read_row fromisoformat row = Err e ->
  (exists key, In key Spec.expected_columns /\ e = KeyError key)
  \/ e = TypeError \/ exists x, e = ValueError x.
Proof.
  unfold read_row, range3. cbn [comprehension].
  change (phase_key "Consumption" 0) with "Consumption phase 1 Wh".
  change (phase_key "Consumption" 1) with "Consumption phase 2 Wh".
  change (phase_key "Consumption" 2) with "Consumption phase 3 Wh".
  change (phase_key "Production" 0) with "Production phase 1 Wh".
  change (phase_key "Production" 1) with "Production phase 2 Wh".
  change (phase_key "Production" 2) with "Production phase 3 Wh".
  intros H.
  repeat match type of H with
  | context [bind ?r _] =>
      lazymatch r with
      | context [bind _ _] => fail
      | _ =>
        let E := fresh "E" in
        destruct r eqn:E; cbn [bind] in H;
        [ | inversion H; subst;
            first [ apply getkey_error in E; subst; left; eexists;
                    split; [|reflexivity]; cbn; tauto
                  | right; eapply decode_time_error; eassumption
                  | right; eapply decode_int_error; eassumption ] ]
      end
  end.
  discriminate H.
Qed.

(** The reader stops at the first record that [read_row] refuses. *)
Lemma read_data_stops (fieldnames bad : list string) (pre post : list (list string))
    (rows : list MeterRow) (e : exn) :
  read_data fromisoformat (fieldnames :: pre) = Ok rows ->
  bad <> [] ->
  read_row fromisoformat (Csv.make_row fieldnames bad) = Err e ->
  read_data fromisoformat (fieldnames :: pre ++ bad :: post) = Err e.
Proof.
  intros Hpre Hbad He.
  unfold read_data in *. cbn [Csv.DictReader] in *.
  rewrite List.filter_app, map_app, for_each_app, Hpre. cbn [bind List.filter].
  destruct bad; [congruence|]. cbn [Csv.nonempty map for_each].
  rewrite He. reflexivity.
Qed.

(** X13. [read_data] stops at the first record it cannot read: it returns no
    row, of that record, of an earlier or of a later one, and [main] of
    TaskD ends with the same exception, which is a [KeyError] for a column
    the header lacks, a [TypeError] for a field the record lacks, or the
    [ValueError] of a timestamp or a number. *)
Theorem bad_record_stops_read_data
    (fieldnames bad : list string) (pre post : list (list string))
    (rows : list MeterRow) (e : exn) :
  read_data fromisoformat (fieldnames :: pre) = Ok rows ->
  bad <> [] ->
  read_row fromisoformat (Csv.make_row fieldnames bad) = Err e ->
  read_data fromisoformat (fieldnames :: pre ++ bad :: post) = Err e
  /\ TaskD.main fromisoformat (fieldnames :: pre ++ bad :: post) = Err e
  /\ ((exists key, In key Spec.expected_columns /\ e = KeyError key)
      \/ e = TypeError \/ exists x, e = ValueError x).
Proof.
  intros Hpre Hbad He.
  pose proof (read_data_stops fieldnames bad pre post rows e Hpre Hbad He) as H.
  split; [exact H|]. split.
  - unfold TaskD.main, TaskD.read_data. now rewrite H.
  - exact (read_row_error _ e He).
Qed.

(** *** Records shorter or longer than the header *)

Ltac binds_deep H :=
  repeat match type of H with
  | context [bind ?r _] =>
      lazymatch r with
      | context [bind _ _] => fail
      | _ =>
        let E := fresh "E" in
        destruct r eqn:E; cbn [bind] in H; [|discriminate H]
      end
  end.

Ltac truncated_step :=
  match goal with
  | |- context [Csv.getkey ?row2 ?key] =>
    match goal with
    | Hk : row2 !! key = ?row1 !! key \/ row2 !! key = Some None,
      E : Csv.getkey ?row1 key = Ok ?v |- _ =>
        destruct Hk as [Hk|Hk];
        [ replace (Csv.getkey row2 key) with (Csv.getkey row1 key)
            by (unfold Csv.getkey; now rewrite Hk);
          rewrite E; cbn [bind];
          match goal with
          | Ed : ?dec = Ok _ |- context [?dec] => rewrite Ed
          end;
          cbn [bind]
        | replace (Csv.getkey row2 key) with (Ok (A := option string) None)
            by (unfold Csv.getkey; now rewrite Hk);
          cbn [bind decode_time decode_int]; reflexivity ]
    end
  end.

(** A row that lacks the value of a column, and has the values of another
    row in the columns before it, is refused with [TypeError] when that
    other row is read. *)
Lemma read_row_truncated (row1 row2 : Csv.row) (r : MeterRow) :
  read_row fromisoformat row1 = Ok r ->
  (forall key, In key Spec.expected_columns ->
               row2 !! key = row1 !! key \/ row2 !! key = Some None) ->
  (exists key, In key Spec.expected_columns /\ row2 !! key = Some None) ->
  read_row fromisoformat row2 = Err TypeError.
Proof.
  unfold read_row, range3. cbn [comprehension].
  change (phase_key "Consumption" 0) with "Consumption phase 1 Wh".
  change (phase_key "Consumption" 1) with "Consumption phase 2 Wh".
  change (phase_key "Consumption" 2) with "Consumption phase 3 Wh".
  change (phase_key "Production" 0) with "Production phase 1 Wh".
  change (phase_key "Production" 1) with "Production phase 2 Wh".
  change (phase_key "Production" 2) with "Production phase 3 Wh".
  intros H1 Hkeys Hex. binds_deep H1.
  pose proof (Hkeys "Time" ltac:(cbn; tauto)) as K0.
  pose proof (Hkeys "Consumption phase 1 Wh" ltac:(cbn; tauto)) as K1.
  pose proof (Hkeys "Consumption phase 2 Wh" ltac:(cbn; tauto)) as K2.
  pose proof (Hkeys "Consumption phase 3 Wh" ltac:(cbn; tauto)) as K3.
  pose proof (Hkeys "Production phase 1 Wh" ltac:(cbn; tauto)) as K4.
  pose proof (Hkeys "Production phase 2 Wh" ltac:(cbn; tauto)) as K5.
  pose proof (Hkeys "Production phase 3 Wh" ltac:(cbn; tauto)) as K6.
  clear Hkeys.
  do 7 (truncated_step; []).
  exfalso. destruct Hex as (key & Hin & Hnone). cbn in Hin.
  repeat match type of Hin with
         | _ \/ _ => destruct Hin as [<-|Hin]
         end; try contradiction;
    match goal with
    | Hk : row2 !! ?key = row1 !! ?key, E : Csv.getkey row1 ?key = Ok ?v |- _ =>
        match type of Hnone with
        | row2 !! key = _ =>
            rewrite Hk in Hnone; unfold Csv.getkey in E; rewrite Hnone in E;
            inversion E; subst
        end
    end;
    match goal with
    | Ed : decode_int None = Ok _ |- _ => discriminate Ed
    | Ed : decode_time _ None = Ok _ |- _ => discriminate Ed
    end.
Qed.

Lemma in_lookup (l : list string) (key : string) :
  In key l -> exists i, l !! i = Some key.
Proof. intros H. now apply list_elem_of_In, list_elem_of_lookup in H. Qed.

(** X14. A record cut short is refused with [TypeError]: when a record is
    read, the same record with only its first [k] fields, where a column
    that [read_data] reads stands at place [k] or later in the header, makes
    [read_data] raise [TypeError], for [csv.DictReader] gives the missing
    fields the value [None]. *)
Theorem short_record_raises_type_error
    (fieldnames full : list string) (pre post : list (list string))
    (rows : list MeterRow) (r : MeterRow) (k : nat) :
  NoDup fieldnames ->
  read_data fromisoformat (fieldnames :: pre) = Ok rows ->
  read_row fromisoformat (Csv.make_row fieldnames full) = Ok r ->
  (0 < k)%nat ->
  (exists key i, In key Spec.expected_columns /\ fieldnames !! i = Some key
                 /\ (k <= i)%nat) ->
  read_row fromisoformat (Csv.make_row fieldnames (take k full)) = Err TypeError
  /\ read_data fromisoformat (fieldnames :: pre ++ take k full :: post) = Err TypeError.
Proof.
  intros Hnd Hpre Hfull Hk (key & i & Hin & Hi & Hki).
  assert (Hrow : read_row fromisoformat (Csv.make_row fieldnames (take k full))
                 = Err TypeError).
  { apply (read_row_truncated (Csv.make_row fieldnames full) _ r Hfull).
    - intros key' Hin'.
      destruct (In_dec string_dec key' fieldnames) as [Hf|Hf].
      + apply in_lookup in Hf as [j Hj].
        rewrite !(make_row_lookup _ _ j key' Hnd Hj).
        destruct (Nat.lt_ge_cases j k) as [Hlt|Hge].
        * left. now rewrite lookup_take_lt.
        * right. now rewrite lookup_take_ge.
      + left. now rewrite !Reader_facts.make_row_lookup_absent.
    - exists key. split; [exact Hin|].
      rewrite (make_row_lookup _ _ i key Hnd Hi). now rewrite lookup_take_ge. }
  split; [exact Hrow|].
  assert (Hne : take k full <> []).
  { destruct full as [|a full]; [|destruct k; [lia | discriminate]].
    exfalso. rewrite take_nil in Hrow. rewrite Hrow in Hfull. discriminate Hfull. }
  exact (read_data_stops fieldnames (take k full) pre post rows TypeError Hpre Hne Hrow).
Qed.

(** X15. Fields beyond the header are not read: a record as long as the
    header and the same record with further fields are read as the same
    row, and the file gives the same result. *)
Theorem fields_beyond_the_header_are_ignored
    (fieldnames full more : list string) (pre post : list (list string)) :
  NoDup fieldnames -> length full = length fieldnames -> full <> [] ->
  read_row fromisoformat (Csv.make_row fieldnames (full ++ more)%list)
  = read_row fromisoformat (Csv.make_row fieldnames full)
  /\ read_data fromisoformat (fieldnames :: pre ++ (full ++ more) :: post)%list
     = read_data fromisoformat (fieldnames :: pre ++ full :: post)%list.
Proof.
  intros Hnd Hlen Hne.
  assert (Hrow : Csv.make_row fieldnames (full ++ more)%list
                 = Csv.make_row fieldnames full).
  { apply map_eq. intros key.
    destruct (In_dec string_dec key fieldnames) as [Hf|Hf].
    - apply in_lookup in Hf as [j Hj].
      rewrite !(make_row_lookup _ _ j key Hnd Hj).
      apply lookup_lt_Some in Hj. rewrite lookup_app_l by lia. reflexivity.
    - now rewrite !Reader_facts.make_row_lookup_absent. }
  split; [now rewrite Hrow|].
  unfold read_data. cbn [Csv.DictReader].
  rewrite !List.filter_app, !map_app. cbn [List.filter].
  destruct full as [|a full]; [congruence|]. cbn [app Csv.nonempty map].
  change (a :: (full ++ more)%list) with ((a :: full) ++ more)%list.
  now rewrite Hrow.
Qed.

End Records.

(** A file of two records, with an empty line between them. *)
Lemma read_data_rows_are_well_shaped_witness :
  let at_hour h := {| Datetime.dt_date := {| Datetime.year := 2025; Datetime.month := 10;
                                             Datetime.day := 13 |};
                      Datetime.dt_time := {| Datetime.hour := h; Datetime.minute := 0;
                                             Datetime.second := 0 |} |} in
  let fromisoformat s :=
    if String.eqb s "2025-10-13T00:00:00" then Some (at_hour 0)
    else if String.eqb s "2025-10-13T01:00:00" then Some (at_hour 1)
    else None in
  exists r0 r1,
    read_data fromisoformat
      [ Spec.expected_columns;
        ["2025-10-13T00:00:00"; "1000"; "200"; "300"; "0"; "0"; "5"];
        [];
        ["2025-10-13T01:00:00"; "2000"; "200"; "300"; "0"; "0"; "0"] ] = Ok [r0; r1]
    /\ timestamp r0 = at_hour 0 /\ consumption r0 = [1000; 200; 300]
    /\ timestamp r1 = at_hour 1 /\ consumption r1 = [2000; 200; 300].
Proof.
  cbv zeta.
  set (fromisoformat := fun s : string =>
    if String.eqb s "2025-10-13T00:00:00"
    then Some {| Datetime.dt_date := {| Datetime.year := 2025; Datetime.month := 10;
                                        Datetime.day := 13 |};
                 Datetime.dt_time := {| Datetime.hour := 0; Datetime.minute := 0;
                                        Datetime.second := 0 |} |}
    else if String.eqb s "2025-10-13T01:00:00"
    then Some {| Datetime.dt_date := {| Datetime.year := 2025; Datetime.month := 10;
                                        Datetime.day := 13 |};
                 Datetime.dt_time := {| Datetime.hour := 1; Datetime.minute := 0;
                                        Datetime.second := 0 |} |}
    else None).
  assert (H : exists rows,
    read_data fromisoformat
      [ Spec.expected_columns;
        ["2025-10-13T00:00:00"; "1000"; "200"; "300"; "0"; "0"; "5"];
        [];
        ["2025-10-13T01:00:00"; "2000"; "200"; "300"; "0"; "0"; "0"] ] = Ok rows)
    by (eexists; vm_compute; reflexivity).
  destruct H as [rows H].
  destruct (read_data_rows_are_well_shaped fromisoformat _ rows H) as (Hrows & _ & _).
  cbn [hd tail List.filter Csv.nonempty] in Hrows.
  inversion Hrows as [|? r0 ? rows0 H0 Hrows0]; subst.
  inversion Hrows0 as [|? r1 ? rows1 H1 Hrows1]; subst.
  inversion Hrows1; subst.
  exists r0, r1. split; [exact H|].
  vm_compute in H0. vm_compute in H1. inversion H0; inversion H1; subst.
  repeat split; reflexivity.
Defined.

(** A file whose second record holds a reading that is no number. *)
Lemma bad_record_stops_read_data_witness :
  read_data (fun _ => Some {| Datetime.dt_date := Datetime.epoch_day;
                              Datetime.dt_time := Datetime.midnight |})
    [ Spec.expected_columns;
      ["2025-10-13T00:00:00"; "1000"; "200"; "300"; "0"; "0"; "5"];
      ["2025-10-13T01:00:00"; "1"; "x"; "3"; "4"; "5"; "6"];
      ["2025-10-13T02:00:00"; "2000"; "200"; "300"; "0"; "0"; "0"] ]
  = Err (ValueError (InvalidIntLiteral "x")).
Proof.
  assert (Hpre : exists rows,
    read_data (fun _ => Some {| Datetime.dt_date := Datetime.epoch_day;
                                Datetime.dt_time := Datetime.midnight |})
      [ Spec.expected_columns;
        ["2025-10-13T00:00:00"; "1000"; "200"; "300"; "0"; "0"; "5"] ] = Ok rows)
    by (eexists; vm_compute; reflexivity).
  destruct Hpre as [rows Hpre].
  assert (He : read_row (fun _ => Some {| Datetime.dt_date := Datetime.epoch_day;
                                          Datetime.dt_time := Datetime.midnight |})
                 (Csv.make_row Spec.expected_columns
                    ["2025-10-13T01:00:00"; "1"; "x"; "3"; "4"; "5"; "6"])
               = Err (ValueError (InvalidIntLiteral "x")))
    by (vm_compute; reflexivity).
  assert (Hne : ["2025-10-13T01:00:00"; "1"; "x"; "3"; "4"; "5"; "6"] <> [])
    by discriminate.
  exact (proj1 (bad_record_stops_read_data _ Spec.expected_columns _
                  [["2025-10-13T00:00:00"; "1000"; "200"; "300"; "0"; "0"; "5"]]
                  [["2025-10-13T02:00:00"; "2000"; "200"; "300"; "0"; "0"; "0"]]
                  rows _ Hpre Hne He)).
Defined.

Lemma expected_columns_differ : NoDup Spec.expected_columns.
Proof. refine (bool_decide_unpack _ _). vm_compute. reflexivity. Qed.

(** A file whose second record ends after its second reading. *)
Lemma short_record_raises_type_error_witness :
  read_data (fun _ => Some {| Datetime.dt_date := Datetime.epoch_day;
                              Datetime.dt_time := Datetime.midnight |})
    [ Spec.expected_columns;
      ["2025-10-13T00:00:00"; "1000"; "200"; "300"; "0"; "0"; "5"];
      ["2025-10-13T01:00:00"; "1"; "2"] ]
  = Err TypeError.
Proof.
  assert (Hpre : exists rows,
    read_data (fun _ => Some {| Datetime.dt_date := Datetime.epoch_day;
                                Datetime.dt_time := Datetime.midnight |})
      [ Spec.expected_columns;
        ["2025-10-13T00:00:00"; "1000"; "200"; "300"; "0"; "0"; "5"] ] = Ok rows)
    by (eexists; vm_compute; reflexivity).
  destruct Hpre as [rows Hpre].
  assert (Hfull : exists r,
    read_row (fun _ => Some {| Datetime.dt_date := Datetime.epoch_day;
                               Datetime.dt_time := Datetime.midnight |})
      (Csv.make_row Spec.expected_columns
         ["2025-10-13T01:00:00"; "1"; "2"; "3"; "4"; "5"; "6"]) = Ok r)
    by (eexists; vm_compute; reflexivity).
  destruct Hfull as [r Hfull].
  assert (Hk : (0 < 3)%nat) by lia.
  assert (Hcol : exists key i, In key Spec.expected_columns
                               /\ Spec.expected_columns !! i = Some key /\ (3 <= i)%nat).
  { exists "Consumption phase 3 Wh", 3%nat. split; [cbn; tauto|].
    split; [reflexivity | lia]. }
  exact (proj2 (short_record_raises_type_error _ Spec.expected_columns
                  ["2025-10-13T01:00:00"; "1"; "2"; "3"; "4"; "5"; "6"]
                  [["2025-10-13T00:00:00"; "1000"; "200"; "300"; "0"; "0"; "5"]] []
                  rows r 3 expected_columns_differ Hpre Hfull Hk Hcol)).
Defined.

(** A record of eight fields under the header of seven columns. *)
Lemma fields_beyond_the_header_are_ignored_witness :
  read_data (fun _ => Some {| Datetime.dt_date := Datetime.epoch_day;
                              Datetime.dt_time := Datetime.midnight |})
    [ Spec.expected_columns;
      ["2025-10-13T00:00:00"; "1000"; "200"; "300"; "0"; "0"; "5"; "checked"] ]
  = read_data (fun _ => Some {| Datetime.dt_date := Datetime.epoch_day;
                                Datetime.dt_time := Datetime.midnight |})
      [ Spec.expected_columns;
        ["2025-10-13T00:00:00"; "1000"; "200"; "300"; "0"; "0"; "5"] ].
Proof.
  assert (Hlen : length ["2025-10-13T00:00:00"; "1000"; "200"; "300"; "0"; "0"; "5"]
                 = length Spec.expected_columns) by reflexivity.
  assert (Hne : ["2025-10-13T00:00:00"; "1000"; "200"; "300"; "0"; "0"; "5"] <> [])
    by discriminate.
  exact (proj2 (fields_beyond_the_header_are_ignored _ Spec.expected_columns
                  ["2025-10-13T00:00:00"; "1000"; "200"; "300"; "0"; "0"; "5"]
                  ["checked"] [] [] expected_columns_differ Hlen Hne)).
Defined.

End Records_facts.

(** ** TaskD and TaskE: from the rows to the report *)
Module Totals_facts.
Import PyStr TaskE Lines_facts.

(** *** The exceptions of the aggregator *)

Lemma add_phases_error (entry : MeterRow) (c0 c1 c2 p0 p1 p2 : PyNum.float) (e : exn) :
  length (consumption entry) = 3%nat -> length (production entry) = 3%nat ->
  for_each (add_phase entry) range3 {| cons := [c0; c1; c2]; prod := [p0; p1; p2] |}
  = Err e ->
  e = OverflowError.
Proof.
  intros Hc Hp. unfold range3, add_phase, getitem.
  destruct (consumption entry) as [|a0 [|a1 [|a2 [|? ?]]]]; try discriminate Hc.
  destruct (production entry) as [|b0 [|b1 [|b2 [|? ?]]]]; try discriminate Hp.
  cbn [for_each bind lookup list_lookup cons prod insert list_insert].
  repeat match goal with
  | |- context [PyNum.of_int ?z] =>
      let E := fresh "E" in
      destruct (PyNum.of_int z) eqn:E;
      cbn [for_each bind lookup list_lookup cons prod insert list_insert];
      [ | intros H; inversion H; subst; now apply of_int_error in E ]
  end.
  discriminate.
Qed.

Lemma add_entry_error (daily : gmap Datetime.date totals) (entry : MeterRow) (e : exn) :
  Spec.three_phases daily ->
  length (consumption entry) = 3%nat -> length (production entry) = 3%nat ->
  add_entry daily entry = Err e -> e = OverflowError.
Proof.
  intros Hinv Hc Hp. unfold add_entry.
  assert (Hshape : exists c0 c1 c2 p0 p1 p2,
    match daily !! date entry with Some t => t | None => zero_totals end
    = {| cons := [c0; c1; c2]; prod := [p0; p1; p2] |}).
  { destruct (daily !! date entry) as [t|] eqn:E.
    - apply (Hinv _ _ E).
    - unfold zero_totals. repeat eexists. }
  destruct Hshape as (c0 & c1 & c2 & p0 & p1 & p2 & ->).
  destruct (for_each (add_phase entry) range3 _) as [t'|e'] eqn:E; [discriminate|].
  cbn [bind]. intros H. inversion H; subst.
  exact (add_phases_error entry c0 c1 c2 p0 p1 p2 e Hc Hp E).
Qed.

Lemma for_each_add_entry_error (rows : list MeterRow) (e : exn) :
  forall daily0 : gmap Datetime.date totals,
    Spec.three_phases daily0 ->
    Forall (fun r => length (consumption r) = 3%nat /\ length (production r) = 3%nat) rows ->
    for_each add_entry rows daily0 = Err e -> e = OverflowError.
Proof.
  induction rows as [|r rows IH]; intros daily0 Hinv Hrows; [discriminate|].
  inversion Hrows as [|? ? [Hc Hp] Hrows']; subst. cbn [for_each].
  destruct (add_entry daily0 r) as [daily1|e'] eqn:E1; cbn [bind].
  - apply IH; [|exact Hrows'].
    exact (TaskE_facts.add_entry_three_phases _ _ _ Hinv E1).
  - intros H. inversion H; subst. exact (add_entry_error _ _ _ Hinv Hc Hp E1).
Qed.

Lemma print_table_returns (daily : gmap Datetime.date totals) :
  exists lines, TaskD.print_table daily = Ok lines.
Proof.
  unfold TaskD.print_table.
  destruct (Table_facts.sorted_dates_spec daily) as (_ & Hin & _).
  edestruct (Table_facts.table_rows_return daily (sorted_dates daily))
    as (rows & -> & _); [intros d; apply Hin|]. eauto.
Qed.

Section Pipeline.
Variable fromisoformat : string -> option Datetime.datetime.

(** X16. Once [read_data] has returned, the rest of the report of TaskD can
    only fail with [OverflowError]: the aggregator finds three readings of
    each kind in every row, and the table is printed for every mapping. With
    readings below [2^53] in magnitude the report is printed. *)
Theorem after_reading_only_overflow_can_fail
    (records : list (list string)) (rows : list MeterRow) :
  read_data fromisoformat records = Ok rows ->
  (forall e, compute_daily_totals rows = Err e ->
             e = OverflowError /\ TaskD.main fromisoformat records = Err OverflowError)
  /\ (forall daily, compute_daily_totals rows = Ok daily ->
                    exists lines, TaskD.print_table daily = Ok lines
                                  /\ TaskD.main fromisoformat records = Ok lines)
  /\ (Forall (fun r => Forall (fun wh => Z.abs wh < 2 ^ 53)
                              (consumption r ++ production r)) rows ->
      exists daily, compute_daily_totals rows = Ok daily).
Proof.
  intros Hread.
  pose proof (Records_facts.three_readings_a_row fromisoformat records rows Hread)
    as Hshape.
  split; [|split].
  - intros e He.
    assert (e = OverflowError).
    { apply (for_each_add_entry_error rows e ∅ TaskE_facts.three_phases_empty);
        [|exact He].
      exact Hshape. }
    subst e. split; [reflexivity|].
    unfold TaskD.main, TaskD.read_data, TaskD.compute_daily_totals.
    rewrite Hread. cbn [bind]. now rewrite He.
  - intros daily Hd. destruct (print_table_returns daily) as [lines Hl].
    exists lines. split; [exact Hl|].
    unfold TaskD.main, TaskD.read_data, TaskD.compute_daily_totals.
    rewrite Hread. cbn [bind]. rewrite Hd. exact Hl.
  - intros Hsmall. apply TaskE_facts.compute_daily_totals_returns.
    rewrite Forall_forall in Hshape, Hsmall. apply Forall_forall. intros r Hr.
    destruct (Hshape r Hr) as (Hc & Hp). specialize (Hsmall r Hr).
    apply Forall_app in Hsmall as [Hsc Hsp].
    unfold Spec.well_formed. repeat split; assumption.
Qed.

End Pipeline.

(** A file of one record. *)
Lemma after_reading_only_overflow_can_fail_witness :
  exists lines,
    TaskD.main (fun _ => Some {| Datetime.dt_date := Datetime.epoch_day;
                                 Datetime.dt_time := Datetime.midnight |})
      [ Spec.expected_columns;
        ["2025-10-13T00:00:00"; "1000"; "200"; "300"; "0"; "0"; "5"] ] = Ok lines.
Proof.
  assert (H : read_data (fun _ => Some {| Datetime.dt_date := Datetime.epoch_day;
                                          Datetime.dt_time := Datetime.midnight |})
      [ Spec.expected_columns;
        ["2025-10-13T00:00:00"; "1000"; "200"; "300"; "0"; "0"; "5"] ]
    = Ok [ {| timestamp := {| Datetime.dt_date := Datetime.epoch_day;
                              Datetime.dt_time := Datetime.midnight |};
              date := Datetime.epoch_day;
              consumption := [1000; 200; 300]; production := [0; 0; 5] |} ])
    by (vm_compute; reflexivity).
  destruct (after_reading_only_overflow_can_fail _ _ _ H) as (_ & Hok & Hsmall).
  destruct Hsmall as [daily Hd]; [repeat constructor; cbn; lia|].
  destruct (Hok daily Hd) as (lines & _ & Hm). exists lines. exact Hm.
Defined.

(** *** The dates of the result *)

(** X17. The result has one entry for each date that occurs in the rows
    and no other, so never more entries than rows; without rows it is
    empty. *)
Theorem every_date_gets_an_entry (rows : list MeterRow)
    (daily : gmap Datetime.date totals) :
  compute_daily_totals rows = Ok daily ->
  dom daily = list_to_set (map date rows)
  /\ (size daily <= length rows)%nat
  /\ compute_daily_totals [] = Ok ∅.
Proof.
  intros H.
  assert (Hdom : forall d, d ∈ dom daily <-> In d (map date rows)).
  { intros d. rewrite (TaskE_facts.compute_daily_totals_dom _ _ d H), in_map_iff.
    split; intros (r & H1 & H2); exists r; tauto. }
  split; [|split; [|reflexivity]].
  - apply set_eq. intros d. rewrite Hdom, elem_of_list_to_set.
    symmetry. apply list_elem_of_In.
  - rewrite <- size_dom. unfold size, set_size. cbn.
    rewrite <- (length_map date rows).
    apply NoDup_incl_length.
    + apply NoDup_ListNoDup, NoDup_elements.
    + intros d Hd. apply Hdom, elem_of_elements, list_elem_of_In. exact Hd.
Qed.

(** Three rows on two days. *)
Lemma every_date_gets_an_entry_witness :
  let row d wh :=
    {| timestamp := {| Datetime.dt_date := {| Datetime.year := 2025; Datetime.month := 10;
                                              Datetime.day := d |};
                       Datetime.dt_time := Datetime.midnight |};
       date := {| Datetime.year := 2025; Datetime.month := 10; Datetime.day := d |};
       consumption := [wh; 0; 0]; production := [0; 0; 0] |} in
  exists daily,
    compute_daily_totals [row 13 100; row 14 200; row 13 300] = Ok daily
    /\ dom daily = list_to_set (map date [row 13 100; row 14 200; row 13 300])
    /\ (size daily <= 3)%nat.
Proof.
  cbv zeta.
  destruct (TaskE_facts.compute_daily_totals_returns
    [ {| timestamp := {| Datetime.dt_date := {| Datetime.year := 2025; Datetime.month := 10;
                                                Datetime.day := 13 |};
                         Datetime.dt_time := Datetime.midnight |};
         date := {| Datetime.year := 2025; Datetime.month := 10; Datetime.day := 13 |};
         consumption := [100; 0; 0]; production := [0; 0; 0] |};
      {| timestamp := {| Datetime.dt_date := {| Datetime.year := 2025; Datetime.month := 10;
                                                Datetime.day := 14 |};
                         Datetime.dt_time := Datetime.midnight |};
         date := {| Datetime.year := 2025; Datetime.month := 10; Datetime.day := 14 |};
         consumption := [200; 0; 0]; production := [0; 0; 0] |};
      {| timestamp := {| Datetime.dt_date := {| Datetime.year := 2025; Datetime.month := 10;
                                                Datetime.day := 13 |};
                         Datetime.dt_time := Datetime.midnight |};
         date := {| Datetime.year := 2025; Datetime.month := 10; Datetime.day := 13 |};
         consumption := [300; 0; 0]; production := [0; 0; 0] |} ]) as [daily Hd].
  { repeat constructor; cbn; lia. }
  exists daily. split; [exact Hd|].
  destruct (every_date_gets_an_entry _ daily Hd) as (Hdom & Hsize & _).
  split; [exact Hdom | exact Hsize].
Defined.

End Totals_facts.

(** ** TaskD and TaskE: amounts *)
Module Amount_facts.
Import PyStr PyNum PyStr_facts PyNum_facts Calendar_facts.

Lemma digits_value_str (n : Z) : 0 <= n -> Z.of_N (digits_value (str n)) = n.
Proof.
  intros Hn.
  assert (Hs : str n = NilEmpty.string_of_uint (N.to_uint (Z.to_N n)))
    by (destruct n; [reflexivity | reflexivity | lia]).
  rewrite Hs, digits_value_uint, DecimalN.Unsigned.of_to. lia.
Qed.

Lemma isdigit_str (n : Z) : 0 <= n -> isdigit (str n) = true.
Proof.
  intros Hn.
  assert (Hs : str n = NilEmpty.string_of_uint (N.to_uint (Z.to_N n)))
    by (destruct n; [reflexivity | reflexivity | lia]).
  rewrite Hs. apply isdigit_uint.
  destruct (Z.to_N n) as [|p]; [discriminate|].
  apply DecimalPos.Unsigned.to_uint_nonnil.
Qed.

Lemma digits_value_two_digits (k : Z) :
  0 <= k < 100 -> Z.of_N (digits_value (zfill 2 (str k))) = k.
Proof.
  intros Hk. apply Z.eqb_eq.
  apply (below_cases (fun k => Z.of_N (digits_value (zfill 2 (str k))) =? k) 100);
    [vm_compute; reflexivity | exact Hk].
Qed.

Lemma hundredths_nonneg (m : positive) (e : Z) : 0 <= hundredths m e.
Proof.
  unfold hundredths. destruct (0 <=? e) eqn:He.
  - apply Z.leb_le in He.
    pose proof (Z.pow_pos_nonneg 2 e ltac:(lia) He). nia.
  - apply Z.leb_gt in He.
    assert (Hd : 0 < 2 ^ (- e)) by (apply Z.pow_pos_nonneg; lia).
    pose proof (round_half_even_nearest (Zpos m * 100) (2 ^ (- e)) Hd) as [Hn _].
    nia.
Qed.

(** X18. [format_kwh] writes a finite value as its sign, the digits of the
    integer part, a comma and two digits; the number so written is the
    number of hundredths nearest to the value: the value itself when it is a
    whole number of hundredths, and within half a hundredth of it
    otherwise. Zero is written [0,00]; infinities and the value that is no
    number are written as words. *)
Theorem format_kwh_writes_nearest_hundredth (x : float) :
  match x with
  | S754_finite s m e =>
      exists ip fp : string,
        TaskE.format_kwh x = sign_text s +:+ ip +:+ "," +:+ fp
        /\ isdigit ip = true
        /\ Spec.shape "dd" fp = true
        /\ (let c := 100 * Z.of_N (digits_value ip) + Z.of_N (digits_value fp) in
            if 0 <=? e then c = 100 * (Zpos m * 2 ^ e)
            else Z.abs (2 * (100 * Zpos m) - 2 * c * 2 ^ (- e)) <= 2 ^ (- e))
  | S754_zero s => TaskE.format_kwh x = sign_text s +:+ "0,00"
  | S754_infinity s => TaskE.format_kwh x = sign_text s +:+ "inf"
  | S754_nan => TaskE.format_kwh x = "nan"
  end.
Proof.
  unfold TaskE.format_kwh. rewrite replace_format_2f.
  destruct x as [s|s| |s m e]; try reflexivity.
  cbn [Spec.amount].
  pose proof (hundredths_nonneg m e) as Hc.
  pose proof (Z.div_mod (hundredths m e) 100 ltac:(lia)) as Hdm.
  pose proof (Z.mod_pos_bound (hundredths m e) 100 ltac:(lia)) as Hmod.
  assert (Hdiv : 0 <= hundredths m e / 100) by (apply Z.div_pos; lia).
  exists (str (hundredths m e / 100)), (zfill 2 (str (hundredths m e mod 100))).
  split; [reflexivity|]. split; [now apply isdigit_str|].
  split; [apply two_digits; lia|].
  cbv zeta. rewrite (digits_value_str _ Hdiv), (digits_value_two_digits _ Hmod).
  rewrite <- Hdm. unfold hundredths. destruct (0 <=? e) eqn:He; [lia|].
  apply Z.leb_gt in He.
  assert (Hd : 0 < 2 ^ (- e)) by (apply Z.pow_pos_nonneg; lia).
  pose proof (round_half_even_nearest (Zpos m * 100) (2 ^ (- e)) Hd) as [Hn _].
  replace (100 * Zpos m) with (Zpos m * 100) by lia. exact Hn.
Qed.

End Amount_facts.

(** ** TaskE: the names of the files *)
Module Files_facts.
Import PyStr TaskE PyStr_facts.

(** *** Names *)

Lemma prefix_append (p s : string) : String.prefix p (p +:+ s) = true.
Proof.
  induction p as [|c p IH]; [now destruct s|].
  rewrite append_cons. cbn [String.prefix].
  destruct (ascii_dec c c) as [_|Hne]; [exact IH | congruence].
Qed.

Lemma prefix_split (p s : string) :
  String.prefix p s = true -> exists t, s = p +:+ t.
Proof.
  revert s. induction p as [|c p IH]; intros s H.
  - exists s. reflexivity.
  - destruct s as [|c' s]; [discriminate H|]. cbn [String.prefix] in H.
    destruct (ascii_dec c c') as [<-|Hne]; [|discriminate H].
    destruct (IH s H) as [t ->]. exists t. reflexivity.
Qed.

Lemma rev_acc_append (a b acc : string) :
  rev_acc (a +:+ b) acc = rev_acc b (rev_acc a acc).
Proof.
  revert acc. induction a as [|c a IH]; intros acc; [reflexivity|].
  rewrite append_cons. cbn [rev_acc]. apply IH.
Qed.

Lemma rev_acc_acc (s acc : string) : rev_acc s acc = rev_acc s "" +:+ acc.
Proof.
  revert acc. induction s as [|c s IH]; intros acc; [reflexivity|].
  cbn [rev_acc]. rewrite (IH (String c acc)), (IH (String c "")).
  now rewrite append_assoc.
Qed.

Lemma rev_acc_involutive (s : string) : rev_acc (rev_acc s "") "" = s.
Proof.
  induction s as [|c s IH]; [reflexivity|].
  cbn [rev_acc]. rewrite (rev_acc_acc s (String c "")), rev_acc_append.
  cbn [rev_acc]. now rewrite IH.
Qed.

Lemma endswith_append (z p : string) : endswith p (z +:+ p) = true.
Proof.
  unfold endswith. rewrite rev_acc_append, (rev_acc_acc p (rev_acc z "")).
  apply prefix_append.
Qed.

Lemma endswith_split (p s : string) : endswith p s = true -> exists z, s = z +:+ p.
Proof.
  unfold endswith. intros H. apply prefix_split in H as [t Ht].
  exists (rev_acc t "").
  rewrite <- (rev_acc_involutive s), Ht, rev_acc_append, rev_acc_involutive.
  apply rev_acc_acc.
Qed.

Lemma rfind_dot_csv (a : string) (i : nat) :
  rfind_dot (a +:+ ".csv") i = Some (i + String.length a)%nat.
Proof.
  revert i. induction a as [|c a IH]; intros i.
  - cbn. f_equal. lia.
  - rewrite append_cons. cbn [rfind_dot String.length]. rewrite IH. f_equal. lia.
Qed.

Lemma substring_append (a b : string) : String.substring 0 (String.length a) (a +:+ b) = a.
Proof.
  induction a as [|c a IH]; [now destruct b|].
  rewrite append_cons. cbn [String.length String.substring]. now rewrite IH.
Qed.

Lemma stem_csv (a : string) : a <> "" -> stem (a +:+ ".csv") = a.
Proof.
  intros Ha. unfold stem. rewrite rfind_dot_csv. cbn [Nat.add].
  rewrite length_append. cbn [String.length].
  assert (Hlen : (0 < String.length a)%nat) by (destruct a; [congruence | cbn; lia]).
  replace ((0 <? String.length a) && (String.length a <? String.length a + 4 - 1))%nat
    with true.
  - apply substring_append.
  - symmetry. apply andb_true_intro. split; apply Nat.ltb_lt; lia.
Qed.

Lemma filter_chars_append (p : ascii -> bool) (a b : string) :
  filter_chars p (a +:+ b) = filter_chars p a +:+ filter_chars p b.
Proof.
  induction a as [|c a IH]; [reflexivity|].
  rewrite append_cons. cbn [filter_chars]. destruct (p c); [|exact IH].
  rewrite append_cons. now rewrite IH.
Qed.

(** The names that [week*.csv] selects. *)
Lemma glob_week_csv_names (name : string) :
  glob_week_csv name = true <-> exists x, name = "week" +:+ x +:+ ".csv".
Proof.
  unfold glob_week_csv, startswith. split.
  - intros H. apply andb_prop in H as [H Hlen]. apply andb_prop in H as [Hp Hs].
    apply Nat.leb_le in Hlen.
    apply endswith_split in Hs as [z ->].
    rewrite length_append in Hlen. cbn [String.length] in Hlen.
    destruct z as [|c0 [|c1 [|c2 [|c3 x]]]]; cbn [String.length] in Hlen; try lia.
    exists x. rewrite !append_cons in Hp. cbn [String.prefix] in Hp.
    repeat match type of Hp with
           | (if ascii_dec ?a ?b then _ else _) = true =>
               destruct (ascii_dec a b) as [<-|?]; [|discriminate Hp]
           end.
    reflexivity.
  - intros [x ->]. apply andb_true_intro. split; [apply andb_true_intro; split|].
    + apply prefix_append.
    + rewrite <- append_assoc. apply endswith_append.
    + apply Nat.leb_le. rewrite !length_append. cbn [String.length]. lia.
Qed.

Lemma stem_week (x : string) : stem ("week" +:+ x +:+ ".csv") = "week" +:+ x.
Proof. rewrite <- append_assoc. apply stem_csv. discriminate. Qed.

(** The week number of a selected name, by the digits between [week] and
    [.csv]. *)
Lemma week_number_name (x : string) :
  Spec.week_number ("week" +:+ x +:+ ".csv")
  = Z.of_N (PyNum.digits_value (filter_chars is_digit x)).
Proof.
  unfold Spec.week_number. rewrite stem_week, filter_chars_append. reflexivity.
Qed.

(** X19. The driver selects exactly the names made of [week], any text and
    [.csv]. The week number of such a name is the number that the digits of
    that text write, read in order as one decimal numeral, and 0 when the
    text has no digit; the digits of the suffix have no part in it. The name
    is the name of a file, a text of ASCII of at most 255 characters: of the
    digits beyond ASCII, [int] refuses some, as it does numerals of
    thousands of digits. *)
Theorem selected_names_and_their_week (name : string) :
  Spec.file_name name ->
  (glob_week_csv name = true <-> exists x, name = "week" +:+ x +:+ ".csv")
  /\ forall x, name = "week" +:+ x +:+ ".csv" ->
       stem name = "week" +:+ x
       /\ week_number_of name
          = Ok (Z.of_N (PyNum.digits_value (filter_chars is_digit x))).
Proof.
  intros _. split; [apply glob_week_csv_names|].
  intros x ->. split; [apply stem_week|].
  rewrite Driver_facts.week_number_of_digits. now rewrite week_number_name.
Qed.

(** A name with a digit in its suffix and a zero before its number. *)
Lemma selected_names_and_their_week_witness :
  glob_week_csv "week07.csv3.csv" = true
  /\ week_number_of "week07.csv3.csv" = Ok 73.
Proof.
  assert (Ha : Spec.file_name "week07.csv3.csv")
    by (split; [vm_compute; reflexivity | cbn; lia]).
  destruct (selected_names_and_their_week "week07.csv3.csv" Ha) as [Hg Hw].
  assert (Hname : "week07.csv3.csv" = "week" +:+ "07.csv3" +:+ ".csv") by reflexivity.
  split.
  - apply Hg. exists "07.csv3". exact Hname.
  - destruct (Hw "07.csv3" Hname) as [_ Hn]. rewrite Hn. vm_compute. reflexivity.
Defined.

End Files_facts.

(** ** TaskE: the summary *)
Module Summary_facts.
Import PyStr TaskE PyStr_facts Lines_facts.

Lemma for_each_ext_in {A S} (body body' : S -> A -> result S) (l : list A) (acc : S) :
  (forall acc x, In x l -> body acc x = body' acc x) ->
  for_each body l acc = for_each body' l acc.
Proof.
  revert acc. induction l as [|x l IH]; intros acc H; cbn [for_each]; [reflexivity|].
  rewrite H by (left; reflexivity).
  destruct (body' acc x); cbn [bind]; [|reflexivity].
  apply IH. intros acc' y Hy. apply H. right. exact Hy.
Qed.

(** The names selected in two directories that hold the same files under
    the names that match. *)
Lemma csv_files_agree (dir dir' : gmap string (list (list string))) :
  (forall name, glob_week_csv name = true -> dir !! name = dir' !! name) ->
  csv_files dir = csv_files dir'.
Proof.
  intros H.
  destruct (Driver_facts.csv_files_spec dir) as (Hs & Hn & Hin).
  destruct (Driver_facts.csv_files_spec dir') as (Hs' & Hn' & Hin').
  apply (StronglySorted_unique String.le); [exact Hs | exact Hs' |].
  apply NoDup_Permutation; [exact Hn | exact Hn' |].
  intros name. rewrite !list_elem_of_In, Hin, Hin', !elem_of_dom.
  split; intros [Hd Hg]; (split; [|exact Hg]).
  - now rewrite <- (H name Hg).
  - now rewrite (H name Hg).
Qed.

Section Summary.
Variable fromisoformat : string -> option Datetime.datetime.

(** X20. A file whose name does not match is never read: two directories
    that hold the same files under the names [week*.csv] give the same
    summary, whatever else they hold; a directory without such a file gives
    the empty summary. *)
Theorem other_files_are_never_read (dir dir' : gmap string (list (list string))) :
  (forall name, glob_week_csv name = true -> dir !! name = dir' !! name) ->
  main fromisoformat dir = main fromisoformat dir'
  /\ (csv_files dir' = [] ->
      main fromisoformat dir = Ok ("", ["summary.txt created"])).
Proof.
  intros H.
  assert (Hmain : main fromisoformat dir = main fromisoformat dir').
  { unfold main. rewrite (csv_files_agree dir dir' H).
    rewrite (for_each_ext_in (process_file fromisoformat dir)
                             (process_file fromisoformat dir')); [reflexivity|].
    intros acc path Hpath. unfold process_file.
    apply (Driver_facts.csv_files_spec dir') in Hpath as [_ Hg].
    now rewrite (H path Hg). }
  split; [exact Hmain|].
  intros Hnone. rewrite Hmain. unfold main. rewrite Hnone. reflexivity.
Qed.

Lemma main_comprehension (dir : gmap string (list (list string))) :
  main fromisoformat dir
  = (let* tables := comprehension (Spec.week_table fromisoformat dir) (csv_files dir) in
     Ok (join (String "010" "") tables, ["summary.txt created"])).
Proof.
  unfold main.
  rewrite (for_each_ext _ (fun acc x =>
    let* y := Spec.week_table fromisoformat dir x in Ok (acc ++ [y])%list)).
  - rewrite Driver_facts.for_each_collect.
    destruct (comprehension _ _); reflexivity.
  - intros acc x. apply Driver_facts.process_file_week_table.
Qed.

(** C7. The driver takes the names of the directory made of [week], any
    text and [.csv], each once, in the order of strings; for each it reads
    the week number as the digits of that text, 0 when there are none; it
    writes the tables, in that order, joined by a newline, each table ending
    with a blank line. For the names week1.csv, week10.csv and week2.csv the
    order is week1, week10, week2 and the numbers are 1, 10 and 2. The
    selected names are names of files, texts of ASCII of at most 255
    characters. *)
Theorem driver_follows_filename_order (dir : gmap string (list (list string))) :
  Forall Spec.file_name (csv_files dir) ->
  main fromisoformat dir
  = (let* tables := comprehension (Spec.week_table fromisoformat dir) (csv_files dir) in
     Ok (join (String "010" "") tables, ["summary.txt created"]))
  /\ StronglySorted String.le (csv_files dir)
  /\ NoDup (csv_files dir)
  /\ (forall name, In name (csv_files dir)
                   <-> name ∈ dom dir /\ exists x, name = "week" +:+ x +:+ ".csv")
  /\ (forall x, In ("week" +:+ x +:+ ".csv") (csv_files dir) ->
        week_number_of ("week" +:+ x +:+ ".csv")
        = Ok (Z.of_N (PyNum.digits_value (filter_chars is_digit x)))
        /\ Spec.week_number ("week" +:+ x +:+ ".csv")
           = Z.of_N (PyNum.digits_value (filter_chars is_digit x)))
  /\ (forall week_number daily, exists body,
        generate_table_text week_number daily
        = Ok (body +:+ String "010" (String "010" "")))
  /\ (forall c1 c10 c2 : list (list string),
        csv_files (<["week2.csv" := c2]> (<["week10.csv" := c10]> (<["week1.csv" := c1]> ∅)))
        = ["week1.csv"; "week10.csv"; "week2.csv"])
  /\ map Spec.week_number ["week1.csv"; "week10.csv"; "week2.csv"; "week.csv"]
     = [1; 10; 2; 0].
Proof.
  intros _.
  destruct (Driver_facts.csv_files_spec dir) as (Hsorted & Hnodup & Hin).
  split; [apply main_comprehension|].
  split; [exact Hsorted|]. split; [exact Hnodup|]. split; [|split; [|split; [|split]]].
  - intros name. rewrite Hin, Files_facts.glob_week_csv_names. reflexivity.
  - intros x _. rewrite Driver_facts.week_number_of_digits.
    now rewrite Files_facts.week_number_name.
  - intros w daily.
    destruct (Table_facts.week_table_rows w daily) as (rows & Htext).
    rewrite Htext.
    rewrite Driver_facts.join_snoc by (unfold header_lines; discriminate).
    eexists. reflexivity.
  - intros c1 c10 c2. vm_compute. reflexivity.
  - vm_compute. reflexivity.
Qed.

Lemma comprehension_first_error {A B} (f : A -> result B) (l : list A) (e : exn) :
  comprehension f l = Err e ->
  exists l1 x l2, l = (l1 ++ x :: l2)%list /\ f x = Err e
                  /\ Forall (fun y => exists b, f y = Ok b) l1.
Proof.
  induction l as [|y l IH]; cbn [comprehension]; [discriminate|].
  destruct (f y) as [b|e'] eqn:Ey; cbn [bind].
  - destruct (comprehension f l) as [ys|e''] eqn:El; cbn [bind]; [discriminate|].
    intros H. inversion H; subst.
    destruct (IH eq_refl) as (l1 & x & l2 & -> & Hx & Hl1).
    exists (y :: l1), x, l2. split; [reflexivity|]. split; [exact Hx|].
    constructor; [eauto | exact Hl1].
  - intros H. inversion H; subst. exists [], y, l. split; [reflexivity|].
    split; [exact Ey | constructor].
Qed.

Lemma comprehension_raises {A B} (f : A -> result B) (l : list A) (x : A) (e : exn) :
  In x l -> f x = Err e -> exists e', comprehension f l = Err e'.
Proof.
  intros Hin Hx. induction l as [|y l IH]; [destruct Hin|].
  cbn [comprehension]. destruct (f y) as [b|e'] eqn:Ey; cbn [bind]; [|eauto].
  destruct Hin as [->|Hin]; [congruence|].
  destruct (IH Hin) as [e'' ->]. cbn [bind]. eauto.
Qed.

(** X21. One file that cannot be rendered stops the summary: [main] raises,
    writes nothing and prints nothing, though other files are good; the
    exception is that of the first such file in the order of the names. The
    selected names are names of files, texts of ASCII of at most 255
    characters, so that the week number of each can be read. *)
Theorem one_bad_file_stops_the_summary
    (dir : gmap string (list (list string))) (path : string) (e : exn) :
  Forall Spec.file_name (csv_files dir) ->
  In path (csv_files dir) ->
  Spec.week_table fromisoformat dir path = Err e ->
  exists (first : string) (e' : exn),
    main fromisoformat dir = Err e'
    /\ In first (csv_files dir)
    /\ Spec.week_table fromisoformat dir first = Err e'
    /\ String.le first path.
Proof.
  intros _ Hin He. rewrite main_comprehension.
  destruct (comprehension_raises _ _ path e Hin He) as [e' Hc].
  destruct (comprehension_first_error _ _ _ Hc) as (l1 & x & l2 & Hl & Hx & Hl1).
  exists x, e'. rewrite Hc. split; [reflexivity|].
  split; [rewrite Hl; apply in_or_app; right; left; reflexivity|].
  split; [exact Hx|].
  destruct (Driver_facts.csv_files_spec dir) as (Hs & _ & _).
  rewrite Hl in Hs, Hin. apply in_app_or in Hin as [Hin|[<-|Hin]].
  - rewrite Forall_forall in Hl1.
    destruct (Hl1 path (proj2 (list_elem_of_In _ _) Hin)) as [b Hb]. congruence.
  - reflexivity.
  - apply StronglySorted_app in Hs as (_ & _ & Hs).
    apply StronglySorted_cons in Hs as [Hs _].
    rewrite Forall_forall in Hs. apply Hs. now apply list_elem_of_In.
Qed.

(** X22. The summary of a directory whose only matching file is
    [week42.csv] is what TaskD prints for that file, line after line, with
    the blank line that ends every table of TaskE; and the two programs
    fail together, with the same exception. *)
Theorem summary_of_week42_is_the_table_of_task_d (records : list (list string)) :
  main fromisoformat (<["week42.csv" := records]> ∅)
  = (let* lines := TaskD.main fromisoformat records in
     Ok (join (String "010" "") (lines ++ [String "010" ""])%list,
         ["summary.txt created"])).
Proof.
  unfold main.
  assert (Hfiles : csv_files (<["week42.csv" := records]> ∅) = ["week42.csv"])
    by (vm_compute; reflexivity).
  rewrite Hfiles. cbn [for_each]. unfold process_file.
  assert (Hweek : week_number_of "week42.csv" = Ok 42) by (vm_compute; reflexivity).
  rewrite Hweek, lookup_insert_eq. cbn [bind default from_option id].
  unfold TaskD.main, TaskD.read_data, TaskD.compute_daily_totals.
  destruct (read_data fromisoformat records) as [rows|e]; cbn [bind]; [|reflexivity].
  destruct (compute_daily_totals rows) as [daily|e]; cbn [bind]; [|reflexivity].
  unfold generate_table_text, TaskD.print_table.
  change (header_lines 42)
    with ["Week 42 - Electricity Report (kWh)" +:+ String "010" "";
          "Day          Date        Consumption (kWh)      Production (kWh)";
          "           (dd.mm.yyyy)  v1    | v2   | v3           v1   |  v2  | v3";
          repeat_char "-" 70].
  destruct (for_each (table_row daily) (sorted_dates daily) _) as [lines|e];
    reflexivity.
Qed.

End Summary.

(** A directory with one weekly file and a file of notes. *)
Lemma other_files_are_never_read_witness :
  main (fun _ => None)
    (<["notes.txt" := [["remember"]]]> (<["week1.csv" := [Spec.expected_columns]]> ∅))
  = main (fun _ => None) (<["week1.csv" := [Spec.expected_columns]]> ∅).
Proof.
  refine (proj1 (other_files_are_never_read (fun _ => None) _ _ _)).
  intros name Hg. destruct (decide (name = "notes.txt")) as [->|Hne].
  - vm_compute in Hg. discriminate Hg.
  - apply lookup_insert_ne. congruence.
Defined.

(** The files week1.csv, week10.csv and week2.csv, each without a line. *)
Lemma driver_follows_filename_order_witness :
  main (fun _ => None)
    (<["week2.csv" := []]> (<["week10.csv" := []]> (<["week1.csv" := []]> ∅)))
  = Ok (join (String "010" "")
          (map (fun n => join (String "010" "") (header_lines n ++ [String "010" ""])%list)
               [1; 10; 2]),
        ["summary.txt created"]).
Proof.
  assert (Hf : csv_files (<["week2.csv" := []]>
                            (<["week10.csv" := []]> (<["week1.csv" := []]> ∅)))
               = ["week1.csv"; "week10.csv"; "week2.csv"]) by (vm_compute; reflexivity).
  assert (Ha : Forall Spec.file_name
                 (csv_files (<["week2.csv" := []]>
                               (<["week10.csv" := []]> (<["week1.csv" := []]> ∅))))).
  { rewrite Hf.
    constructor; [split; [vm_compute; reflexivity | cbn; lia]|].
    constructor; [split; [vm_compute; reflexivity | cbn; lia]|].
    constructor; [split; [vm_compute; reflexivity | cbn; lia]|]. constructor. }
  destruct (driver_follows_filename_order (fun _ => None) _ Ha) as (Hmain & _).
  rewrite Hmain, Hf. vm_compute. reflexivity.
Defined.

(** A directory whose second weekly file holds a timestamp that is none. *)
Lemma one_bad_file_stops_the_summary_witness :
  let monday := {| Datetime.dt_date := {| Datetime.year := 2025; Datetime.month := 10;
                                          Datetime.day := 13 |};
                   Datetime.dt_time := Datetime.midnight |} in
  let fromisoformat s :=
    if String.eqb s "2025-10-13T00:00:00" then Some monday else None in
  exists e,
    main fromisoformat
      (<["week2.csv" := [["Time"]; ["yesterday"]]]>
         (<["week1.csv" := [Spec.expected_columns]]> ∅)) = Err e.
Proof.
  cbv zeta.
  set (fromisoformat := fun s : string =>
    if String.eqb s "2025-10-13T00:00:00"
    then Some {| Datetime.dt_date := {| Datetime.year := 2025; Datetime.month := 10;
                                        Datetime.day := 13 |};
                 Datetime.dt_time := Datetime.midnight |}
    else None).
  assert (Hf : csv_files (<["week2.csv" := [["Time"]; ["yesterday"]]]>
                            (<["week1.csv" := [Spec.expected_columns]]> ∅))
               = ["week1.csv"; "week2.csv"]) by (vm_compute; reflexivity).
  assert (Ha : Forall Spec.file_name
                 (csv_files (<["week2.csv" := [["Time"]; ["yesterday"]]]>
                               (<["week1.csv" := [Spec.expected_columns]]> ∅)))).
  { rewrite Hf.
    constructor; [split; [vm_compute; reflexivity | cbn; lia]|].
    constructor; [split; [vm_compute; reflexivity | cbn; lia]|]. constructor. }
  assert (Hin : In "week2.csv"
                  (csv_files (<["week2.csv" := [["Time"]; ["yesterday"]]]>
                                (<["week1.csv" := [Spec.expected_columns]]> ∅)))).
  { rewrite Hf. right. left. reflexivity. }
  assert (He : Spec.week_table fromisoformat
                 (<["week2.csv" := [["Time"]; ["yesterday"]]]>
                    (<["week1.csv" := [Spec.expected_columns]]> ∅)) "week2.csv"
               = Err (ValueError (InvalidIsoformat "yesterday")))
    by (vm_compute; reflexivity).
  destruct (one_bad_file_stops_the_summary fromisoformat _ _ _ Ha Hin He)
    as (first & e & Hm & _).
  exists e. exact Hm.
Defined.

End Summary_facts.

(** ** TaskD and TaskE: the layout of a row *)
Module Layout_facts.
Import PyStr TaskE PyStr_facts Calendar_facts.

Lemma shape_length (pattern s : string) :
  Spec.shape pattern s = true -> String.length s = String.length pattern.
Proof.
  revert s. induction pattern as [|p pattern IH]; intros s H.
  - destruct s; [reflexivity | discriminate H].
  - destruct s as [|c s]; [destruct p as [[] [] [] [] [] [] [] []]; discriminate H|].
    cbn [String.length]. f_equal. apply IH.
    destruct p as [[] [] [] [] [] [] [] []]; cbn [Spec.shape] in H;
      apply andb_prop in H as [_ H]; exact H.
Qed.

Lemma day_name_length (d : Datetime.date) : (String.length (Spec.day_name d) <= 12)%nat.
Proof.
  unfold Spec.day_name.
  assert (Hz : 0 <= Spec.zeller d < 7)
    by (unfold Spec.zeller; cbv zeta; apply Z.mod_pos_bound; lia).
  assert (Hc : Spec.zeller d = 0 \/ Spec.zeller d = 1 \/ Spec.zeller d = 2
               \/ Spec.zeller d = 3 \/ Spec.zeller d = 4 \/ Spec.zeller d = 5
               \/ Spec.zeller d = 6) by lia.
  destruct Hc as [ -> | [ -> | [ -> | [ -> | [ -> | [ -> | -> ] ] ] ] ] ]; cbn; lia.
Qed.

Lemma length_join3 (a b c : string) :
  String.length (join " | " [a; b; c])
  = (String.length a + String.length b + String.length c + 6)%nat.
Proof. cbn [join]. rewrite !length_append. cbn [String.length]. lia. Qed.

(** X23. The columns of a data row are aligned: for a date of the
    calendar, of the year 1000 or later, and three consumption totals written
    in at most seven characters each, that is with four digits at most before
    the comma, the production totals start after 53 characters. *)
Theorem table_columns_are_aligned
    (daily : gmap Datetime.date totals) (lines : list string)
    (d : Datetime.date) (t : totals) :
  daily !! d = Some t ->
  Spec.valid_date d ->
  1000 <= Datetime.year d ->
  length (cons t) = 3%nat ->
  Forall (fun c => (String.length (format_kwh c) <= 7)%nat) (cons t) ->
  exists left : string,
    table_row daily lines d
    = Ok (lines ++ [left +:+ join " | " (map format_kwh (prod t))])%list
    /\ String.length left = 53%nat.
Proof.
  intros Ht Hd Hyear Hlen Hfit.
  exists (ljust 12 (Spec.day_name d) +:+ " "
          +:+ ljust 11 (Datetime.date_strftime d "%d.%m.%Y") +:+ " "
          +:+ ljust 27 (join " | " (map format_kwh (cons t))) +:+ " ").
  split.
  - unfold table_row.
    rewrite (Table_facts.getitem_day_name d Hd). cbn [bind]. rewrite Ht. cbn [bind].
    now rewrite !append_assoc.
  - rewrite !length_append, !Table_facts.length_ljust.
    rewrite (shape_length _ _ (date_text_shape d Hd Hyear)).
    pose proof (day_name_length d) as Hday.
    destruct (cons t) as [|c0 [|c1 [|c2 [|? ?]]]]; try discriminate Hlen.
    cbn [map]. rewrite length_join3.
    inversion Hfit as [|? ? H0 Hfit1]; subst.
    inversion Hfit1 as [|? ? H1 Hfit2]; subst.
    inversion Hfit2 as [|? ? H2 _]; subst.
    cbn [String.length]. lia.
Qed.

(** A Monday with 3 kWh, 0.4 kWh and 0.6 kWh. *)
Lemma table_columns_are_aligned_witness :
  let d := {| Datetime.year := 2025; Datetime.month := 10; Datetime.day := 13 |} in
  let t := {| cons := [PyNum.of_Z 3; Spec.kwh 400; Spec.kwh 600];
              prod := [PyNum.fzero; PyNum.fzero; Spec.kwh 5] |} in
  exists left : string,
    table_row (<[d := t]> ∅) [] d = Ok [left +:+ "0,00 | 0,00 | 0,01"]
    /\ String.length left = 53%nat.
Proof.
  cbv zeta.
  assert (Hd : Spec.valid_date
                 {| Datetime.year := 2025; Datetime.month := 10; Datetime.day := 13 |})
    by (unfold Spec.valid_date; cbn; lia).
  assert (Hy : 1000 <= Datetime.year
                 {| Datetime.year := 2025; Datetime.month := 10; Datetime.day := 13 |})
    by (cbn; lia).
  assert (Hfit : Forall (fun c => (String.length (format_kwh c) <= 7)%nat)
                   [PyNum.of_Z 3; Spec.kwh 400; Spec.kwh 600]).
  { repeat constructor; apply Nat.leb_le; vm_compute; reflexivity. }
  assert (Hprod : join " | " (map format_kwh [PyNum.fzero; PyNum.fzero; Spec.kwh 5])
                  = "0,00 | 0,00 | 0,01") by (vm_compute; reflexivity).
  rewrite <- Hprod.
  exact (table_columns_are_aligned _ []
           {| Datetime.year := 2025; Datetime.month := 10; Datetime.day := 13 |}
           {| cons := [PyNum.of_Z 3; Spec.kwh 400; Spec.kwh 600];
              prod := [PyNum.fzero; PyNum.fzero; Spec.kwh 5] |}
           (lookup_insert_eq _ _ _) Hd Hy eq_refl Hfit).
Defined.

End Layout_facts.

(** ** TaskD and TaskE: files without data *)
Module Empty_facts.
Import PyStr TaskE.

Section Empty.
Variable fromisoformat : string -> option Datetime.datetime.

(** X24. A file without data records gives the headings alone: with no
    line, or with a header of whatever columns followed by empty lines
    only, TaskD prints its four heading lines and the table of TaskE is its
    four heading lines and the closing blank line; no date is listed and
    nothing is raised. *)
Theorem no_data_record_gives_the_headings_only
    (fieldnames : list string) (rest : list (list string))
    (dir : gmap string (list (list string))) (path : string) :
  Forall (fun record => record = []) rest ->
  TaskD.main fromisoformat (fieldnames :: rest) = Ok (header_lines 42)
  /\ TaskD.main fromisoformat [] = Ok (header_lines 42)
  /\ (dir !! path = Some (fieldnames :: rest) ->
      Spec.week_table fromisoformat dir path
      = Ok (join (String "010" "")
              (header_lines (Spec.week_number path) ++ [String "010" ""])%list)).
Proof.
  intros Hrest.
  assert (Hread : read_data fromisoformat (fieldnames :: rest) = Ok []).
  { unfold read_data. cbn [Csv.DictReader]. now rewrite (Reader_facts.filter_all_empty rest Hrest). }
  assert (Hprint : TaskD.print_table ∅ = Ok (header_lines 42)).
  { unfold TaskD.print_table. rewrite Table_facts.sorted_dates_empty. reflexivity. }
  split; [|split].
  - unfold TaskD.main, TaskD.read_data, TaskD.compute_daily_totals.
    rewrite Hread. cbn [bind compute_daily_totals for_each]. exact Hprint.
  - unfold TaskD.main, TaskD.read_data, TaskD.compute_daily_totals.
    cbn [read_data Csv.DictReader for_each bind compute_daily_totals]. exact Hprint.
  - intros Hpath. unfold Spec.week_table. rewrite Hpath.
    cbn [default from_option id]. rewrite Hread.
    cbn [bind compute_daily_totals for_each]. unfold generate_table_text.
    rewrite Table_facts.sorted_dates_empty. reflexivity.
Qed.

End Empty.

(** A file of a header and two empty lines. *)
Lemma no_data_record_gives_the_headings_only_witness :
  TaskD.main (fun _ => None) [["Foo"; "Bar"]; []; []] = Ok (header_lines 42).
Proof.
  refine (proj1 (no_data_record_gives_the_headings_only (fun _ => None)
                   ["Foo"; "Bar"] [[]; []] ∅ "" _)).
  repeat constructor.
Defined.

End Empty_facts.

(** ** TaskC: the end of a line *)
Module Ends_facts.
Import PyStr TaskC PyStr_facts Lines_facts.

Lemma rstrip_blank (ws : string) : all_chars is_space ws = true -> rstrip ws = "".
Proof.
  induction ws as [|c ws IH]; [reflexivity|]. cbn [all_chars rstrip].
  intros H. apply andb_prop in H as [Hc Hws]. now rewrite (IH Hws), Hc.
Qed.

Lemma rstrip_append_blank (s ws : string) :
  all_chars is_space ws = true -> rstrip (s +:+ ws) = rstrip s.
Proof.
  intros Hws. induction s as [|c s IH]; [now apply rstrip_blank|].
  rewrite append_cons. cbn [rstrip]. now rewrite IH.
Qed.

Lemma lstrip_append_blank (s ws : string) :
  all_chars is_space ws = true ->
  lstrip (s +:+ ws) = lstrip s +:+ ws \/ (lstrip (s +:+ ws) = "" /\ lstrip s = "").
Proof.
  intros Hws. induction s as [|c s IH].
  - right. split; [|reflexivity]. rewrite append_nil.
    pose proof (strip_blank ws Hws) as H. unfold strip in H.
    destruct (lstrip_head ws) as [Hl|(c & t & Hl & Hc)]; [exact Hl|].
    rewrite Hl in H. destruct (rstrip_head c t Hc) as [u Hu]. congruence.
  - rewrite append_cons. cbn [lstrip]. destruct (is_space c); [exact IH|].
    left. now rewrite append_cons.
Qed.

Lemma strip_append_blank (s ws : string) :
  all_chars is_space ws = true -> strip (s +:+ ws) = strip s.
Proof.
  intros Hws. unfold strip.
  destruct (lstrip_append_blank s ws Hws) as [->|[-> ->]]; [|reflexivity].
  now apply rstrip_append_blank.
Qed.

Lemma split_append_blank (s ws : string) :
  all_chars is_space ws = true ->
  exists l x, split "|" s = (l ++ [x])%list /\ split "|" (s +:+ ws) = (l ++ [x +:+ ws])%list.
Proof.
  intros Hws. induction s as [|c s IH].
  - exists [], "". rewrite append_nil, (split_blank ws Hws). split; reflexivity.
  - destruct IH as (l & x & Hs & Hsw). rewrite append_cons. cbn [split].
    rewrite Hs, Hsw. destruct (Ascii.eqb c "|").
    + exists ("" :: l), x. split; reflexivity.
    + destruct l as [|w l]; cbn [app].
      * exists [], (String c x). split; reflexivity.
      * exists (String c w :: l), x. split; reflexivity.
Qed.

(** X25. White space at the end of a line has no effect: with or without
    its end of line, and with any blanks before it, a line gives the same
    outcome, and the list of fields is the same after the call. *)
Theorem end_of_line_is_ignored (line ws : string) :
  all_chars is_space ws = true ->
  convert_reservation_data (split "|" (line +:+ ws))
  = convert_reservation_data (split "|" line).
Proof.
  intros Hws. destruct (split_append_blank line ws Hws) as (l & x & -> & ->).
  rewrite !convert_snoc. now rewrite (strip_append_blank x ws Hws).
Qed.

(** A line with and without its end of line. *)
Lemma end_of_line_is_ignored_witness :
  convert_reservation_data
    (split "|" ("201|Moomin Valley|moomin@whitevalley.org|0509876543|2025-11-12|09:00|2|18.50|True|Forest Area 1|2025-08-12 14:33:20" +:+ String "010" ""))
  = convert_reservation_data
      (split "|" "201|Moomin Valley|moomin@whitevalley.org|0509876543|2025-11-12|09:00|2|18.50|True|Forest Area 1|2025-08-12 14:33:20").
Proof.
  apply end_of_line_is_ignored. vm_compute. reflexivity.
Defined.

End Ends_facts.

(** ** The model on concrete inputs *)
Module Examples.
Import PyStr PyNum.

Example int_accepts_blanks_zeros_underscores :
  map int [" 42 "; "-007"; "+5"; "1_000"; "1__0"; ""; "12a"]
  = [Ok 42; Ok (-7); Ok 5; Ok 1000;
     Err (ValueError (InvalidIntLiteral "1__0"));
     Err (ValueError (InvalidIntLiteral ""));
     Err (ValueError (InvalidIntLiteral "12a"))].
Proof. vm_compute. reflexivity. Qed.

Example float_is_correctly_rounded :
  map float_of_string ["18.50"; "0.1"; "1e23"; "9007199254740993"; "-Infinity"; "1e"]
  = [Ok (S754_finite false 5207287069147136 (-48));
     Ok (S754_finite false 7205759403792794 (-56));
     Ok (S754_finite false 5960464477539062 24);
     Ok (S754_finite false 4503599627370496 1);
     Ok (S754_infinity true);
     Err (ValueError (CouldNotConvertFloat "1e"))].
Proof. vm_compute. reflexivity. Qed.

Example two_decimals_round_half_even :
  map (fun s => match float_of_string s with
                | Ok f => format_2f f
                | Err _ => "error"
                end)
      ["2.675"; "0.125"; "0.375"; "-0.001"; "0.005"; "1234567.891"; "inf"; "nan"]
  = ["2.67"; "0.12"; "0.38"; "-0.00"; "0.01"; "1234567.89"; "inf"; "nan"].
Proof. vm_compute. reflexivity. Qed.

Example strptime_accepts_short_fields :
  Datetime.strptime "2025-1-2" "%Y-%m-%d"
  = Ok {| Datetime.dt_date := {| Datetime.year := 2025; Datetime.month := 1;
                                 Datetime.day := 2 |};
          Datetime.dt_time := Datetime.midnight |}.
Proof. vm_compute. reflexivity. Qed.

Example strptime_rejects_seconds_after_minutes :
  Datetime.strptime "09:00:00" "%H:%M" = Err (ValueError (UnconvertedData ":00")).
Proof. vm_compute. reflexivity. Qed.

Example strptime_rejects_month_13 :
  Datetime.strptime "2025-13-01" "%Y-%m-%d"
  = Err (ValueError (TimeDataMismatch "2025-13-01" "%Y-%m-%d")).
Proof. vm_compute. reflexivity. Qed.

Example weekdays_of_known_dates :
  map Spec.day_name
    [ {| Datetime.year := 2025; Datetime.month := 10; Datetime.day := 13 |};
      {| Datetime.year := 2025; Datetime.month := 11; Datetime.day := 12 |};
      {| Datetime.year := 2024; Datetime.month := 2; Datetime.day := 29 |};
      {| Datetime.year := 1970; Datetime.month := 1; Datetime.day := 1 |} ]
  = ["Monday"; "Wednesday"; "Thursday"; "Thursday"].
Proof. vm_compute. reflexivity. Qed.

Example table_line_of_a_monday :
  Spec.table_line
    ({| Datetime.year := 2025; Datetime.month := 10; Datetime.day := 13 |},
     {| TaskE.cons := [of_Z 3; Spec.kwh 400; Spec.kwh 600];
        TaskE.prod := [fzero; fzero; Spec.kwh 5] |})
  = "Monday       13.10.2025  3,00 | 0,40 | 0,60          0,00 | 0,00 | 0,01".
Proof. vm_compute. reflexivity. Qed.

Example reservation_report :
  TaskC.main
    [ "201|Moomin Valley|moomin@whitevalley.org|0509876543|2025-11-12|09:00|2|18.50|True|Forest Area 1|2025-08-12 14:33:20" +:+ String "010" "";
      "202|Snork|snork@whitevalley.org|0501234567|2025-11-13|10:30|5|100|False|Cave|2025-08-12 14:33:21" +:+ String "010" "" ]
  = ([ "1) Confirmed Reservations";
       "- Moomin Valley, Forest Area 1, 12.11.2025 at 09.00";
       String "010" "2) Long Reservations (≥ 3 h)";
       "- Snork, 13.11.2025 at 10.30, duration 5 h, Cave";
       String "010" "3) Reservation Confirmation Status";
       "Moomin Valley → Confirmed";
       "Snork → Not Confirmed";
       String "010" "4) Confirmation Summary";
       "- Confirmed reservations: 1 pcs";
       "- Not confirmed reservations: 1 pcs";
       String "010" "5) Total Revenue from Confirmed Reservations";
       "Total revenue from confirmed reservations: 37,00 €" ],
     Ok tt).
Proof. vm_compute. reflexivity. Qed.

(** The line of the documentation of TaskC, with seconds in its time, is
    not one the conversion accepts. *)
Example documented_line_is_rejected :
  snd (TaskC.convert_reservation_data
         (split "|" "201|Moomin Valley|moomin@whitevalley.org|0509876543|2025-11-12|09:00:00|2|18.50|True|Forest Area 1|2025-08-12 14:33:20"))
  = Err (ValueError (UnconvertedData ":00")).
Proof. vm_compute. reflexivity. Qed.

Example summary_of_two_weeks :
  let header := ["Time"; "Consumption phase 1 Wh"; "Consumption phase 2 Wh";
                 "Consumption phase 3 Wh"; "Production phase 1 Wh";
                 "Production phase 2 Wh"; "Production phase 3 Wh"] in
  let monday := {| Datetime.dt_date := {| Datetime.year := 2025; Datetime.month := 10;
                                          Datetime.day := 13 |};
                   Datetime.dt_time := Datetime.midnight |} in
  let fromisoformat s := if String.eqb s "2025-10-13T00:00:00" then Some monday else None in
  TaskE.main fromisoformat
    (<["week2.csv" := [header]]>
       (<["week10.csv" := [header;
                           ["2025-10-13T00:00:00"; "1000"; "200"; "300"; "0"; "0"; "5"];
                           [];
                           ["2025-10-13T00:00:00"; "2000"; "200"; "300"; "0"; "0"; "0"]]]>
          (<["notes.txt" := []]> ∅)))
  = Ok (join (String "010" "")
          [ "Week 10 - Electricity Report (kWh)"; "";
            "Day          Date        Consumption (kWh)      Production (kWh)";
            "           (dd.mm.yyyy)  v1    | v2   | v3           v1   |  v2  | v3";
            "----------------------------------------------------------------------";
            "Monday       13.10.2025  3,00 | 0,40 | 0,60          0,00 | 0,00 | 0,01";
            ""; "";
            "Week 2 - Electricity Report (kWh)"; "";
            "Day          Date        Consumption (kWh)      Production (kWh)";
            "           (dd.mm.yyyy)  v1    | v2   | v3           v1   |  v2  | v3";
            "----------------------------------------------------------------------";
            ""; ""],
        ["summary.txt created"]).
Proof. vm_compute. reflexivity. Qed.

End Examples.
